(** * BannerCache: the low-resolution banner cache of StepMania

    A shallow embedding of [src/stepmania/src/BannerCache.cpp] and the
    properties of its orchestration layer: the staleness check of
    [CacheBanner], the bounded retry of [LoadBanner], the demand
    refcount, the resize-target arithmetic of [CacheBannerInternal] and
    the guards of [LoadCachedBanner]; and, further on, the ownership of
    the bitmaps, what a call leaves on disk and in the index, and the
    hand-over of a cached banner to a texture.

    C++ [int] values are modelled in [Z].  Every intermediate value of the
    arithmetic below stays inside the 32-bit range for image dimensions up
    to [2^30] (lemma [resize_target_in_int_range]), so no wrap-around can
    be observed there; [/] on [int] truncates and is written [Z.quot]. *)

From Stdlib Require Import ZArith Lia Bool List String.
From stdpp Require Import gmap strings list fin_maps.

Local Open Scope Z_scope.

(** ** RageUtil *)

Module RageUtil.

(** Modelled from the spec: [power_of_two] is declared in RageUtil.h and
    defined in RageUtil.cpp, neither of which is part of this source tree.
    The spec calls it the "enclosing", "rounded-up" or "next" power of two
    of its argument (nextPowerOfTwo(40) is 64): the least [2^k] that is not
    below the input, hence [1] for every input below [2]. *)
Definition power_of_two (iInput : Z) : Z := 2 ^ Z.log2_up iInput.

End RageUtil.

Import RageUtil.

(** ** The resize arithmetic (BannerCache.cpp, lines 325-330 and 431-441) *)

(** [static inline int closest( int num, int n1, int n2 )] *)
Definition closest (num n1 n2 : Z) : Z :=
  if Z.abs (num - n1) >? Z.abs (num - n2) then n2 else n1.

(** The rounding step of [CacheBannerInternal] for one axis, applied to the
    halved dimension:
    [width = closest(width, power_of_two(width), power_of_two(width) / 2)]. *)
Definition round_to_power_of_two (width : Z) : Z :=
  closest width (power_of_two width) (power_of_two width ÷ 2).

(** The floor of one axis: [min(32, power_of_two(iSourceWidth))]. *)
Definition resize_floor (iSourceWidth : Z) : Z :=
  Z.min 32 (power_of_two iSourceWidth).

(** Lines 431-441 for one axis: halve, round, clamp.  [CacheBannerInternal]
    runs the same three statements on the width and on the height. *)
Definition resize_target (iSourceWidth : Z) : Z :=
  let width := iSourceWidth ÷ 2 in
  let width := round_to_power_of_two width in
  Z.max width (resize_floor iSourceWidth).

(** An exact power of two. *)
Definition is_power_of_two (n : Z) : Prop := ∃ k : Z, 0 ≤ k ∧ n = 2 ^ k.

(** The test [BannerTexture::Create] asserts on both dimensions:
    [img->w == power_of_two(img->w)]. *)
Definition power_of_two_check (n : Z) : bool := n =? power_of_two n.

Definition in_int_range (z : Z) : Prop := - 2 ^ 31 ≤ z < 2 ^ 31.

(** ** Data of the collaborators *)

(** [PREFSMAN->m_BannerCache].  Modelled from the spec: the enumeration is
    declared in PrefsManager.h, which is not part of this source tree; the
    spec names the modes disabled, preloadAll and loadOnDemand, and the code
    names the last two. *)
Inductive BannerCacheMode :=
  | BNCACHE_OFF
  | BNCACHE_LOW_RES_PRELOAD
  | BNCACHE_LOW_RES_LOAD_ON_DEMAND.

Global Instance BannerCacheMode_eq_dec : EqDecision BannerCacheMode.
Proof. solve_decision. Defined.

Record PrefsManager := {
  m_BannerCache : BannerCacheMode;
  m_bFastLoad : bool;
  m_bPalettedBannerCache : bool
}.

(** The pixel buffer of a surface is kept symbolic: it records which of the
    RageSurfaceUtils operations produced it, in the order the code applied
    them.  The pixel algorithms themselves live outside this file. *)
Inductive Pixels :=
  | DecodedPixels (id : Z)
  | BlankPixels
  | HotPinkColorKeyed (p : Pixels)
  | Converted (p : Pixels)
  | BlitTransformed (src : Pixels)
  | Zoomed (p : Pixels) (width height : Z)
  | Palettized (p : Pixels)
  | OrderedDithered (src : Pixels).

Record RageSurfaceFormat := {
  BitsPerPixel : Z;
  Rmask : Z; Gmask : Z; Bmask : Z; Amask : Z;
  palette : bool
}.

(** [fmt.BytesPerPixel], which CreateSurface keeps at an eighth of the
    bit depth. *)
Definition BytesPerPixel (f : RageSurfaceFormat) : Z := BitsPerPixel f ÷ 8.

Record RageSurface := {
  surface_w : Z;
  surface_h : Z;
  surface_fmt : RageSurfaceFormat;
  surface_pixels : Pixels
}.

(** A file as the file driver sees it.  [LoadFile] decodes image files,
    [LoadSurface] reads back what [SaveSurface] dumped, and the index is an
    IniFile. *)
Record BannerRecord := {
  Path : option string;
  Width : option Z;
  Height : option Z;
  FullHash : option Z;
  Rotated : option bool
}.

Inductive FileContents :=
  | ImageFile (img : RageSurface)
  | SavedSurface (img : RageSurface)
  | IniFileContents (ini : gmap string BannerRecord)
  | OtherFile.

(** [file_hash] is the value [GetHashForFile] reports for the file, an
    [unsigned] that the code only stores and compares. *)
Record File := {
  file_hash : Z;
  file_contents : FileContents
}.

Inductive TexturePolicy := TEX_DEFAULT | TEX_VOLATILE.

(** [RageTextureID]: the file name, the unload policy, and the loading hints
    (mip maps, colour depth, colour key, ...) that this file never reads,
    folded into one field. *)
Record RageTextureID := {
  filename : string;
  Policy : TexturePolicy;
  texture_hints : Z
}.

Inductive PixelFormat := PixelFormat_PAL | PixelFormat_RGB5A1 | PixelFormat_RGBA4.

(** [struct BannerTexture]; the reference [RageSurface *&img] into
    [g_BannerPathToImage] is kept as the key of the slot it aliases. *)
Record BannerTexture := {
  texture_ID : RageTextureID;
  img_slot : string;
  width : Z;
  height : Z;
  m_iSourceWidth : Z;
  m_iSourceHeight : Z;
  m_iTextureWidth : Z;
  m_iTextureHeight : Z;
  m_iImageWidth : Z;
  m_iImageHeight : Z;
  m_uTexHandle : Z
}.

Inductive LogArg := ArgS (s : string) | ArgI (i : Z).

(** What a call leaves behind for an observer: log lines with their format
    string and arguments, and the file operations it asked RageSurfaceUtils
    and IniFile for. *)
Inductive Event :=
  | CHECKPOINT_M (fmt : string) (args : list LogArg)
  | LOG_Trace (fmt : string) (args : list LogArg)
  | LOG_Warn (fmt : string) (args : list LogArg)
  | LOG_UserLog (sType sElement fmt : string) (args : list LogArg)
  | CALL_LoadFile (sPath : string)
  | CALL_LoadSurface (sPath : string)
  | CALL_SaveSurface (sPath : string)
  | CALL_WriteFile (sPath : string).

Global Instance LogArg_eq_dec : EqDecision LogArg.
Proof. solve_decision. Defined.
Global Instance Event_eq_dec : EqDecision Event.
Proof. solve_decision. Defined.

(** The free store of surfaces: [new] hands out addresses in increasing
    order and [delete] empties a cell. *)
Record Heap := {
  cells : gmap positive RageSurface;
  next : positive
}.

Definition heap_alloc (img : RageSurface) (hp : Heap) : Heap :=
  {| cells := <[next hp := img]> (cells hp); next := Pos.succ (next hp) |}.

Definition heap_free (p : positive) (hp : Heap) : Heap :=
  {| cells := delete p (cells hp); next := next hp |}.

Definition heap_update (f : RageSurface → RageSurface) (p : positive) (hp : Heap) : Heap :=
  {| cells := alter f p (cells hp); next := next hp |}.

(** The functions of other modules that this file calls and that do not
    depend on the state of the cache. *)
Class Collaborators := {
  (** Sprite::IsDiagonalBanner *)
  IsDiagonalBanner : Z → Z → bool;
  (** Sprite::SongBannerTexture *)
  SongBannerTexture : RageTextureID → RageTextureID;
  (** SongCacheIndex::GetCacheFilePath *)
  GetCacheFilePath : string → string → string;
  (** SpecialFiles::CACHE_DIR *)
  CACHE_DIR : string;
  (** the fingerprint the file driver gives a file that SaveSurface or
      IniFile::WriteFile has just written *)
  hash_of_written : string → FileContents → Z;
  (** RageTextureManager *)
  RageTextureManager : Type;
  IsTextureRegistered : RageTextureID → RageTextureManager → bool;
  RegisterTexture : RageTextureID → BannerTexture → RageTextureManager → RageTextureManager;
  UnloadTexture : BannerTexture → RageTextureManager → RageTextureManager;
  (** RageDisplay *)
  RageDisplay : Type;
  GetMaxTextureSize : RageDisplay → Z;
  SupportsTextureFormat : PixelFormat → RageDisplay → bool;
  CreateTexture : PixelFormat → RageSurface → RageDisplay → Z * RageDisplay
}.

Section BannerCache.

Context `{collab : Collaborators}.

(** ** The state the file works on *)

(** The two file-scope statics [g_BannerPathToImage] and
    [g_iDemandRefcount], the member [BannerData], and the singletons the
    code reaches through PREFSMAN, DISPLAY, TEXTUREMAN, FILEMAN and LOG.
    [g_BannerPathToImage] maps a banner path to the address of its surface
    in [surfaces].  [g_iDemandRefcount] is an [int] that only ever moves by
    one; it is kept in [Z].  [log] has the latest event first. *)
Record State := {
  PREFSMAN : PrefsManager;
  DISPLAY : RageDisplay;
  TEXTUREMAN : RageTextureManager;
  files : gmap string File;
  read_only : gset string;
  surfaces : Heap;
  g_BannerPathToImage : gmap string positive;
  g_iDemandRefcount : Z;
  BannerData : gmap string BannerRecord;
  log : list Event
}.

Definition set_DISPLAY (d : RageDisplay) (s : State) : State :=
  {| PREFSMAN := PREFSMAN s; DISPLAY := d; TEXTUREMAN := TEXTUREMAN s;
     files := files s; read_only := read_only s; surfaces := surfaces s;
     g_BannerPathToImage := g_BannerPathToImage s;
     g_iDemandRefcount := g_iDemandRefcount s;
     BannerData := BannerData s; log := log s |}.

Definition set_TEXTUREMAN (f : RageTextureManager → RageTextureManager) (s : State) : State :=
  {| PREFSMAN := PREFSMAN s; DISPLAY := DISPLAY s; TEXTUREMAN := f (TEXTUREMAN s);
     files := files s; read_only := read_only s; surfaces := surfaces s;
     g_BannerPathToImage := g_BannerPathToImage s;
     g_iDemandRefcount := g_iDemandRefcount s;
     BannerData := BannerData s; log := log s |}.

Definition set_files (f : gmap string File → gmap string File) (s : State) : State :=
  {| PREFSMAN := PREFSMAN s; DISPLAY := DISPLAY s; TEXTUREMAN := TEXTUREMAN s;
     files := f (files s); read_only := read_only s; surfaces := surfaces s;
     g_BannerPathToImage := g_BannerPathToImage s;
     g_iDemandRefcount := g_iDemandRefcount s;
     BannerData := BannerData s; log := log s |}.

Definition set_surfaces (f : Heap → Heap) (s : State) : State :=
  {| PREFSMAN := PREFSMAN s; DISPLAY := DISPLAY s; TEXTUREMAN := TEXTUREMAN s;
     files := files s; read_only := read_only s; surfaces := f (surfaces s);
     g_BannerPathToImage := g_BannerPathToImage s;
     g_iDemandRefcount := g_iDemandRefcount s;
     BannerData := BannerData s; log := log s |}.

Definition set_g_BannerPathToImage (f : gmap string positive → gmap string positive) (s : State) : State :=
  {| PREFSMAN := PREFSMAN s; DISPLAY := DISPLAY s; TEXTUREMAN := TEXTUREMAN s;
     files := files s; read_only := read_only s; surfaces := surfaces s;
     g_BannerPathToImage := f (g_BannerPathToImage s);
     g_iDemandRefcount := g_iDemandRefcount s;
     BannerData := BannerData s; log := log s |}.

Definition set_g_iDemandRefcount (f : Z → Z) (s : State) : State :=
  {| PREFSMAN := PREFSMAN s; DISPLAY := DISPLAY s; TEXTUREMAN := TEXTUREMAN s;
     files := files s; read_only := read_only s; surfaces := surfaces s;
     g_BannerPathToImage := g_BannerPathToImage s;
     g_iDemandRefcount := f (g_iDemandRefcount s);
     BannerData := BannerData s; log := log s |}.

Definition set_BannerData (f : gmap string BannerRecord → gmap string BannerRecord) (s : State) : State :=
  {| PREFSMAN := PREFSMAN s; DISPLAY := DISPLAY s; TEXTUREMAN := TEXTUREMAN s;
     files := files s; read_only := read_only s; surfaces := surfaces s;
     g_BannerPathToImage := g_BannerPathToImage s;
     g_iDemandRefcount := g_iDemandRefcount s;
     BannerData := f (BannerData s); log := log s |}.

Definition add_event (e : Event) (s : State) : State :=
  {| PREFSMAN := PREFSMAN s; DISPLAY := DISPLAY s; TEXTUREMAN := TEXTUREMAN s;
     files := files s; read_only := read_only s; surfaces := surfaces s;
     g_BannerPathToImage := g_BannerPathToImage s;
     g_iDemandRefcount := g_iDemandRefcount s;
     BannerData := BannerData s; log := e :: log s |}.

(** ** Calls: a state and failure monad *)

(** A call either returns a value in a new state, or stops the program: a
    failed [ASSERT], or the use of a pointer to a surface that is not
    there. *)
Inductive Result (A : Type) :=
  | Ok (a : A) (s : State)
  | Abort (why : string).

Arguments Ok {A} a s.
Arguments Abort {A} why.

Definition M (A : Type) : Type := State → Result A.

Definition ret {A} (a : A) : M A := λ s, Ok a s.

Definition bind {A B} (m : M A) (k : A → M B) : M B :=
  λ s, match m s with
       | Ok a s' => k a s'
       | Abort why => Abort why
       end.

Notation "x <- m ;; k" := (bind m (λ x, k))
  (at level 100, m at next level, right associativity).
Notation "m ;; k" := (bind m (λ _, k))
  (at level 100, right associativity).

Definition gets {A} (f : State → A) : M A := λ s, Ok (f s) s.
Definition modify (f : State → State) : M unit := λ s, Ok tt (f s).
Definition abort {A} (why : string) : M A := λ _, Abort why.
Definition emit (e : Event) : M unit := modify (add_event e).

Definition ASSERT (b : bool) (what : string) : M unit :=
  if b then ret tt else abort what.

(** [FOREACH]: run the body on every element, in order. *)
Fixpoint foreach {A} (l : list A) (body : A → M unit) : M unit :=
  match l with
  | [] => ret tt
  | x :: l' => body x ;; foreach l' body
  end.

(** ** RageSurfaceUtils, FILEMAN and IniFile, as this file uses them *)

Definition new_surface (img : RageSurface) : M positive :=
  p <- gets (λ s, next (surfaces s)) ;;
  modify (set_surfaces (heap_alloc img)) ;;
  ret p.

(** [delete img].  In C++ deleting a surface that is already freed is
    undefined; here it leaves the heap as it is.  The two agree on every
    state in which the address is live and held once, which is what the
    invariant [heap_safe] below provides. *)
Definition delete_surface (p : positive) : M unit :=
  modify (set_surfaces (heap_free p)).

(** [img->...]: read the surface behind a pointer. *)
Definition deref (p : positive) : M RageSurface :=
  hp <- gets surfaces ;;
  match cells hp !! p with
  | Some img => ret img
  | None => abort "dangling surface pointer"
  end.

Definition update_surface (p : positive) (f : RageSurface → RageSurface) : M unit :=
  modify (set_surfaces (heap_update f p)).

Definition DoesFileExist (sPath : string) (s : State) : bool :=
  bool_decide (is_Some (files s !! sPath)).

Definition GetHashForFile (sPath : string) (s : State) : Z :=
  match files s !! sPath with
  | Some f => file_hash f
  | None => 0
  end.

(** A write goes through unless the path cannot be written to. *)
Definition written (sPath : string) (c : FileContents) (ro : gset string)
    (fs : gmap string File) : gmap string File :=
  if decide (sPath ∈ ro) then fs
  else <[sPath := {| file_hash := hash_of_written sPath c; file_contents := c |}]> fs.

Definition write_file (sPath : string) (c : FileContents) : M unit :=
  modify (λ s, set_files (written sPath c (read_only s)) s).

(** [RageSurfaceUtils::LoadFile( sPath, error )]: a new surface, or NULL
    when the file is missing or is not an image. *)
Definition LoadFile (sPath : string) : M (option positive) :=
  emit (CALL_LoadFile sPath) ;;
  fs <- gets files ;;
  match file_contents <$> fs !! sPath with
  | Some (ImageFile img) => p <- new_surface img ;; ret (Some p)
  | _ => ret None
  end.

(** [RageSurfaceUtils::LoadSurface( CachePath )]: a new surface, or NULL
    when the file is missing or was not written by [SaveSurface]. *)
Definition LoadSurface (sPath : string) : M (option positive) :=
  emit (CALL_LoadSurface sPath) ;;
  fs <- gets files ;;
  match file_contents <$> fs !! sPath with
  | Some (SavedSurface img) => p <- new_surface img ;; ret (Some p)
  | _ => ret None
  end.

(** [RageSurfaceUtils::SaveSurface( img, CachePath )]; the code ignores
    whether the write went through. *)
Definition SaveSurface (img : positive) (sPath : string) : M unit :=
  emit (CALL_SaveSurface sPath) ;;
  surf <- deref img ;;
  write_file sPath (SavedSurface surf).

Definition set_pixels (f : Pixels → Pixels) (img : RageSurface) : RageSurface :=
  {| surface_w := surface_w img; surface_h := surface_h img;
     surface_fmt := surface_fmt img; surface_pixels := f (surface_pixels img) |}.

Definition ApplyHotPinkColorKey (img : positive) : M unit :=
  update_surface img (set_pixels HotPinkColorKeyed).

Definition ConvertSurface (img : positive) (width height bpp R G B A : Z) : M unit :=
  update_surface img (λ i,
    {| surface_w := width; surface_h := height;
       surface_fmt := {| BitsPerPixel := bpp; Rmask := R; Gmask := G; Bmask := B;
                         Amask := A; palette := false |};
       surface_pixels := Converted (surface_pixels i) |}).

Definition CreateSurface (width height bpp R G B A : Z) : M positive :=
  new_surface
    {| surface_w := width; surface_h := height;
       surface_fmt := {| BitsPerPixel := bpp; Rmask := R; Gmask := G; Bmask := B;
                         Amask := A; palette := bpp =? 8 |};
       surface_pixels := BlankPixels |}.

Definition BlitTransform (src dst : positive) : M unit :=
  s <- deref src ;;
  update_surface dst (set_pixels (λ _, BlitTransformed (surface_pixels s))).

(** [RageSurfaceUtils::Zoom( img, width, height )] takes the pointer by
    reference and may put a new surface behind it.  The surface is resized
    here where it stands: what a pointer leads to is as in the code, the
    address itself carries no meaning after a resize. *)
Definition Zoom (img : positive) (width height : Z) : M unit :=
  update_surface img (λ i,
    {| surface_w := width; surface_h := height; surface_fmt := surface_fmt i;
       surface_pixels := Zoomed (surface_pixels i) width height |}).

Definition Palettize (img : positive) : M unit :=
  update_surface img (λ i,
    {| surface_w := surface_w i; surface_h := surface_h i;
       surface_fmt := {| BitsPerPixel := 8; Rmask := 0; Gmask := 0; Bmask := 0;
                         Amask := 0; palette := true |};
       surface_pixels := Palettized (surface_pixels i) |}).

Definition OrderedDither (src dst : positive) : M unit :=
  s <- deref src ;;
  update_surface dst (set_pixels (λ _, OrderedDithered (surface_pixels s))).

Definition set_palette (b : bool) (img : RageSurface) : RageSurface :=
  {| surface_w := surface_w img; surface_h := surface_h img;
     surface_fmt := {| BitsPerPixel := BitsPerPixel (surface_fmt img);
                       Rmask := Rmask (surface_fmt img); Gmask := Gmask (surface_fmt img);
                       Bmask := Bmask (surface_fmt img); Amask := Amask (surface_fmt img);
                       palette := b |};
     surface_pixels := surface_pixels img |}.

(** [BannerData.GetValue( sBannerPath, name, out )] leaves [out] alone and
    returns false when the key or the value is missing. *)
Definition GetValue {A} (sBannerPath : string) (field : BannerRecord → option A)
    (s : State) : option A :=
  BannerData s !! sBannerPath ≫= field.

Definition empty_record : BannerRecord :=
  {| Path := None; Width := None; Height := None; FullHash := None; Rotated := None |}.

Definition SetValue (sBannerPath : string) (f : BannerRecord → BannerRecord) : M unit :=
  modify (set_BannerData (λ d,
    <[sBannerPath := f (default empty_record (d !! sBannerPath))]> d)).

Definition BANNER_CACHE_INDEX : string := CACHE_DIR +:+ "banners.cache".

Definition WriteFile (sPath : string) : M unit :=
  emit (CALL_WriteFile sPath) ;;
  d <- gets BannerData ;;
  write_file sPath (IniFileContents d).

(** ** BannerCache.cpp *)

Definition GetBannerCachePath (sBannerPath : string) : string :=
  GetCacheFilePath "Banners" sBannerPath.

(** [void BannerCache::UnloadAllBanners()] *)
Definition UnloadAllBanners : M unit :=
  images <- gets g_BannerPathToImage ;;
  foreach (map_to_list images) (λ it, delete_surface it.2) ;;
  modify (set_g_BannerPathToImage (λ _, ∅)).

(** The body of the loop in [Demand], for the child of [BannerData] named
    [sBannerPath]. *)
Definition Demand_child (sBannerPath : string) : M unit :=
  images <- gets g_BannerPathToImage ;;
  if decide (is_Some (images !! sBannerPath)) then ret tt (* already loaded *) else
  let CachePath := GetBannerCachePath sBannerPath in
  img <- LoadSurface CachePath ;;
  match img with
  | None => ret tt (* doesn't exist *)
  | Some img => modify (set_g_BannerPathToImage <[sBannerPath := img]>)
  end.

(** [void BannerCache::Demand()].  The counter is an [int] in the code and
    is counted in [Z] here: the two agree up to [INT_MAX] nested demands. *)
Definition Demand : M unit :=
  modify (set_g_iDemandRefcount (λ n, n + 1)) ;;
  n <- gets g_iDemandRefcount ;;
  if n >? 1 then ret tt else
  mode <- gets (λ s, m_BannerCache (PREFSMAN s)) ;;
  if decide (mode ≠ BNCACHE_LOW_RES_LOAD_ON_DEMAND) then ret tt else
  children <- gets (λ s, (map_to_list (BannerData s)).*1) ;;
  foreach children Demand_child.

(** [void BannerCache::Undemand()] *)
Definition Undemand : M unit :=
  modify (set_g_iDemandRefcount (λ n, n - 1)) ;;
  n <- gets g_iDemandRefcount ;;
  if negb (n =? 0) then ret tt else
  mode <- gets (λ s, m_BannerCache (PREFSMAN s)) ;;
  if decide (mode ≠ BNCACHE_LOW_RES_LOAD_ON_DEMAND) then ret tt else
  UnloadAllBanners.

Definition set_Path (v : string) (r : BannerRecord) : BannerRecord :=
  {| Path := Some v; Width := Width r; Height := Height r;
     FullHash := FullHash r; Rotated := Rotated r |}.
Definition set_Width (v : Z) (r : BannerRecord) : BannerRecord :=
  {| Path := Path r; Width := Some v; Height := Height r;
     FullHash := FullHash r; Rotated := Rotated r |}.
Definition set_Height (v : Z) (r : BannerRecord) : BannerRecord :=
  {| Path := Path r; Width := Width r; Height := Some v;
     FullHash := FullHash r; Rotated := Rotated r |}.
Definition set_FullHash (v : Z) (r : BannerRecord) : BannerRecord :=
  {| Path := Path r; Width := Width r; Height := Height r;
     FullHash := Some v; Rotated := Rotated r |}.
Definition set_Rotated (v : bool) (r : BannerRecord) : BannerRecord :=
  {| Path := Path r; Width := Width r; Height := Height r;
     FullHash := FullHash r; Rotated := Some v |}.

(** [void BannerCache::CacheBannerInternal( RString sBannerPath )].  The
    text of the decoder's error message is not modelled. *)
Definition CacheBannerInternal (sBannerPath : string) : M unit :=
  img <- LoadFile sBannerPath ;;
  match img with
  | None =>
    emit (LOG_UserLog "Cache file" sBannerPath "couldn't be loaded: %s" [])
  | Some img =>
    surf <- deref img ;;
    r <- (if IsDiagonalBanner (surface_w surf) (surface_h surf) then
            ApplyHotPinkColorKey img ;;
            surf <- deref img ;;
            ConvertSurface img (surface_w surf) (surface_h surf) 32
              0x000000FF 0x0000FF00 0x00FF0000 0xFF000000 ;;
            surf <- deref img ;;
            dst <- CreateSurface 256 64 (BitsPerPixel (surface_fmt surf))
                     (Rmask (surface_fmt surf)) (Gmask (surface_fmt surf))
                     (Bmask (surface_fmt surf)) (Amask (surface_fmt surf)) ;;
            (if BitsPerPixel (surface_fmt surf) =? 8 then
               ASSERT (palette (surface_fmt surf)) "img->format->palette" ;;
               update_surface dst (set_palette (palette (surface_fmt surf)))
             else ret tt) ;;
            BlitTransform img dst ;;
            delete_surface img ;;
            ret (dst, true)
          else ret (img, false)) ;;
    let img := r.1 in
    let WasRotatedBanner := r.2 in
    surf <- deref img ;;
    let iSourceWidth := surface_w surf in
    let iSourceHeight := surface_h surf in
    let width := surface_w surf ÷ 2 in
    let height := surface_h surf ÷ 2 in
    (* Round to the nearest power of two. *)
    let width := closest width (power_of_two width) (power_of_two width ÷ 2) in
    let height := closest height (power_of_two height) (power_of_two height ÷ 2) in
    (* Don't resize the image to less than 32 pixels in either dimension or
       the next power of two of the source (whichever is smaller). *)
    let width := Z.max width (Z.min 32 (power_of_two iSourceWidth)) in
    let height := Z.max height (Z.min 32 (power_of_two iSourceHeight)) in
    ApplyHotPinkColorKey img ;;
    Zoom img width height ;;
    paletted <- gets (λ s, m_bPalettedBannerCache (PREFSMAN s)) ;;
    img <- (if paletted : bool then
              surf <- deref img ;;
              (if negb (BytesPerPixel (surface_fmt surf) =? 1)
               then Palettize img else ret tt) ;;
              ret img
            else
              surf <- deref img ;;
              dst <- CreateSurface (surface_w surf) (surface_h surf) 16
                       0x7C00 0x03E0 0x001F 0x8000 ;;
              OrderedDither img dst ;;
              delete_surface img ;;
              ret dst) ;;
    let CachePath := GetBannerCachePath sBannerPath in
    SaveSurface img CachePath ;;
    (* If an old image is loaded, free it. *)
    images <- gets g_BannerPathToImage ;;
    match images !! sBannerPath with
    | Some oldimg =>
      delete_surface oldimg ;;
      modify (set_g_BannerPathToImage (delete sBannerPath))
    | None => ret tt
    end ;;
    mode <- gets (λ s, m_BannerCache (PREFSMAN s)) ;;
    (if decide (mode = BNCACHE_LOW_RES_PRELOAD) then
       (* Keep it; we're just going to load it anyway. *)
       modify (set_g_BannerPathToImage <[sBannerPath := img]>)
     else delete_surface img) ;;
    (* Remember the original size. *)
    SetValue sBannerPath (set_Path CachePath) ;;
    SetValue sBannerPath (set_Width iSourceWidth) ;;
    SetValue sBannerPath (set_Height iSourceHeight) ;;
    hash <- gets (GetHashForFile sBannerPath) ;;
    SetValue sBannerPath (set_FullHash hash) ;;
    SetValue sBannerPath (set_Rotated WasRotatedBanner) ;;
    WriteFile BANNER_CACHE_INDEX
  end.

(** The loop of [LoadBanner], [for( int tries = 0; tries < 2; ++tries )].
    [fuel] bounds the number of iterations; two are enough, since the loop
    test fails at the third. *)
Fixpoint LoadBanner_loop (fuel : nat) (tries : Z) (sBannerPath CachePath : string) : M unit :=
  match fuel with
  | O => ret tt
  | S fuel' =>
    if negb (tries <? 2) then ret tt else
    images <- gets g_BannerPathToImage ;;
    if decide (is_Some (images !! sBannerPath)) then ret tt (* already loaded *) else
    emit (CHECKPOINT_M "BannerCache::LoadBanner: %s" [ArgS CachePath]) ;;
    img <- LoadSurface CachePath ;;
    match img with
    | None =>
      if tries =? 0 then
        emit (LOG_Trace "Cached banner load of '%s' ('%s') failed, trying to cache ..."
                [ArgS sBannerPath; ArgS CachePath]) ;;
        (* Skip the up-to-date check; it failed to load, so it can't be up
           to date. *)
        CacheBannerInternal sBannerPath ;;
        LoadBanner_loop fuel' (tries + 1) sBannerPath CachePath
      else
        emit (LOG_Trace "Cached banner load of '%s' ('%s') failed"
                [ArgS sBannerPath; ArgS CachePath])
    | Some img =>
      modify (set_g_BannerPathToImage <[sBannerPath := img]>) ;;
      LoadBanner_loop fuel' (tries + 1) sBannerPath CachePath
    end
  end.

(** [void BannerCache::LoadBanner( RString sBannerPath )] *)
Definition LoadBanner (sBannerPath : string) : M unit :=
  if decide (sBannerPath = "") then ret tt (* nothing to do *) else
  mode <- gets (λ s, m_BannerCache (PREFSMAN s)) ;;
  if decide (mode ≠ BNCACHE_LOW_RES_PRELOAD ∧ mode ≠ BNCACHE_LOW_RES_LOAD_ON_DEMAND)
  then ret tt else
  let CachePath := GetBannerCachePath sBannerPath in
  LoadBanner_loop 2 0 sBannerPath CachePath.

(** [void BannerCache::CacheBanner( RString sBannerPath )] *)
Definition CacheBanner (sBannerPath : string) : M unit :=
  mode <- gets (λ s, m_BannerCache (PREFSMAN s)) ;;
  if decide (mode ≠ BNCACHE_LOW_RES_PRELOAD ∧ mode ≠ BNCACHE_LOW_RES_LOAD_ON_DEMAND)
  then ret tt else
  emit (CHECKPOINT_M "%s" [ArgS sBannerPath]) ;;
  source_exists <- gets (DoesFileExist sBannerPath) ;;
  if negb source_exists then ret tt else
  let CachePath := GetBannerCachePath sBannerPath in
  (* Check the full file hash.  If it's the loaded and identical, don't recache. *)
  cache_exists <- gets (DoesFileExist CachePath) ;;
  bCacheUpToDate <-
    (if cache_exists : bool then
       bCacheUpToDate <- gets (λ s, m_bFastLoad (PREFSMAN s)) ;;
       if negb bCacheUpToDate then
         FullHash_ <- gets (GetHashForFile sBannerPath) ;;
         CurFullHash <- gets (GetValue sBannerPath FullHash) ;;
         match CurFullHash with
         | Some CurFullHash => ret (CurFullHash =? FullHash_)
         | None => ret false
         end
       else ret true
     else ret false) ;;
  if bCacheUpToDate : bool then
    (* It's identical.  Just load it, if in preload. *)
    if decide (mode = BNCACHE_LOW_RES_PRELOAD) then LoadBanner sBannerPath else ret tt
  else
    (* The cache file doesn't exist, or is out of date.  Cache it. *)
    CacheBannerInternal sBannerPath.

(** [BannerTexture::Create()].  [ASSERT( img )] fails when the aliased slot
    holds no surface.  [CreateFrameRects] only fills in texture coordinates
    of the base class and is left out. *)
Definition BannerTexture_Create (t : BannerTexture) : M BannerTexture :=
  images <- gets g_BannerPathToImage ;;
  match images !! img_slot t with
  | None => abort "img"
  | Some img =>
    surf <- deref img ;;
    d <- gets DISPLAY ;;
    (if (surface_w surf >? GetMaxTextureSize d) || (surface_h surf >? GetMaxTextureSize d)
     then
       emit (LOG_Warn "Converted %s at runtime" [ArgS (filename (texture_ID t))]) ;;
       let width := Z.min (surface_w surf) (GetMaxTextureSize d) in
       let height := Z.min (surface_h surf) (GetMaxTextureSize d) in
       Zoom img width height
     else ret tt) ;;
    (* We did this when we cached it. *)
    surf <- deref img ;;
    ASSERT (power_of_two_check (surface_w surf)) "img->w == power_of_two(img->w)" ;;
    ASSERT (power_of_two_check (surface_h surf)) "img->h == power_of_two(img->h)" ;;
    let pf := if BitsPerPixel (surface_fmt surf) =? 8
              then PixelFormat_PAL else PixelFormat_RGB5A1 in
    let pf := if negb (SupportsTextureFormat pf d) then PixelFormat_RGBA4 else pf in
    ASSERT (SupportsTextureFormat pf d) "DISPLAY->SupportsTextureFormat(pf)" ;;
    let created := CreateTexture pf surf d in
    modify (set_DISPLAY created.2) ;;
    ret {| texture_ID := texture_ID t; img_slot := img_slot t;
           width := width t; height := height t;
           m_iSourceWidth := width t; m_iSourceHeight := height t;
           m_iTextureWidth := surface_w surf; m_iTextureHeight := surface_h surf;
           m_iImageWidth := surface_w surf; m_iImageHeight := surface_h surf;
           m_uTexHandle := created.1 |}
  end.

(** The constructor [BannerTexture( name, img_, width_, height_ )]. *)
Definition new_BannerTexture (name : RageTextureID) (slot : string) (width_ height_ : Z)
    : M BannerTexture :=
  BannerTexture_Create
    {| texture_ID := name; img_slot := slot; width := width_; height := height_;
       m_iSourceWidth := 0; m_iSourceHeight := 0;
       m_iTextureWidth := 0; m_iTextureHeight := 0;
       m_iImageWidth := 0; m_iImageHeight := 0; m_uTexHandle := 0 |}.

(** [RageTextureID ID( sFilename )] *)
Definition new_RageTextureID (sFilename : string) : RageTextureID :=
  {| filename := sFilename; Policy := TEX_DEFAULT; texture_hints := 0 |}.

(** [RageTextureID BannerCache::LoadCachedBanner( RString sBannerPath )] *)
Definition LoadCachedBanner (sBannerPath : string) : M RageTextureID :=
  let ID := new_RageTextureID (GetBannerCachePath sBannerPath) in
  if decide (sBannerPath = "") then ret ID else
  emit (LOG_Trace "BannerCache::LoadCachedBanner(%s): %s"
          [ArgS sBannerPath; ArgS (filename ID)]) ;;
  (* Hack: make sure Banner::Load doesn't change our return value and end up
     reloading. *)
  let ID := SongBannerTexture ID in
  (* It's not in a texture.  Do we have it loaded? *)
  images <- gets g_BannerPathToImage ;;
  match images !! sBannerPath with
  | None =>
    (* Oops, the image is missing.  Warn and continue. *)
    emit (LOG_Warn "Banner cache for '%s' wasn't loaded" [ArgS sBannerPath]) ;;
    ret ID
  | Some img =>
    (* ASSERT( img ): an address in the map is never null. *)
    iSourceWidth <- gets (λ s, default 0 (GetValue sBannerPath Width s)) ;;
    iSourceHeight <- gets (λ s, default 0 (GetValue sBannerPath Height s)) ;;
    WasRotatedBanner <- gets (λ s, default false (GetValue sBannerPath Rotated s)) ;;
    if (iSourceWidth =? 0) || (iSourceHeight =? 0) then
      emit (LOG_UserLog "Cache file" sBannerPath "couldn't be loaded." []) ;;
      ret ID
    else
      let ID := if WasRotatedBanner : bool then
                  (* We need to tell Sprite that this was originally a rotated
                     sprite. *)
                  {| filename := filename ID +:+ "(was rotated)";
                     Policy := Policy ID; texture_hints := texture_hints ID |}
                else ID in
      (* Is the banner already in a texture? *)
      tm <- gets TEXTUREMAN ;;
      if IsTextureRegistered ID tm then ret ID (* It's all set. *) else
      surf <- deref img ;;
      emit (LOG_Trace "Loading banner texture %s; src %ix%i; image %ix%i"
              [ArgS (filename ID); ArgI iSourceWidth; ArgI iSourceHeight;
               ArgI (surface_w surf); ArgI (surface_h surf)]) ;;
      pTexture <- new_BannerTexture ID sBannerPath iSourceWidth iSourceHeight ;;
      let ID := {| filename := filename ID; Policy := TEX_VOLATILE;
                   texture_hints := texture_hints ID |} in
      modify (set_TEXTUREMAN (RegisterTexture ID pTexture)) ;;
      modify (set_TEXTUREMAN (UnloadTexture pTexture)) ;;
      ret ID
  end.

End BannerCache.

Arguments Ok {collab A} a s.
Arguments Abort {collab A} why.


(** ** The rest of BannerCache.cpp: destruction and the texture life cycle *)

Section Lifecycle.

Context `{collab : Collaborators}.

Notation "x <- m ;; k" := (bind m (λ x, k))
  (at level 100, m at next level, right associativity).
Notation "m ;; k" := (bind m (λ _, k))
  (at level 100, right associativity).

(** [BannerCache::~BannerCache()] *)
Definition BannerCache_destructor : M unit := UnloadAllBanners.

(** [DISPLAY->DeleteTexture], the one display call of this file that
    [Collaborators] does not list. *)
Class DisplayDelete := {
  DeleteTexture : Z → RageDisplay → RageDisplay
}.

Context `{deleter : DisplayDelete}.

Definition set_m_uTexHandle (h : Z) (t : BannerTexture) : BannerTexture :=
  {| texture_ID := texture_ID t; img_slot := img_slot t;
     width := width t; height := height t;
     m_iSourceWidth := m_iSourceWidth t; m_iSourceHeight := m_iSourceHeight t;
     m_iTextureWidth := m_iTextureWidth t; m_iTextureHeight := m_iTextureHeight t;
     m_iImageWidth := m_iImageWidth t; m_iImageHeight := m_iImageHeight t;
     m_uTexHandle := h |}.

(** [BannerTexture::Destroy()], also the destructor. *)
Definition BannerTexture_Destroy (t : BannerTexture) : M BannerTexture :=
  (if negb (m_uTexHandle t =? 0) then
     modify (λ s, set_DISPLAY (DeleteTexture (m_uTexHandle t) (DISPLAY s)) s)
   else ret tt) ;;
  ret (set_m_uTexHandle 0 t).

(** [BannerTexture::Reload()] *)
Definition BannerTexture_Reload (t : BannerTexture) : M BannerTexture :=
  t <- BannerTexture_Destroy t ;;
  BannerTexture_Create t.

(** [BannerTexture::Invalidate()]: forget the handle, don't Destroy(). *)
Definition BannerTexture_Invalidate (t : BannerTexture) : BannerTexture :=
  set_m_uTexHandle 0 t.

End Lifecycle.

(** ** What the transform produces *)

Section Transform.

Context `{collab : Collaborators}.

(** The steps of [CacheBannerInternal] between decoding and saving, written
    as functions on the surface: un-rotation of a diagonal banner onto a
    256x64 canvas, the resize to the computed target, and the encoding.
    Lemma [CacheBannerInternal_decoded] shows that this is what the code
    saves and keeps. *)
Definition unrotated (img : RageSurface) : RageSurface :=
  {| surface_w := 256; surface_h := 64;
     surface_fmt := {| BitsPerPixel := 32; Rmask := 0x000000FF; Gmask := 0x0000FF00;
                       Bmask := 0x00FF0000; Amask := 0xFF000000; palette := false |};
     surface_pixels := BlitTransformed (Converted (HotPinkColorKeyed (surface_pixels img))) |}.

Definition oriented (img : RageSurface) : RageSurface :=
  if IsDiagonalBanner (surface_w img) (surface_h img) then unrotated img else img.

Definition resized (img : RageSurface) : RageSurface :=
  {| surface_w := resize_target (surface_w img);
     surface_h := resize_target (surface_h img);
     surface_fmt := surface_fmt img;
     surface_pixels :=
       Zoomed (HotPinkColorKeyed (surface_pixels img))
         (resize_target (surface_w img)) (resize_target (surface_h img)) |}.

Definition encoded (bPaletted : bool) (img : RageSurface) : RageSurface :=
  if bPaletted then
    if negb (BytesPerPixel (surface_fmt img) =? 1) then
      {| surface_w := surface_w img; surface_h := surface_h img;
         surface_fmt := {| BitsPerPixel := 8; Rmask := 0; Gmask := 0; Bmask := 0;
                           Amask := 0; palette := true |};
         surface_pixels := Palettized (surface_pixels img) |}
    else img
  else
    {| surface_w := surface_w img; surface_h := surface_h img;
       surface_fmt := {| BitsPerPixel := 16; Rmask := 0x7C00; Gmask := 0x03E0;
                         Bmask := 0x001F; Amask := 0x8000; palette := false |};
       surface_pixels := OrderedDithered (surface_pixels img) |}.

Definition transformed (bPaletted : bool) (img : RageSurface) : RageSurface :=
  encoded bPaletted (resized (oriented img)).

(** The index record [CacheBannerInternal] leaves for a banner. *)
Definition index_record (CachePath : string) (img : RageSurface) (hash : Z) : BannerRecord :=
  {| Path := Some CachePath;
     Width := Some (surface_w (oriented img));
     Height := Some (surface_h (oriented img));
     FullHash := Some hash;
     Rotated := Some (IsDiagonalBanner (surface_w img) (surface_h img)) |}.

End Transform.

(** ** Observing and reasoning about calls *)

Section Observations.

Context `{collab : Collaborators}.

(** [CacheBannerInternal] is the only caller of [LoadFile] and calls it
    once, first thing: the [LoadFile] events of a call are its regeneration
    attempts.  The [LoadSurface] events are its attempts to read a cache
    file. *)
Definition is_LoadFile (e : Event) : bool :=
  match e with CALL_LoadFile _ => true | _ => false end.

Definition is_LoadSurface (e : Event) : bool :=
  match e with CALL_LoadSurface _ => true | _ => false end.

Fixpoint count_events (f : Event → bool) (l : list Event) : nat :=
  match l with
  | [] => O
  | e :: l' => if f e then S (count_events f l') else count_events f l'
  end.

(** Whether [LoadFile], respectively [LoadSurface], can read a path. *)
Definition is_image_file (fs : gmap string File) (sPath : string) : bool :=
  match file_contents <$> fs !! sPath with
  | Some (ImageFile _) => true
  | _ => false
  end.

Definition is_saved_surface (fs : gmap string File) (sPath : string) : bool :=
  match file_contents <$> fs !! sPath with
  | Some (SavedSurface _) => true
  | _ => false
  end.

(** The three lines [LoadBanner] leaves in the log. *)
Definition trying_to_cache (sBannerPath CachePath : string) : Event :=
  LOG_Trace "Cached banner load of '%s' ('%s') failed, trying to cache ..."
    [ArgS sBannerPath; ArgS CachePath].

Definition load_failed (sBannerPath CachePath : string) : Event :=
  LOG_Trace "Cached banner load of '%s' ('%s') failed" [ArgS sBannerPath; ArgS CachePath].

Definition load_checkpoint (CachePath : string) : Event :=
  CHECKPOINT_M "BannerCache::LoadBanner: %s" [ArgS CachePath].

(** The checkpoint [CacheBanner] sets. *)
Definition banner_checkpoint (sBannerPath : string) : Event :=
  CHECKPOINT_M "%s" [ArgS sBannerPath].

(** One of the two low-resolution modes is selected. *)
Definition caching_enabled (s : State) : Prop :=
  m_BannerCache (PREFSMAN s) = BNCACHE_LOW_RES_PRELOAD ∨
  m_BannerCache (PREFSMAN s) = BNCACHE_LOW_RES_LOAD_ON_DEMAND.

Global Instance caching_enabled_dec (s : State) : Decision (caching_enabled s).
Proof. unfold caching_enabled. apply _. Defined.

(** The test [CacheBanner] makes before it decides to regenerate: the cache
    file exists, and either the fast-load preference is set or the index
    holds a fingerprint for the banner that equals the current one. *)
Definition cache_up_to_date (s : State) (sBannerPath : string) : bool :=
  DoesFileExist (GetBannerCachePath sBannerPath) s &&
  (m_bFastLoad (PREFSMAN s) ||
   bool_decide (GetValue sBannerPath FullHash s = Some (GetHashForFile sBannerPath s))).

(** [LoadBanner] gets as far as a cache-file load, and that load fails. *)
Definition load_fails (s : State) (sBannerPath : string) : bool :=
  bool_decide (sBannerPath ≠ "") && bool_decide (caching_enabled s) &&
  bool_decide (g_BannerPathToImage s !! sBannerPath = None) &&
  negb (is_saved_surface (files s) (GetBannerCachePath sBannerPath)).

(** Every address in [g_BannerPathToImage] was handed out by [new]: the
    invariant that keeps a fresh surface apart from the resident ones. *)
Definition heap_wf (s : State) : Prop :=
  ∀ sBannerPath p, g_BannerPathToImage s !! sBannerPath = Some p →
                   (p < next (surfaces s))%positive.

(** Ownership of the surfaces: the map never points at a freed cell, every
    allocated cell belongs to exactly one entry of the map, and no cell
    lies at or beyond the next address to be handed out. *)
Definition heap_safe (s : State) : Prop :=
  (∀ sBannerPath p, g_BannerPathToImage s !! sBannerPath = Some p →
                    is_Some (cells (surfaces s) !! p)) ∧
  (∀ q, is_Some (cells (surfaces s) !! q) →
        ∃ sBannerPath, g_BannerPathToImage s !! sBannerPath = Some q) ∧
  (∀ path1 path2 p, g_BannerPathToImage s !! path1 = Some p →
                    g_BannerPathToImage s !! path2 = Some p → path1 = path2) ∧
  (∀ q, is_Some (cells (surfaces s) !! q) → (q < next (surfaces s))%positive).

(** A banner that needs no more work from [CacheBanner]: the source is
    there, the staleness test passes, and in preloadAll mode the bitmap is
    resident. *)
Definition settled (s : State) (sBannerPath : string) : Prop :=
  DoesFileExist sBannerPath s = true ∧
  cache_up_to_date s sBannerPath = true ∧
  (m_BannerCache (PREFSMAN s) = BNCACHE_LOW_RES_PRELOAD →
   is_Some (g_BannerPathToImage s !! sBannerPath)).

(** The parts of the state no function of BannerCache.cpp assigns outside
    LoadCachedBanner: preferences, display, texture manager and the set of
    unwritable paths. *)
Definition same_settings (s s' : State) : Prop :=
  PREFSMAN s' = PREFSMAN s ∧ DISPLAY s' = DISPLAY s ∧
  TEXTUREMAN s' = TEXTUREMAN s ∧ read_only s' = read_only s.

(** The surface [BannerTexture::Create] hands to the display: the resident
    one, shrunk to the display's maximum texture size when it is larger. *)
Definition fitted (iMax : Z) (img : RageSurface) : RageSurface :=
  if (surface_w img >? iMax) || (surface_h img >? iMax) then
    {| surface_w := Z.min (surface_w img) iMax;
       surface_h := Z.min (surface_h img) iMax;
       surface_fmt := surface_fmt img;
       surface_pixels := Zoomed (surface_pixels img)
                           (Z.min (surface_w img) iMax) (Z.min (surface_h img) iMax) |}
  else img.

(** The texture format [BannerTexture::Create] settles on. *)
Definition texture_format (d : RageDisplay) (img : RageSurface) : PixelFormat :=
  let pf := if BitsPerPixel (surface_fmt img) =? 8
            then PixelFormat_PAL else PixelFormat_RGB5A1 in
  if negb (SupportsTextureFormat pf d) then PixelFormat_RGBA4 else pf.

(** The identifier [LoadCachedBanner] looks up in the texture manager. *)
Definition banner_texture_ID (sBannerPath : string) (WasRotatedBanner : bool)
    : RageTextureID :=
  let ID := SongBannerTexture (new_RageTextureID (GetBannerCachePath sBannerPath)) in
  if WasRotatedBanner then
    {| filename := filename ID +:+ "(was rotated)";
       Policy := Policy ID; texture_hints := texture_hints ID |}
  else ID.

Definition volatile (ID : RageTextureID) : RageTextureID :=
  {| filename := filename ID; Policy := TEX_VOLATILE; texture_hints := texture_hints ID |}.

(** A call made for one banner stays with that banner: the other
    entries of the map and of the index, the surfaces that were allocated
    before the call and are not the banner's own bitmap, and the files other
    than the banner's cache file and the index file are as before. *)
Definition touches_only (sBannerPath : string) (s s' : State) : Prop :=
  (next (surfaces s) ≤ next (surfaces s'))%positive ∧
  (∀ q, q ≠ sBannerPath → g_BannerPathToImage s' !! q = g_BannerPathToImage s !! q) ∧
  (∀ p, g_BannerPathToImage s' !! sBannerPath = Some p →
        g_BannerPathToImage s !! sBannerPath = Some p ∨ (next (surfaces s) ≤ p)%positive) ∧
  (∀ q, (q < next (surfaces s))%positive → g_BannerPathToImage s !! sBannerPath ≠ Some q →
        cells (surfaces s') !! q = cells (surfaces s) !! q) ∧
  (∀ q, q ≠ sBannerPath → BannerData s' !! q = BannerData s !! q) ∧
  (∀ sPath, sPath ≠ GetBannerCachePath sBannerPath → sPath ≠ BANNER_CACHE_INDEX →
            files s' !! sPath = files s !! sPath).

(** [n] calls in a row. *)
Fixpoint times (n : nat) (m : M unit) : M unit :=
  match n with
  | O => ret tt
  | S n => bind m (λ _, times n m)
  end.

(** Two states that differ in the demand counter at most. *)
Definition same_but_refcount (s s' : State) : Prop :=
  PREFSMAN s' = PREFSMAN s ∧ DISPLAY s' = DISPLAY s ∧ TEXTUREMAN s' = TEXTUREMAN s ∧
  files s' = files s ∧ read_only s' = read_only s ∧ surfaces s' = surfaces s ∧
  g_BannerPathToImage s' = g_BannerPathToImage s ∧ BannerData s' = BannerData s ∧
  log s' = log s.

(** Events that write to the disk. *)
Definition is_write (e : Event) : bool :=
  match e with CALL_SaveSurface _ | CALL_WriteFile _ => true | _ => false end.

(** [wp m Q s]: the call [m] returns from state [s], and its result and
    final state satisfy [Q]. *)
Definition wp {A} (m : M A) (Q : A → State → Prop) (s : State) : Prop :=
  ∃ a s', m s = Ok a s' ∧ Q a s'.

End Observations.
(** ** A concrete world to run the code in *)

(** Collaborators for the examples: Sprite's test for a square banner of at
    least 100 pixels, cache files under Cache/, a texture manager that keeps
    a list of what is registered, and a display that numbers its
    textures. *)
Definition demo_collaborators : Collaborators := {|
  IsDiagonalBanner := λ iWidth iHeight,
    (100 <=? iWidth) && (Z.abs (iWidth - iHeight) <? 2);
  SongBannerTexture := λ ID,
    {| filename := filename ID; Policy := Policy ID; texture_hints := 1 |};
  GetCacheFilePath := λ sCategory sPath, "Cache/" +:+ sCategory +:+ "/" +:+ sPath;
  CACHE_DIR := "Cache/";
  hash_of_written := λ _ _, 0;
  RageTextureManager := list (RageTextureID * BannerTexture);
  IsTextureRegistered := λ ID tm,
    existsb (λ e, bool_decide (filename e.1 = filename ID)) tm;
  RegisterTexture := λ ID t tm, (ID, t) :: tm;
  UnloadTexture := λ _ tm, tm;
  RageDisplay := Z;
  GetMaxTextureSize := λ _, 2048;
  SupportsTextureFormat := λ _ _, true;
  CreateTexture := λ _ _ d, (d + 1, d + 1)
|}.

Definition demo_format : RageSurfaceFormat :=
  {| BitsPerPixel := 32; Rmask := 0x000000FF; Gmask := 0x0000FF00;
     Bmask := 0x00FF0000; Amask := 0xFF000000; palette := false |}.

Definition demo_image (iWidth iHeight : Z) : RageSurface :=
  {| surface_w := iWidth; surface_h := iHeight; surface_fmt := demo_format;
     surface_pixels := DecodedPixels 1 |}.

Definition demo_prefs (mode : BannerCacheMode) (bFastLoad : bool) : PrefsManager :=
  {| m_BannerCache := mode; m_bFastLoad := bFastLoad; m_bPalettedBannerCache := false |}.

(** A world right after start-up: nothing resident, refcount zero, and the
    given files and index. *)
Definition demo_state (mode : BannerCacheMode) (bFastLoad : bool)
    (fs : gmap string File) (index : gmap string BannerRecord)
    : State (collab := demo_collaborators) :=
  {| PREFSMAN := demo_prefs mode bFastLoad;
     DISPLAY := (0 : @RageDisplay demo_collaborators);
     TEXTUREMAN := ([] : @RageTextureManager demo_collaborators);
     files := fs; read_only := ∅;
     surfaces := {| cells := ∅; next := 1 |};
     g_BannerPathToImage := ∅; g_iDemandRefcount := 0;
     BannerData := index; log := [] |}.

(** One banner, "foo.png" of 800x600 with fingerprint 7, and no cache. *)
Definition foo_file : File :=
  {| file_hash := 7; file_contents := ImageFile (demo_image 800 600) |}.

Definition foo_only : gmap string File := {[ "foo.png" := foo_file ]}.

(** The same banner together with its cache file and index record. *)
Definition foo_cached_surface : RageSurface :=
  {| surface_w := 512; surface_h := 256;
     surface_fmt := {| BitsPerPixel := 16; Rmask := 0x7C00; Gmask := 0x03E0;
                       Bmask := 0x001F; Amask := 0x8000; palette := false |};
     surface_pixels :=
       OrderedDithered (Zoomed (HotPinkColorKeyed (DecodedPixels 1)) 512 256) |}.

Definition foo_and_cache : gmap string File :=
  <[ "Cache/Banners/foo.png" :=
       {| file_hash := 0; file_contents := SavedSurface foo_cached_surface |} ]> foo_only.

Definition foo_record (w h : Z) : BannerRecord :=
  {| Path := Some "Cache/Banners/foo.png"; Width := Some w; Height := Some h;
     FullHash := Some 7; Rotated := Some false |}.

Definition foo_index : gmap string BannerRecord := {[ "foo.png" := foo_record 800 600 ]}.

(** The worlds of the examples below. *)
Definition fast_load_no_cache : State (collab := demo_collaborators) :=
  demo_state BNCACHE_LOW_RES_LOAD_ON_DEMAND true foo_only ∅.

Definition on_demand_no_cache : State (collab := demo_collaborators) :=
  demo_state BNCACHE_LOW_RES_LOAD_ON_DEMAND false foo_only ∅.

Definition on_demand_cached : State (collab := demo_collaborators) :=
  demo_state BNCACHE_LOW_RES_LOAD_ON_DEMAND false foo_and_cache foo_index.

Definition on_demand_no_source : State (collab := demo_collaborators) :=
  demo_state BNCACHE_LOW_RES_LOAD_ON_DEMAND false ∅ ∅.

Definition preload_no_cache : State (collab := demo_collaborators) :=
  demo_state BNCACHE_LOW_RES_PRELOAD false foo_only ∅.

Definition preload_cached : State (collab := demo_collaborators) :=
  demo_state BNCACHE_LOW_RES_PRELOAD false foo_and_cache foo_index.

(** preloadAll mode with the cached bitmap of "foo.png" resident at
    address 1. *)
Definition preload_resident : State (collab := demo_collaborators) :=
  {| PREFSMAN := demo_prefs BNCACHE_LOW_RES_PRELOAD false;
     DISPLAY := (0 : @RageDisplay demo_collaborators);
     TEXTUREMAN := ([] : @RageTextureManager demo_collaborators);
     files := foo_and_cache; read_only := ∅;
     surfaces := {| cells := {[ 1%positive := foo_cached_surface ]}; next := 2 |};
     g_BannerPathToImage := {[ "foo.png" := 1%positive ]}; g_iDemandRefcount := 0;
     BannerData := foo_index; log := [] |}.

(** A square banner of 200x200, which Sprite takes for a diagonal one. *)
Definition diagonal_only : gmap string File :=
  {[ "diag.png" := {| file_hash := 9; file_contents := ImageFile (demo_image 200 200) |} ]}.

Definition preload_diagonal : State (collab := demo_collaborators) :=
  demo_state BNCACHE_LOW_RES_PRELOAD false diagonal_only ∅.

(** preloadAll mode with a bitmap for "foo.png" resident that is wider than
    the display's 2048 pixels. *)
Definition wide_cached_surface : RageSurface :=
  {| surface_w := 4096; surface_h := 256;
     surface_fmt := {| BitsPerPixel := 16; Rmask := 0x7C00; Gmask := 0x03E0;
                       Bmask := 0x001F; Amask := 0x8000; palette := false |};
     surface_pixels := DecodedPixels 2 |}.

Definition resident_with (img : RageSurface) : State (collab := demo_collaborators) :=
  {| PREFSMAN := demo_prefs BNCACHE_LOW_RES_PRELOAD false;
     DISPLAY := (0 : @RageDisplay demo_collaborators);
     TEXTUREMAN := ([] : @RageTextureManager demo_collaborators);
     files := foo_and_cache; read_only := ∅;
     surfaces := {| cells := {[ 1%positive := img ]}; next := 2 |};
     g_BannerPathToImage := {[ "foo.png" := 1%positive ]}; g_iDemandRefcount := 0;
     BannerData := foo_index; log := [] |}.

Definition preload_wide : State (collab := demo_collaborators) :=
  resident_with wide_cached_surface.

(** The same with a bitmap of 300x200, as a cache file written by something
    else could hold. *)
Definition odd_cached_surface : RageSurface :=
  {| surface_w := 300; surface_h := 200;
     surface_fmt := {| BitsPerPixel := 16; Rmask := 0x7C00; Gmask := 0x03E0;
                       Bmask := 0x001F; Amask := 0x8000; palette := false |};
     surface_pixels := DecodedPixels 3 |}.

Definition preload_odd : State (collab := demo_collaborators) :=
  resident_with odd_cached_surface.

(** The source file after an edit. *)
Definition foo_file_edited : File :=
  {| file_hash := 8; file_contents := ImageFile (demo_image 640 480) |}.

(** A small banner, "tiny.png" of 40x40, in preloadAll mode. *)
Definition tiny_file : File :=
  {| file_hash := 4; file_contents := ImageFile (demo_image 40 40) |}.

Definition preload_tiny : State (collab := demo_collaborators) :=
  demo_state BNCACHE_LOW_RES_PRELOAD false {[ "tiny.png" := tiny_file ]} ∅.

(** The display of the examples forgets a texture without further ado. *)
Definition demo_deleter : DisplayDelete (collab := demo_collaborators) :=
  {| DeleteTexture := λ _ d, d |}.
(** * Properties *)

(** ** The resize arithmetic *)

Lemma power_of_two_is_power_of_two (n : Z) : is_power_of_two (power_of_two n).
Proof. exists (Z.log2_up n). split; [apply Z.log2_up_nonneg | reflexivity]. Qed.

Lemma power_of_two_pos (n : Z) : 0 < power_of_two n.
Proof. unfold power_of_two. apply Z.pow_pos_nonneg; [lia | apply Z.log2_up_nonneg]. Qed.

(** The model of [power_of_two] is the enclosing power of two: it is not
    below its argument, and no smaller power of two is. *)
Lemma power_of_two_ge (n : Z) : n ≤ power_of_two n.
Proof.
  unfold power_of_two.
  destruct (Z_lt_le_dec 1 n) as [Hn | Hn].
  - apply (Z.log2_up_spec n Hn).
  - pose proof (Z.pow_pos_nonneg 2 (Z.log2_up n) ltac:(lia) (Z.log2_up_nonneg n)). lia.
Qed.

Lemma power_of_two_least (n k : Z) : 0 ≤ k → n ≤ 2 ^ k → power_of_two n ≤ 2 ^ k.
Proof.
  intros Hk Hn. unfold power_of_two.
  apply Z.pow_le_mono_r; [lia |].
  destruct (Z_lt_le_dec 1 n) as [H1 | H1].
  - destruct (Z_lt_le_dec k (Z.log2_up n)) as [Hlt | Hle]; [| exact Hle].
    exfalso. pose proof (Z.log2_up_spec n H1) as [Hlo _].
    assert (2 ^ k ≤ 2 ^ Z.pred (Z.log2_up n)) by (apply Z.pow_le_mono_r; lia).
    lia.
  - rewrite Z.log2_up_eqn0 by lia. exact Hk.
Qed.

Lemma power_of_two_fixes_powers (n : Z) : is_power_of_two n → power_of_two n = n.
Proof.
  intros (k & Hk & ->). unfold power_of_two. now rewrite Z.log2_up_pow2.
Qed.

Lemma power_of_two_check_spec (n : Z) : power_of_two_check n = true ↔ is_power_of_two n.
Proof.
  unfold power_of_two_check. rewrite Z.eqb_eq. split.
  - intros ->. apply power_of_two_is_power_of_two.
  - intros H. symmetry. now apply power_of_two_fixes_powers.
Qed.

Lemma is_power_of_two_pos (n : Z) : is_power_of_two n → 0 < n.
Proof. intros (k & Hk & ->). apply Z.pow_pos_nonneg; lia. Qed.

Lemma is_power_of_two_32 : is_power_of_two 32.
Proof. exists 5. split; [lia | reflexivity]. Qed.

Lemma is_power_of_two_min (a b : Z) :
  is_power_of_two a → is_power_of_two b → is_power_of_two (Z.min a b).
Proof. intros Ha Hb. destruct (Z.min_spec a b) as [[_ ->] | [_ ->]]; assumption. Qed.

Lemma is_power_of_two_max (a b : Z) :
  is_power_of_two a → is_power_of_two b → is_power_of_two (Z.max a b).
Proof. intros Ha Hb. destruct (Z.max_spec a b) as [[_ ->] | [_ ->]]; assumption. Qed.

(** Half of a power of two is the power of two below it, except that half
    of [1] is [0]. *)
Lemma half_power_of_two (n : Z) :
  is_power_of_two n → is_power_of_two (n ÷ 2) ∨ n ÷ 2 = 0.
Proof.
  intros (k & Hk & ->).
  destruct (Z.eq_dec k 0) as [-> | Hne].
  - right. reflexivity.
  - left. exists (k - 1). split; [lia |].
    replace k with (Z.succ (k - 1)) at 1 by lia.
    rewrite Z.pow_succ_r by lia.
    rewrite Z.mul_comm. apply Z.quot_mul. lia.
Qed.

Lemma closest_cases (num n1 n2 : Z) : closest num n1 n2 = n1 ∨ closest num n1 n2 = n2.
Proof. unfold closest. destruct (_ >? _); auto. Qed.

Lemma round_to_power_of_two_cases (n : Z) :
  is_power_of_two (round_to_power_of_two n) ∨ round_to_power_of_two n = 0.
Proof.
  unfold round_to_power_of_two.
  destruct (closest_cases n (power_of_two n) (power_of_two n ÷ 2)) as [-> | ->].
  - left. apply power_of_two_is_power_of_two.
  - apply half_power_of_two, power_of_two_is_power_of_two.
Qed.

Lemma resize_floor_is_power_of_two (n : Z) : is_power_of_two (resize_floor n).
Proof.
  apply is_power_of_two_min;
    [apply is_power_of_two_32 | apply power_of_two_is_power_of_two].
Qed.

Lemma resize_target_is_power_of_two (iSourceWidth : Z) :
  is_power_of_two (resize_target iSourceWidth).
Proof.
  unfold resize_target.
  pose proof (resize_floor_is_power_of_two iSourceWidth) as Hfloor.
  destruct (round_to_power_of_two_cases (iSourceWidth ÷ 2)) as [Hr | ->].
  - now apply is_power_of_two_max.
  - rewrite Z.max_r; [exact Hfloor |].
    apply is_power_of_two_pos in Hfloor. lia.
Qed.

(** For dimensions a decoder can deliver, no step of the computation leaves
    the range of a C++ [int]. *)
Lemma resize_target_in_int_range (iSourceWidth : Z) :
  0 ≤ iSourceWidth ≤ 2 ^ 30 →
  in_int_range (iSourceWidth ÷ 2) ∧
  in_int_range (power_of_two (iSourceWidth ÷ 2)) ∧
  in_int_range (power_of_two (iSourceWidth ÷ 2) ÷ 2) ∧
  in_int_range (iSourceWidth ÷ 2 - power_of_two (iSourceWidth ÷ 2)) ∧
  in_int_range (iSourceWidth ÷ 2 - power_of_two (iSourceWidth ÷ 2) ÷ 2) ∧
  in_int_range (power_of_two iSourceWidth) ∧
  in_int_range (resize_target iSourceWidth).
Proof.
  intros Hw. unfold in_int_range.
  assert (Hq : 0 ≤ iSourceWidth ÷ 2 ≤ 2 ^ 30).
  { rewrite Z.quot_div_nonneg by lia. split; [apply Z.div_pos; lia |].
    apply Z.div_le_upper_bound; lia. }
  pose proof (power_of_two_pos (iSourceWidth ÷ 2)) as Hp1.
  pose proof (power_of_two_least (iSourceWidth ÷ 2) 30 ltac:(lia) ltac:(lia)) as Hp2.
  pose proof (power_of_two_pos iSourceWidth) as Hp3.
  pose proof (power_of_two_least iSourceWidth 30 ltac:(lia) ltac:(lia)) as Hp4.
  assert (Hh : 0 ≤ power_of_two (iSourceWidth ÷ 2) ÷ 2 ≤ 2 ^ 30).
  { rewrite Z.quot_div_nonneg by lia. split; [apply Z.div_pos; lia |].
    apply Z.div_le_upper_bound; lia. }
  assert (Ht : 0 ≤ resize_target iSourceWidth ≤ 2 ^ 30).
  { unfold resize_target, resize_floor, round_to_power_of_two.
    destruct (closest_cases (iSourceWidth ÷ 2) (power_of_two (iSourceWidth ÷ 2))
                (power_of_two (iSourceWidth ÷ 2) ÷ 2)) as [-> | ->]; lia. }
  change (2 ^ 30) with 1073741824 in *. change (2 ^ 31) with 2147483648.
  repeat split; lia.
Qed.

(** C6.  [closest] keeps its first candidate unless the second is strictly
    nearer.  The rounding step passes the rounded-up power of two first, so
    a halved dimension that is as far from the rounded-up power of two as
    from the one below it is resolved to the rounded-up one, which is the
    larger of the two. *)
Theorem round_to_power_of_two_tie (width : Z) :
  Z.abs (width - power_of_two width) = Z.abs (width - power_of_two width ÷ 2) →
  round_to_power_of_two width = power_of_two width ∧
  power_of_two width ÷ 2 < power_of_two width.
Proof.
  intros Htie. split.
  - unfold round_to_power_of_two, closest. rewrite Htie.
    rewrite Z.gtb_ltb, Z.ltb_irrefl. reflexivity.
  - pose proof (power_of_two_pos width) as Hpos.
    apply Z.quot_lt; lia.
Qed.

(** Each target dimension is the rounded half clamped from below by
    [min(32, power_of_two(source))]: it is never below that floor, and the
    floor never exceeds the source's own rounded-up power of two.  For a
    source dimension of 40 the floor is 32 and the target is at least
    32. *)
Lemma resize_target_clamped (iSourceWidth : Z) :
  resize_target iSourceWidth =
    Z.max (round_to_power_of_two (iSourceWidth ÷ 2)) (Z.min 32 (power_of_two iSourceWidth)) ∧
  Z.min 32 (power_of_two iSourceWidth) ≤ resize_target iSourceWidth ∧
  Z.min 32 (power_of_two iSourceWidth) ≤ power_of_two iSourceWidth ∧
  Z.min 32 (power_of_two 40) = 32 ∧
  32 ≤ resize_target 40.
Proof.
  split; [reflexivity |].
  split; [unfold resize_target, resize_floor; lia |].
  split; [lia |].
  split; [reflexivity |].
  vm_compute. discriminate.
Qed.

(** ** More on the resize arithmetic *)

Lemma closest_nearest (num n1 n2 : Z) :
  Z.abs (num - closest num n1 n2) ≤ Z.abs (num - n1) ∧
  Z.abs (num - closest num n1 n2) ≤ Z.abs (num - n2).
Proof.
  unfold closest. destruct (Z.gtb_spec (Z.abs (num - n1)) (Z.abs (num - n2))); lia.
Qed.

Lemma power_of_two_mono (a b : Z) : a ≤ b → power_of_two a ≤ power_of_two b.
Proof.
  intros Hab. unfold power_of_two.
  apply Z.pow_le_mono_r; [lia |]. now apply Z.log2_up_le_mono.
Qed.

(** For a dimension of at least 2, the two candidates of the rounding step
    are neighbouring powers of two that enclose it. *)
Lemma power_of_two_encloses (n : Z) :
  2 ≤ n →
  power_of_two n = 2 * (power_of_two n ÷ 2) ∧
  power_of_two n ÷ 2 < n ≤ power_of_two n ∧
  power_of_two n ÷ 2 = 2 ^ (Z.log2_up n - 1).
Proof.
  intros Hn. unfold power_of_two.
  pose proof (Z.log2_up_spec n ltac:(lia)) as [Hlo Hhi].
  assert (Hpos : 0 < Z.log2_up n) by (apply Z.log2_up_pos; lia).
  replace (Z.pred (Z.log2_up n)) with (Z.log2_up n - 1) in Hlo by lia.
  assert (Hdouble : 2 ^ Z.log2_up n = 2 * 2 ^ (Z.log2_up n - 1)).
  { replace (Z.log2_up n) with (Z.succ (Z.log2_up n - 1)) at 1 by lia.
    apply Z.pow_succ_r. lia. }
  assert (Hhalf : 2 ^ Z.log2_up n ÷ 2 = 2 ^ (Z.log2_up n - 1)).
  { rewrite Hdouble, Z.mul_comm. apply Z.quot_mul. lia. }
  rewrite Hhalf. repeat split; lia.
Qed.

(** X1.  The rounding step does what its comment says, "round to the
    nearest power of two": for a halved dimension of at least 1, no power
    of two is nearer to it than the result. *)
Theorem round_to_power_of_two_nearest (width k : Z) :
  1 ≤ width → 0 ≤ k →
  Z.abs (width - round_to_power_of_two width) ≤ Z.abs (width - 2 ^ k).
Proof.
  intros Hw Hk. unfold round_to_power_of_two.
  pose proof (closest_nearest width (power_of_two width) (power_of_two width ÷ 2))
    as [Hhi Hlo].
  destruct (Z.eq_dec width 1) as [-> | Hne].
  { change (closest 1 (power_of_two 1) (power_of_two 1 ÷ 2)) with 1.
    pose proof (Z.pow_pos_nonneg 2 k ltac:(lia) Hk). lia. }
  destruct (power_of_two_encloses width ltac:(lia)) as (Hdouble & [Hlt Hge] & Hhalf).
  destruct (Z_lt_le_dec k (Z.log2_up width)) as [Hsmall | Hlarge].
  - assert (2 ^ k ≤ power_of_two width ÷ 2).
    { rewrite Hhalf. apply Z.pow_le_mono_r; lia. }
    lia.
  - assert (power_of_two width ≤ 2 ^ k).
    { unfold power_of_two. apply Z.pow_le_mono_r; lia. }
    lia.
Qed.

(** X2.  What the three steps amount to.  A source dimension of at most 32
    is brought up to its own enclosing power of two, never down; a larger
    one always comes out smaller than it was, and not below 32. *)
Theorem resize_target_small_and_large (iSourceWidth : Z) :
  (0 ≤ iSourceWidth ≤ 32 → resize_target iSourceWidth = power_of_two iSourceWidth) ∧
  (32 < iSourceWidth → 32 ≤ resize_target iSourceWidth < iSourceWidth).
Proof.
  pose proof (closest_cases (iSourceWidth ÷ 2) (power_of_two (iSourceWidth ÷ 2))
                (power_of_two (iSourceWidth ÷ 2) ÷ 2)) as Hcases.
  split; intros Hw.
  - assert (Hq : 0 ≤ iSourceWidth ÷ 2 ≤ iSourceWidth).
    { rewrite Z.quot_div_nonneg by lia. split; [apply Z.div_pos; lia |].
      apply Z.div_le_upper_bound; lia. }
    pose proof (power_of_two_mono _ _ (proj2 Hq)) as Hmono.
    pose proof (power_of_two_pos (iSourceWidth ÷ 2)) as Hpos.
    pose proof (power_of_two_least iSourceWidth 5 ltac:(lia) ltac:(simpl; lia)) as Hle.
    change (2 ^ 5) with 32 in Hle.
    assert (Hhalf : power_of_two (iSourceWidth ÷ 2) ÷ 2 ≤ power_of_two (iSourceWidth ÷ 2)).
    { rewrite Z.quot_div_nonneg by lia. apply Z.div_le_upper_bound; lia. }
    unfold resize_target, resize_floor, round_to_power_of_two.
    destruct Hcases as [-> | ->]; lia.
  - assert (Hq : 16 ≤ iSourceWidth ÷ 2 ∧ 2 * (iSourceWidth ÷ 2) ≤ iSourceWidth).
    { rewrite Z.quot_div_nonneg by lia. split.
      - apply Z.div_le_lower_bound; lia.
      - apply Z.mul_div_le. lia. }
    destruct (power_of_two_encloses (iSourceWidth ÷ 2) ltac:(lia))
      as (Hdouble & [Hlt Hge] & _).
    pose proof (power_of_two_ge iSourceWidth) as Hp2.
    unfold resize_target, resize_floor, round_to_power_of_two.
    unfold closest in *.
    destruct (Z.gtb_spec (Z.abs (iSourceWidth ÷ 2 - power_of_two (iSourceWidth ÷ 2)))
                (Z.abs (iSourceWidth ÷ 2 - power_of_two (iSourceWidth ÷ 2) ÷ 2))); lia.
Qed.

(** ** Running calls *)

Section Properties.

Context `{collab : Collaborators}.

Lemma wp_ret {A} (a : A) (Q : A → State → Prop) s : Q a s → wp (ret a) Q s.
Proof. intros H. exists a, s. auto. Qed.

Lemma wp_bind {A B} (m : M A) (k : A → M B) (Q : B → State → Prop) s :
  wp m (λ a s1, wp (k a) Q s1) s → wp (bind m k) Q s.
Proof.
  intros (a & s1 & Hm & b & s2 & Hk & HQ). exists b, s2. split; [| exact HQ].
  unfold bind. now rewrite Hm.
Qed.

Lemma wp_gets {A} (f : State → A) (Q : A → State → Prop) s : Q (f s) s → wp (gets f) Q s.
Proof. intros H. exists (f s), s. auto. Qed.

Lemma wp_modify (f : State → State) (Q : unit → State → Prop) s :
  Q tt (f s) → wp (modify f) Q s.
Proof. intros H. exists tt, (f s). auto. Qed.

(** Symbolic execution: [wp_step] runs the first primitive of the call in
    the goal and brings the state back to a record whose heap is a stack of
    insertions over deletions. *)
Ltac norm_state_term s :=
  let s1 := eval cbv [set_DISPLAY set_TEXTUREMAN set_files set_surfaces
                      set_g_BannerPathToImage set_g_iDemandRefcount set_BannerData
                      add_event heap_alloc heap_update heap_free] in s in
  let s2 := eval cbn [PREFSMAN DISPLAY TEXTUREMAN files read_only surfaces
                      g_BannerPathToImage g_iDemandRefcount BannerData log
                      cells next] in s1 in
  s2.

Ltac norm_maps :=
  repeat match goal with
  | |- context [alter _ ?i (<[?i := _]> _)] => rewrite alter_insert_eq
  | |- context [delete ?i (<[?i := _]> _)] => rewrite delete_insert_eq
  | |- context [<[?i := _]> _ !! ?i] => rewrite lookup_insert_eq
  | |- context [<[?i := _]> (<[?i := _]> _)] => rewrite insert_insert_eq
  | |- context [alter _ _ (<[_ := _]> _)] => rewrite alter_insert_ne by lia
  | |- context [delete _ (<[_ := _]> _)] => rewrite delete_insert_ne by lia
  | |- context [<[_ := _]> _ !! _] => rewrite lookup_insert_ne by lia
  end.

Ltac head_of t := lazymatch t with ?f _ => head_of f | _ => t end.

Ltac norm_goal :=
  cbv beta iota;
  lazymatch goal with
  | |- wp ?m ?Q ?s => let s' := norm_state_term s in change (wp m Q s')
  | _ => idtac
  end;
  cbn [PREFSMAN DISPLAY TEXTUREMAN files read_only surfaces g_BannerPathToImage
       g_iDemandRefcount BannerData log cells next fst snd default from_option id
       surface_w surface_h surface_fmt surface_pixels set_pixels];
  norm_maps.

(** The state a call ends in, with the setters evaluated. *)
Ltac norm_final :=
  cbv [set_DISPLAY set_TEXTUREMAN set_files set_surfaces set_g_BannerPathToImage
       set_g_iDemandRefcount set_BannerData add_event heap_alloc heap_update heap_free];
  cbn [PREFSMAN DISPLAY TEXTUREMAN files read_only surfaces g_BannerPathToImage
       g_iDemandRefcount BannerData log cells next fst snd default from_option id
       surface_w surface_h surface_fmt surface_pixels set_pixels];
  norm_maps.

(** Lookups in a heap that is a stack of insertions and deletions. *)
Ltac heap_lookup :=
  repeat first [ rewrite lookup_delete | rewrite lookup_insert | case_decide ];
  subst; try lia; try congruence; try reflexivity.

Ltac wp_step :=
  lazymatch goal with
  | |- wp (bind _ _) _ _ => apply wp_bind
  | |- wp (ret _) _ _ => apply wp_ret
  | |- wp (gets _) _ _ => apply wp_gets
  | |- wp (modify _) _ _ => apply wp_modify
  | |- wp (emit _) _ _ => apply wp_modify
  | |- wp (if _ then _ else _) _ _ => fail "a branch"
  | |- wp (match _ with _ => _ end) _ _ => fail "a match"
  | |- wp ?m ?Q ?s =>
      let h := head_of m in
      let m' := eval cbv delta [h] beta in m in
      change (wp m' Q s)
  end; norm_goal.

Ltac wp_steps := repeat wp_step.

(** *** Reading files *)

Lemma LoadSurface_fails (s : State) sPath :
  is_saved_surface (files s) sPath = false →
  LoadSurface sPath s = Ok None (add_event (CALL_LoadSurface sPath) s).
Proof.
  unfold is_saved_surface, LoadSurface, bind, emit, modify, gets. cbn.
  destruct (file_contents <$> files s !! sPath) as [[]|]; cbn; intros; try discriminate; reflexivity.
Qed.

Lemma LoadSurface_succeeds (s : State) sPath f img :
  files s !! sPath = Some f → file_contents f = SavedSurface img →
  LoadSurface sPath s =
    Ok (Some (next (surfaces s)))
       (set_surfaces (heap_alloc img) (add_event (CALL_LoadSurface sPath) s)).
Proof.
  intros Hf Hc. unfold LoadSurface, bind, emit, modify, gets. cbn.
  rewrite Hf. cbn. rewrite Hc. reflexivity.
Qed.

Lemma is_saved_surface_true (fs : gmap string File) sPath :
  is_saved_surface fs sPath = true →
  ∃ f img, fs !! sPath = Some f ∧ file_contents f = SavedSurface img.
Proof.
  unfold is_saved_surface. destruct (fs !! sPath) as [f|] eqn:Hf; cbn; [| discriminate].
  destruct (file_contents f) eqn:Hc; try discriminate. eauto.
Qed.

Lemma is_image_file_true (fs : gmap string File) sPath :
  is_image_file fs sPath = true →
  ∃ f img, fs !! sPath = Some f ∧ file_contents f = ImageFile img.
Proof.
  unfold is_image_file. destruct (fs !! sPath) as [f|] eqn:Hf; cbn; [| discriminate].
  destruct (file_contents f) eqn:Hc; try discriminate. eauto.
Qed.

(** *** CacheBannerInternal *)

(** A source that does not decode: the attempt is logged and abandoned, and
    nothing but the log changes. *)
Lemma CacheBannerInternal_undecodable (s : State) sBannerPath :
  is_image_file (files s) sBannerPath = false →
  CacheBannerInternal sBannerPath s =
    Ok tt (add_event (LOG_UserLog "Cache file" sBannerPath "couldn't be loaded: %s" [])
             (add_event (CALL_LoadFile sBannerPath) s)).
Proof.
  unfold is_image_file, CacheBannerInternal, LoadFile, bind, emit, modify, gets. cbn.
  destruct (file_contents <$> files s !! sBannerPath) as [[]|]; cbn; intros; try discriminate; reflexivity.
Qed.

Ltac cache_tail :=
  wp_steps;
  destruct (g_BannerPathToImage _ !! _) as [old|] eqn:Hold;
  wp_steps;
  (destruct (decide (m_BannerCache _ = BNCACHE_LOW_RES_PRELOAD)) as [Hmode|Hmode]);
  wp_steps; norm_final; eexists; (split; [reflexivity |]);
  rewrite ?insert_delete_eq;
  try match goal with
      | H : g_BannerPathToImage _ !! _ = None |- _ => rewrite (delete_id _ _ H)
      end;
  repeat match goal with |- _ ∧ _ => split end; try reflexivity; try lia;
  intros; heap_lookup.

(** A source that decodes: the transform runs to completion.  The lemma
    describes everything the call leaves behind; [p] is the address of the
    surface that was saved. *)
Lemma CacheBannerInternal_decoded (s : State) sBannerPath f img :
  files s !! sBannerPath = Some f → file_contents f = ImageFile img →
  let CachePath := GetBannerCachePath sBannerPath in
  let cached := transformed (m_bPalettedBannerCache (PREFSMAN s)) img in
  let saved := written CachePath (SavedSurface cached) (read_only s) (files s) in
  let hash := match saved !! sBannerPath with Some f => file_hash f | None => 0 end in
  let index := <[sBannerPath := index_record CachePath img hash]> (BannerData s) in
  ∃ s' p,
    CacheBannerInternal sBannerPath s = Ok tt s' ∧
    PREFSMAN s' = PREFSMAN s ∧ DISPLAY s' = DISPLAY s ∧ TEXTUREMAN s' = TEXTUREMAN s ∧
    read_only s' = read_only s ∧ g_iDemandRefcount s' = g_iDemandRefcount s ∧
    log s' = CALL_WriteFile BANNER_CACHE_INDEX :: CALL_SaveSurface CachePath
               :: CALL_LoadFile sBannerPath :: log s ∧
    files s' = written BANNER_CACHE_INDEX (IniFileContents index) (read_only s) saved ∧
    BannerData s' = index ∧
    g_BannerPathToImage s' =
      (if decide (m_BannerCache (PREFSMAN s) = BNCACHE_LOW_RES_PRELOAD)
       then <[sBannerPath := p]> (delete sBannerPath (g_BannerPathToImage s))
       else delete sBannerPath (g_BannerPathToImage s)) ∧
    (next (surfaces s) ≤ p)%positive ∧ next (surfaces s') = Pos.succ p ∧
    (∀ old, g_BannerPathToImage s !! sBannerPath = Some old →
            cells (surfaces s') !! old = None) ∧
    (m_BannerCache (PREFSMAN s) = BNCACHE_LOW_RES_PRELOAD →
     g_BannerPathToImage s !! sBannerPath ≠ Some p →
     cells (surfaces s') !! p = Some cached) ∧
    (m_BannerCache (PREFSMAN s) ≠ BNCACHE_LOW_RES_PRELOAD →
     cells (surfaces s') !! p = None) ∧
    (∀ q, (q < next (surfaces s))%positive →
          g_BannerPathToImage s !! sBannerPath ≠ Some q →
          cells (surfaces s') !! q = cells (surfaces s) !! q) ∧
    (∀ q, (next (surfaces s) ≤ q < p)%positive → cells (surfaces s') !! q = None).
Proof.
  intros Hf Hc CachePath cached saved hash index.
  cut (wp (CacheBannerInternal sBannerPath) (λ _ s', ∃ p,
    next (surfaces s') = Pos.succ p ∧
    PREFSMAN s' = PREFSMAN s ∧ DISPLAY s' = DISPLAY s ∧ TEXTUREMAN s' = TEXTUREMAN s ∧
    read_only s' = read_only s ∧ g_iDemandRefcount s' = g_iDemandRefcount s ∧
    log s' = CALL_WriteFile BANNER_CACHE_INDEX :: CALL_SaveSurface CachePath
               :: CALL_LoadFile sBannerPath :: log s ∧
    files s' = written BANNER_CACHE_INDEX (IniFileContents index) (read_only s) saved ∧
    BannerData s' = index ∧
    g_BannerPathToImage s' =
      (if decide (m_BannerCache (PREFSMAN s) = BNCACHE_LOW_RES_PRELOAD)
       then <[sBannerPath := p]> (delete sBannerPath (g_BannerPathToImage s))
       else delete sBannerPath (g_BannerPathToImage s)) ∧
    (next (surfaces s) ≤ p)%positive ∧
    (∀ old, g_BannerPathToImage s !! sBannerPath = Some old →
            cells (surfaces s') !! old = None) ∧
    (m_BannerCache (PREFSMAN s) = BNCACHE_LOW_RES_PRELOAD →
     g_BannerPathToImage s !! sBannerPath ≠ Some p →
     cells (surfaces s') !! p = Some cached) ∧
    (m_BannerCache (PREFSMAN s) ≠ BNCACHE_LOW_RES_PRELOAD →
     cells (surfaces s') !! p = None) ∧
    (∀ q, (q < next (surfaces s))%positive →
          g_BannerPathToImage s !! sBannerPath ≠ Some q →
          cells (surfaces s') !! q = cells (surfaces s) !! q) ∧
    (∀ q, (next (surfaces s) ≤ q < p)%positive → cells (surfaces s') !! q = None)) s).
  { intros ([] & s' & Hrun & p & Hnext & H). exists s', p.
    split; [exact Hrun |]. repeat (destruct H as [? H]). auto 20. }
  subst index hash saved cached.
  unfold transformed, index_record, oriented, encoded, resized.
  unfold CacheBannerInternal.
  do 6 wp_step. rewrite Hf. cbn [fmap option_fmap option_map]. rewrite Hc.
  wp_steps.
  destruct (IsDiagonalBanner (surface_w img) (surface_h img)) eqn:Hdiag.
  - wp_steps. cbn [surface_fmt BitsPerPixel]. change (32 =? 8) with false. cbv iota.
    wp_steps.
    cbn [surface_fmt BitsPerPixel Rmask Gmask Bmask Amask set_pixels surface_pixels
         surface_w surface_h unrotated].
    destruct (m_bPalettedBannerCache (PREFSMAN s)) eqn:Hpal.
    + wp_steps. change (BytesPerPixel _ =? 1) with false. cbn [negb].
      cache_tail.
    + cache_tail.
  - wp_steps.
    destruct (m_bPalettedBannerCache (PREFSMAN s)) eqn:Hpal.
    + wp_steps.
      destruct (BytesPerPixel (surface_fmt img) =? 1) eqn:Hbpp; cbn [negb]; cbv iota;
        cache_tail.
    + cache_tail.
Qed.

Ltac beyond_tail :=
  wp_steps;
  destruct (g_BannerPathToImage _ !! _) as [old|] eqn:Hold;
  wp_steps;
  (destruct (decide (m_BannerCache _ = BNCACHE_LOW_RES_PRELOAD)) as [Hmode|Hmode]);
  wp_steps; norm_final;
  intros q Hq; heap_lookup.

(** The same run seen from the far end of the heap: addresses the allocator
    has not reached by the end of the call are touched only by the deletion
    of the old bitmap. *)
Lemma CacheBannerInternal_decoded_beyond (s : State) sBannerPath f img :
  files s !! sBannerPath = Some f → file_contents f = ImageFile img →
  ∃ s',
    CacheBannerInternal sBannerPath s = Ok tt s' ∧
    ∀ q, (next (surfaces s') ≤ q)%positive →
         cells (surfaces s') !! q =
           if decide (g_BannerPathToImage s !! sBannerPath = Some q) then None
           else cells (surfaces s) !! q.
Proof.
  intros Hf Hc.
  cut (wp (CacheBannerInternal sBannerPath) (λ _ s',
    ∀ q, (next (surfaces s') ≤ q)%positive →
         cells (surfaces s') !! q =
           if decide (g_BannerPathToImage s !! sBannerPath = Some q) then None
           else cells (surfaces s) !! q) s).
  { intros ([] & s' & Hrun & H). exists s'. auto. }
  unfold CacheBannerInternal.
  do 6 wp_step. rewrite Hf. cbn [fmap option_fmap option_map]. rewrite Hc.
  wp_steps.
  destruct (IsDiagonalBanner (surface_w img) (surface_h img)) eqn:Hdiag.
  - wp_steps. cbn [surface_fmt BitsPerPixel]. change (32 =? 8) with false. cbv iota.
    wp_steps.
    cbn [surface_fmt BitsPerPixel Rmask Gmask Bmask Amask set_pixels surface_pixels
         surface_w surface_h unrotated].
    destruct (m_bPalettedBannerCache (PREFSMAN s)) eqn:Hpal.
    + wp_steps. change (BytesPerPixel _ =? 1) with false. cbn [negb].
      beyond_tail.
    + beyond_tail.
  - wp_steps.
    destruct (m_bPalettedBannerCache (PREFSMAN s)) eqn:Hpal.
    + wp_steps.
      destruct (BytesPerPixel (surface_fmt img) =? 1) eqn:Hbpp; cbn [negb]; cbv iota;
        beyond_tail.
    + beyond_tail.
Qed.

(** *** LoadBanner *)

Lemma LoadBanner_loop_resident (s : State) fuel tries sBannerPath CachePath :
  is_Some (g_BannerPathToImage s !! sBannerPath) →
  LoadBanner_loop fuel tries sBannerPath CachePath s = Ok tt s.
Proof.
  intros Hres. destruct fuel as [| fuel]; [reflexivity |]. cbn [LoadBanner_loop].
  destruct (negb (tries <? 2)); [reflexivity |].
  unfold bind at 1. unfold gets at 1.
  destruct (decide (is_Some (g_BannerPathToImage s !! sBannerPath))); [reflexivity | tauto].
Qed.

Lemma LoadBanner_loop_loaded (s : State) fuel tries sBannerPath CachePath f img :
  tries < 2 →
  g_BannerPathToImage s !! sBannerPath = None →
  files s !! CachePath = Some f → file_contents f = SavedSurface img →
  LoadBanner_loop (S fuel) tries sBannerPath CachePath s =
    LoadBanner_loop fuel (tries + 1) sBannerPath CachePath
      (set_g_BannerPathToImage <[sBannerPath := next (surfaces s)]>
         (set_surfaces (heap_alloc img)
            (add_event (CALL_LoadSurface CachePath)
               (add_event (load_checkpoint CachePath) s)))).
Proof.
  intros Htries Hmem Hf Hc. cbn [LoadBanner_loop].
  replace (tries <? 2) with true by (symmetry; apply Z.ltb_lt; exact Htries).
  cbn [negb]. unfold bind at 1. unfold gets at 1.
  destruct (decide (is_Some (g_BannerPathToImage s !! sBannerPath))) as [[p Hp] |];
    [congruence |].
  unfold bind at 1. unfold emit at 1, modify at 1.
  unfold bind at 1.
  rewrite (LoadSurface_succeeds _ CachePath f img) by assumption.
  reflexivity.
Qed.

Lemma LoadBanner_loop_first_failure (s : State) fuel sBannerPath CachePath :
  g_BannerPathToImage s !! sBannerPath = None →
  is_saved_surface (files s) CachePath = false →
  LoadBanner_loop (S fuel) 0 sBannerPath CachePath s =
    bind (CacheBannerInternal sBannerPath)
         (λ _, LoadBanner_loop fuel 1 sBannerPath CachePath)
         (add_event (trying_to_cache sBannerPath CachePath)
            (add_event (CALL_LoadSurface CachePath)
               (add_event (load_checkpoint CachePath) s))).
Proof.
  intros Hmem Hfail. cbn [LoadBanner_loop]. change (negb (0 <? 2)) with false. cbv iota.
  unfold bind at 1. unfold gets at 1.
  destruct (decide (is_Some (g_BannerPathToImage s !! sBannerPath))) as [[p Hp] |];
    [congruence |].
  unfold bind at 1. unfold emit at 1, modify at 1.
  unfold bind at 1.
  rewrite LoadSurface_fails by exact Hfail.
  reflexivity.
Qed.

Lemma LoadBanner_loop_second_failure (s : State) fuel sBannerPath CachePath :
  g_BannerPathToImage s !! sBannerPath = None →
  is_saved_surface (files s) CachePath = false →
  LoadBanner_loop (S fuel) 1 sBannerPath CachePath s =
    Ok tt (add_event (load_failed sBannerPath CachePath)
             (add_event (CALL_LoadSurface CachePath)
                (add_event (load_checkpoint CachePath) s))).
Proof.
  intros Hmem Hfail. cbn [LoadBanner_loop]. change (negb (1 <? 2)) with false. cbv iota.
  unfold bind at 1. unfold gets at 1.
  destruct (decide (is_Some (g_BannerPathToImage s !! sBannerPath))) as [[p Hp] |];
    [congruence |].
  unfold bind at 1. unfold emit at 1, modify at 1.
  unfold bind at 1.
  rewrite LoadSurface_fails by exact Hfail.
  reflexivity.
Qed.

Lemma LoadBanner_enabled (s : State) sBannerPath :
  sBannerPath ≠ "" → caching_enabled s →
  LoadBanner sBannerPath s =
    LoadBanner_loop 2 0 sBannerPath (GetBannerCachePath sBannerPath) s.
Proof.
  intros Hne Hmode. unfold LoadBanner.
  destruct (decide (sBannerPath = "")); [contradiction |].
  unfold bind at 1. unfold gets at 1.
  destruct (decide (_ ∧ _)) as [[H1 H2] |]; [| reflexivity].
  destruct Hmode; contradiction.
Qed.

Lemma LoadBanner_disabled (s : State) sBannerPath :
  ¬ caching_enabled s → LoadBanner sBannerPath s = Ok tt s.
Proof.
  intros Hmode. unfold LoadBanner.
  destruct (decide (sBannerPath = "")); [reflexivity |].
  unfold bind at 1. unfold gets at 1.
  destruct (decide (_ ∧ _)) as [[H1 H2] | Hn]; [reflexivity |].
  exfalso. apply Hmode. unfold caching_enabled.
  destruct (m_BannerCache (PREFSMAN s)); auto.
  exfalso. apply Hn. split; discriminate.
Qed.

Lemma LoadBanner_empty_path (s : State) : LoadBanner "" s = Ok tt s.
Proof. reflexivity. Qed.

Lemma LoadBanner_resident (s : State) sBannerPath :
  is_Some (g_BannerPathToImage s !! sBannerPath) → LoadBanner sBannerPath s = Ok tt s.
Proof.
  intros Hres. unfold LoadBanner.
  destruct (decide (sBannerPath = "")); [reflexivity |].
  unfold bind at 1. unfold gets at 1.
  destruct (decide (_ ∧ _)); [reflexivity |].
  now apply LoadBanner_loop_resident.
Qed.

(** With the cache file in place, one load brings the bitmap in. *)
Lemma LoadBanner_loads_cache_file (s : State) sBannerPath f img :
  sBannerPath ≠ "" → caching_enabled s →
  g_BannerPathToImage s !! sBannerPath = None →
  files s !! GetBannerCachePath sBannerPath = Some f →
  file_contents f = SavedSurface img →
  LoadBanner sBannerPath s =
    Ok tt (set_g_BannerPathToImage <[sBannerPath := next (surfaces s)]>
             (set_surfaces (heap_alloc img)
                (add_event (CALL_LoadSurface (GetBannerCachePath sBannerPath))
                   (add_event (load_checkpoint (GetBannerCachePath sBannerPath)) s)))).
Proof.
  intros Hne Hmode Hmem Hf Hc.
  rewrite LoadBanner_enabled by assumption.
  rewrite (LoadBanner_loop_loaded _ _ _ _ _ f img) by (assumption || lia).
  apply LoadBanner_loop_resident. cbn. rewrite lookup_insert_eq. eauto.
Qed.

Lemma LoadBanner_retry (s : State) sBannerPath :
  sBannerPath ≠ "" → caching_enabled s →
  g_BannerPathToImage s !! sBannerPath = None →
  is_saved_surface (files s) (GetBannerCachePath sBannerPath) = false →
  ∃ s' new,
    LoadBanner sBannerPath s = Ok tt s' ∧
    log s' = new ++ log s ∧
    count_events is_LoadFile new = 1%nat ∧
    if bool_decide (m_BannerCache (PREFSMAN s) = BNCACHE_LOW_RES_PRELOAD)
       && is_image_file (files s) sBannerPath
    then count_events is_LoadSurface new = 1%nat ∧
         is_Some (g_BannerPathToImage s' !! sBannerPath)
    else count_events is_LoadSurface new = 2%nat ∧
         if is_saved_surface (files s') (GetBannerCachePath sBannerPath)
         then is_Some (g_BannerPathToImage s' !! sBannerPath)
         else g_BannerPathToImage s' !! sBannerPath = None.
Proof.
  intros Hne Hmode Hmem Hfail.
  rewrite LoadBanner_enabled, LoadBanner_loop_first_failure by assumption.
  set (CachePath := GetBannerCachePath sBannerPath) in *.
  set (s1 := add_event _ _).
  destruct (is_image_file (files s) sBannerPath) eqn:Himg.
  - destruct (is_image_file_true _ _ Himg) as (f & img & Hf & Hc).
    destruct (CacheBannerInternal_decoded s1 sBannerPath f img Hf Hc)
      as (s2 & p & Hrun & Hprefs & _ & _ & _ & _ & Hlog & Hfiles & _ & Hmem2 & _).
    unfold bind. rewrite Hrun.
    change (PREFSMAN s1) with (PREFSMAN s) in Hmem2.
    change (g_BannerPathToImage s1) with (g_BannerPathToImage s) in Hmem2.
    change (log s1) with
      (trying_to_cache sBannerPath CachePath :: CALL_LoadSurface CachePath
         :: load_checkpoint CachePath :: log s) in Hlog.
    destruct (decide (m_BannerCache (PREFSMAN s) = BNCACHE_LOW_RES_PRELOAD)) as [Hpre | Hpre].
    + rewrite bool_decide_eq_true_2 by exact Hpre. cbn [andb].
      assert (Hres : is_Some (g_BannerPathToImage s2 !! sBannerPath)).
      { rewrite Hmem2, lookup_insert_eq. eauto. }
      rewrite LoadBanner_loop_resident by exact Hres.
      eexists s2, [_; _; _; _; _; _]. split; [reflexivity |].
      split; [exact Hlog |]. repeat split; try reflexivity. exact Hres.
    + rewrite bool_decide_eq_false_2 by exact Hpre. cbn [andb].
      assert (Hmem2' : g_BannerPathToImage s2 !! sBannerPath = None).
      { rewrite Hmem2. apply lookup_delete_eq. }
      destruct (is_saved_surface (files s2) CachePath) eqn:Hsaved.
      * destruct (is_saved_surface_true _ _ Hsaved) as (f' & img' & Hf' & Hc').
        rewrite (LoadBanner_loop_loaded _ _ _ _ _ f' img') by (assumption || lia).
        cbn [LoadBanner_loop].
        eexists _, [_; _; _; _; _; _; _; _]. split; [reflexivity |].
        cbn. rewrite Hlog. split; [reflexivity |].
        repeat split; try reflexivity.
        rewrite Hsaved, lookup_insert_eq. eauto.
      * rewrite LoadBanner_loop_second_failure by assumption.
        eexists _, [_; _; _; _; _; _; _; _; _]. split; [reflexivity |].
        cbn. rewrite Hlog. split; [reflexivity |].
        repeat split; try reflexivity.
        rewrite Hsaved. exact Hmem2'.
  - rewrite andb_false_r.
    unfold bind. rewrite CacheBannerInternal_undecodable by exact Himg.
    rewrite LoadBanner_loop_second_failure by assumption.
    eexists _, [_; _; _; _; _; _; _; _]. split; [reflexivity |].
    cbn. split; [reflexivity |]. repeat split; try reflexivity.
    fold CachePath. rewrite Hfail. exact Hmem.
Qed.

(** *** Every call returns *)

Lemma CacheBannerInternal_returns (s : State) sBannerPath :
  ∃ s' new,
    CacheBannerInternal sBannerPath s = Ok tt s' ∧ log s' = new ++ log s ∧
    count_events is_LoadFile new = 1%nat ∧ count_events is_LoadSurface new = 0%nat.
Proof.
  destruct (is_image_file (files s) sBannerPath) eqn:Himg.
  - destruct (is_image_file_true _ _ Himg) as (f & img & Hf & Hc).
    destruct (CacheBannerInternal_decoded s sBannerPath f img Hf Hc)
      as (s' & p & Hrun & _ & _ & _ & _ & _ & Hlog & _).
    eexists s', [_; _; _]. split; [exact Hrun |]. split; [exact Hlog |]. split; reflexivity.
  - rewrite CacheBannerInternal_undecodable by exact Himg.
    eexists _, [_; _]. repeat split; reflexivity.
Qed.

Lemma LoadBanner_returns (s : State) sBannerPath :
  ∃ s' new,
    LoadBanner sBannerPath s = Ok tt s' ∧ log s' = new ++ log s ∧
    count_events is_LoadFile new = (if load_fails s sBannerPath then 1 else 0)%nat.
Proof.
  unfold load_fails.
  destruct (decide (sBannerPath = "")) as [-> | Hne].
  { exists s, []. repeat split; reflexivity. }
  rewrite (bool_decide_eq_true_2 _ Hne).
  destruct (decide (caching_enabled s)) as [Hmode | Hmode].
  2: { rewrite LoadBanner_disabled by exact Hmode.
       rewrite (bool_decide_eq_false_2 _ Hmode). exists s, []. repeat split; reflexivity. }
  rewrite (bool_decide_eq_true_2 _ Hmode).
  destruct (g_BannerPathToImage s !! sBannerPath) as [p |] eqn:Hmem.
  { rewrite LoadBanner_resident by (rewrite Hmem; eauto).
    rewrite bool_decide_eq_false_2 by discriminate.
    exists s, []. repeat split; reflexivity. }
  rewrite bool_decide_eq_true_2 by reflexivity. cbn [andb].
  destruct (is_saved_surface (files s) (GetBannerCachePath sBannerPath)) eqn:Hsaved.
  - destruct (is_saved_surface_true _ _ Hsaved) as (f & img & Hf & Hc).
    rewrite (LoadBanner_loads_cache_file _ _ f img) by assumption.
    eexists _, [_; _]. repeat split; reflexivity.
  - destruct (LoadBanner_retry s sBannerPath Hne Hmode Hmem Hsaved)
      as (s' & new & Hrun & Hlog & Hregen & _).
    exists s', new. auto.
Qed.

(** *** CacheBanner *)

Lemma CacheBanner_disabled (s : State) sBannerPath :
  ¬ caching_enabled s → CacheBanner sBannerPath s = Ok tt s.
Proof.
  intros Hmode. unfold CacheBanner. unfold bind at 1. unfold gets at 1.
  destruct (decide (_ ∧ _)) as [| Hn]; [reflexivity |].
  exfalso. apply Hmode. unfold caching_enabled.
  destruct (m_BannerCache (PREFSMAN s)); auto.
  exfalso. apply Hn. split; discriminate.
Qed.

Lemma CacheBanner_no_source (s : State) sBannerPath :
  caching_enabled s → DoesFileExist sBannerPath s = false →
  CacheBanner sBannerPath s = Ok tt (add_event (banner_checkpoint sBannerPath) s).
Proof.
  intros Hmode Hsrc. unfold CacheBanner. unfold bind at 1. unfold gets at 1.
  destruct (decide (_ ∧ _)) as [[H1 H2] |]; [destruct Hmode; contradiction |].
  unfold bind at 1. unfold emit at 1, modify at 1.
  unfold bind at 1. unfold gets at 1.
  change (DoesFileExist sBannerPath (add_event _ s)) with (DoesFileExist sBannerPath s).
  rewrite Hsrc. reflexivity.
Qed.

(** With a mode selected and the source in place, [CacheBanner] is its
    staleness test followed by one of three continuations. *)
Lemma CacheBanner_checks (s : State) sBannerPath :
  caching_enabled s → DoesFileExist sBannerPath s = true →
  CacheBanner sBannerPath s =
    (if cache_up_to_date s sBannerPath then
       if decide (m_BannerCache (PREFSMAN s) = BNCACHE_LOW_RES_PRELOAD)
       then LoadBanner sBannerPath else ret tt
     else CacheBannerInternal sBannerPath)
      (add_event (banner_checkpoint sBannerPath) s).
Proof.
  intros Hmode Hsrc. unfold CacheBanner. unfold bind at 1. unfold gets at 1.
  destruct (decide (_ ∧ _)) as [[H1 H2] |]; [destruct Hmode; contradiction |].
  unfold bind at 1. unfold emit at 1, modify at 1.
  unfold bind at 1. unfold gets at 1.
  change (DoesFileExist sBannerPath (add_event _ s)) with (DoesFileExist sBannerPath s).
  rewrite Hsrc. cbn [negb].
  unfold bind at 1. unfold gets at 1.
  unfold cache_up_to_date.
  change (DoesFileExist (GetBannerCachePath sBannerPath) (add_event _ s))
    with (DoesFileExist (GetBannerCachePath sBannerPath) s).
  destruct (DoesFileExist (GetBannerCachePath sBannerPath) s); cbn [andb].
  2: { reflexivity. }
  unfold bind at 1. unfold bind at 1. unfold gets at 1.
  cbn [PREFSMAN add_event].
  destruct (m_bFastLoad (PREFSMAN s)); cbn [negb orb].
  { reflexivity. }
  unfold bind at 1. unfold gets at 1. unfold bind at 1. unfold gets at 1.
  change (GetValue sBannerPath FullHash (add_event _ s)) with (GetValue sBannerPath FullHash s).
  change (GetHashForFile sBannerPath (add_event _ s)) with (GetHashForFile sBannerPath s).
  destruct (GetValue sBannerPath FullHash s) as [CurFullHash |].
  - unfold ret at 1.
    destruct (Z.eqb_spec CurFullHash (GetHashForFile sBannerPath s)) as [-> | Hneq].
    + rewrite bool_decide_eq_true_2 by reflexivity. reflexivity.
    + rewrite bool_decide_eq_false_2 by congruence. reflexivity.
  - unfold ret at 1. rewrite bool_decide_eq_false_2 by discriminate. reflexivity.
Qed.

(** *** Demand and Undemand *)

Lemma Demand_nested (s : State) :
  1 ≤ g_iDemandRefcount s →
  Demand s = Ok tt (set_g_iDemandRefcount (λ n, n + 1) s).
Proof.
  intros Hn. unfold Demand. unfold bind at 1. unfold modify at 1.
  unfold bind at 1. unfold gets at 1. cbn [g_iDemandRefcount set_g_iDemandRefcount].
  replace (g_iDemandRefcount s + 1 >? 1) with true; [reflexivity |].
  symmetry. apply Z.gtb_lt. lia.
Qed.

Lemma Demand_first (s : State) :
  g_iDemandRefcount s ≤ 0 →
  Demand s =
    (if decide (m_BannerCache (PREFSMAN s) ≠ BNCACHE_LOW_RES_LOAD_ON_DEMAND) then ret tt
     else foreach (map_to_list (BannerData s)).*1 Demand_child)
      (set_g_iDemandRefcount (λ n, n + 1) s).
Proof.
  intros Hn. unfold Demand. unfold bind at 1. unfold modify at 1.
  unfold bind at 1. unfold gets at 1. cbn [g_iDemandRefcount set_g_iDemandRefcount].
  replace (g_iDemandRefcount s + 1 >? 1) with false.
  2: { symmetry. rewrite Z.gtb_ltb. apply Z.ltb_ge. lia. }
  unfold bind at 1. unfold gets at 1. cbn [PREFSMAN].
  destruct (decide (_ ≠ _)); reflexivity.
Qed.

Lemma Undemand_not_last (s : State) :
  g_iDemandRefcount s ≠ 1 →
  Undemand s = Ok tt (set_g_iDemandRefcount (λ n, n - 1) s).
Proof.
  intros Hn. unfold Undemand. unfold bind at 1. unfold modify at 1.
  unfold bind at 1. unfold gets at 1. cbn [g_iDemandRefcount set_g_iDemandRefcount].
  replace (g_iDemandRefcount s - 1 =? 0) with false; [reflexivity |].
  symmetry. apply Z.eqb_neq. lia.
Qed.

Lemma Undemand_last (s : State) :
  g_iDemandRefcount s = 1 →
  Undemand s =
    (if decide (m_BannerCache (PREFSMAN s) ≠ BNCACHE_LOW_RES_LOAD_ON_DEMAND) then ret tt
     else UnloadAllBanners)
      (set_g_iDemandRefcount (λ n, n - 1) s).
Proof.
  intros Hn. unfold Undemand. unfold bind at 1. unfold modify at 1.
  unfold bind at 1. unfold gets at 1. cbn [g_iDemandRefcount set_g_iDemandRefcount].
  rewrite Hn. change (1 - 1 =? 0) with true. cbn [negb].
  unfold bind at 1. unfold gets at 1. cbn [PREFSMAN].
  destruct (decide (_ ≠ _)); reflexivity.
Qed.

(** One turn of the loop in [Demand]: nothing resident is lost, and the
    child is resident afterwards if its cache file can be read. *)
Lemma Demand_child_runs (s : State) sBannerPath :
  ∃ s',
    Demand_child sBannerPath s = Ok tt s' ∧
    PREFSMAN s' = PREFSMAN s ∧ files s' = files s ∧
    g_iDemandRefcount s' = g_iDemandRefcount s ∧ BannerData s' = BannerData s ∧
    (∀ q p, g_BannerPathToImage s !! q = Some p → g_BannerPathToImage s' !! q = Some p) ∧
    (is_saved_surface (files s) (GetBannerCachePath sBannerPath) = true →
     is_Some (g_BannerPathToImage s' !! sBannerPath)).
Proof.
  unfold Demand_child. unfold bind at 1. unfold gets at 1.
  destruct (decide (is_Some (g_BannerPathToImage s !! sBannerPath))) as [Hres | Hres].
  { exists s. repeat split; auto. }
  assert (Hmem : g_BannerPathToImage s !! sBannerPath = None).
  { destruct (g_BannerPathToImage s !! sBannerPath); [exfalso; eauto | reflexivity]. }
  unfold bind at 1.
  destruct (is_saved_surface (files s) (GetBannerCachePath sBannerPath)) eqn:Hsaved.
  - destruct (is_saved_surface_true _ _ Hsaved) as (f & img & Hf & Hc).
    rewrite (LoadSurface_succeeds _ _ f img) by assumption.
    eexists. split; [reflexivity |]. cbn. repeat split; auto.
    + intros q p Hq. rewrite lookup_insert_ne; [exact Hq | congruence].
    + intros _. rewrite lookup_insert_eq. eauto.
  - rewrite LoadSurface_fails by exact Hsaved.
    eexists. split; [reflexivity |]. cbn. repeat split; auto. discriminate.
Qed.

Lemma Demand_children_run (l : list string) (s : State) :
  ∃ s',
    foreach l Demand_child s = Ok tt s' ∧
    PREFSMAN s' = PREFSMAN s ∧ files s' = files s ∧
    g_iDemandRefcount s' = g_iDemandRefcount s ∧ BannerData s' = BannerData s ∧
    (∀ q p, g_BannerPathToImage s !! q = Some p → g_BannerPathToImage s' !! q = Some p) ∧
    (∀ sBannerPath, sBannerPath ∈ l →
       is_saved_surface (files s) (GetBannerCachePath sBannerPath) = true →
       is_Some (g_BannerPathToImage s' !! sBannerPath)).
Proof.
  revert s. induction l as [| x l IH]; intros s.
  - exists s. repeat split; auto. intros ? Hin. inversion Hin.
  - cbn [foreach]. unfold bind at 1.
    destruct (Demand_child_runs s x) as (s1 & Hrun & Hp & Hf & Hr & Hb & Hkeep & Hload).
    rewrite Hrun.
    destruct (IH s1) as (s' & Hrun' & Hp' & Hf' & Hr' & Hb' & Hkeep' & Hload').
    exists s'. split; [exact Hrun' |].
    repeat split; try congruence.
    + intros q p Hq. apply Hkeep', Hkeep, Hq.
    + intros sBannerPath Hin Hsaved.
      apply elem_of_cons in Hin as [-> | Hin].
      * destruct (Hload Hsaved) as [p Hp1]. exists p. apply Hkeep', Hp1.
      * apply Hload'; [exact Hin |]. rewrite Hf. exact Hsaved.
Qed.

Lemma delete_surfaces_run (l : list (string * positive)) (s : State) :
  ∃ s',
    foreach l (λ it, delete_surface it.2) s = Ok tt s' ∧
    PREFSMAN s' = PREFSMAN s ∧ files s' = files s ∧
    g_iDemandRefcount s' = g_iDemandRefcount s ∧ BannerData s' = BannerData s ∧
    g_BannerPathToImage s' = g_BannerPathToImage s ∧
    (∀ q, cells (surfaces s) !! q = None → cells (surfaces s') !! q = None) ∧
    (∀ it, it ∈ l → cells (surfaces s') !! it.2 = None).
Proof.
  revert s. induction l as [| x l IH]; intros s.
  - exists s. repeat split; auto. intros ? Hin. inversion Hin.
  - cbn [foreach]. unfold bind at 1. unfold delete_surface at 1, modify at 1.
    destruct (IH (set_surfaces (heap_free x.2) s))
      as (s' & Hrun' & Hp' & Hf' & Hr' & Hb' & Hm' & Hnone' & Hfreed').
    exists s'. split; [exact Hrun' |].
    repeat split; try assumption.
    + intros q Hq. apply Hnone'. cbn. rewrite lookup_delete. case_decide; auto.
    + intros it Hin. apply elem_of_cons in Hin as [-> | Hin]; [| auto].
      apply Hnone'. cbn. apply lookup_delete_eq.
Qed.

Lemma UnloadAllBanners_runs (s : State) :
  ∃ s',
    UnloadAllBanners s = Ok tt s' ∧
    PREFSMAN s' = PREFSMAN s ∧ files s' = files s ∧
    g_iDemandRefcount s' = g_iDemandRefcount s ∧ BannerData s' = BannerData s ∧
    g_BannerPathToImage s' = ∅ ∧
    (∀ sBannerPath p, g_BannerPathToImage s !! sBannerPath = Some p →
                      cells (surfaces s') !! p = None).
Proof.
  unfold UnloadAllBanners. unfold bind at 1. unfold gets at 1. unfold bind at 1.
  destruct (delete_surfaces_run (map_to_list (g_BannerPathToImage s)) s)
    as (s1 & Hrun & Hp & Hf & Hr & Hb & Hm & Hnone & Hfreed).
  rewrite Hrun. eexists. split; [reflexivity |]. cbn.
  repeat split; try assumption.
  intros sBannerPath p Hlook.
  apply (Hfreed (sBannerPath, p)). now apply elem_of_map_to_list.
Qed.

(** *** Counting events *)

Lemma count_events_app (f : Event → bool) (l1 l2 : list Event) :
  count_events f (l1 ++ l2) = (count_events f l1 + count_events f l2)%nat.
Proof.
  induction l1 as [| e l1 IH]; [reflexivity |].
  cbn. destruct (f e); cbn; rewrite IH; reflexivity.
Qed.

(** *** LoadBanner with a source that does not decode *)

Lemma LoadBanner_undecodable_source (s : State) sBannerPath :
  is_image_file (files s) sBannerPath = false →
  ∃ s' new,
    LoadBanner sBannerPath s = Ok tt s' ∧ log s' = new ++ log s ∧
    files s' = files s ∧ BannerData s' = BannerData s.
Proof.
  intros Himg.
  destruct (decide (sBannerPath = "")) as [-> | Hne].
  { exists s, []. repeat split; reflexivity. }
  destruct (decide (caching_enabled s)) as [Hmode | Hmode].
  2: { rewrite LoadBanner_disabled by exact Hmode. exists s, []. repeat split; reflexivity. }
  destruct (g_BannerPathToImage s !! sBannerPath) as [p |] eqn:Hmem.
  { rewrite LoadBanner_resident by (rewrite Hmem; eauto).
    exists s, []. repeat split; reflexivity. }
  destruct (is_saved_surface (files s) (GetBannerCachePath sBannerPath)) eqn:Hsaved.
  - destruct (is_saved_surface_true _ _ Hsaved) as (f & img & Hf & Hc).
    rewrite (LoadBanner_loads_cache_file _ _ f img) by assumption.
    eexists _, [_; _]. repeat split; reflexivity.
  - rewrite LoadBanner_enabled, LoadBanner_loop_first_failure by assumption.
    unfold bind. rewrite CacheBannerInternal_undecodable by exact Himg.
    rewrite LoadBanner_loop_second_failure by assumption.
    eexists _, [_; _; _; _; _; _; _; _]. repeat split; reflexivity.
Qed.

(** *** The heap invariant *)

Lemma bind_Ok {A B} (m : M A) (k : A → M B) s b s' :
  bind m k s = Ok b s' → ∃ a s1, m s = Ok a s1 ∧ k a s1 = Ok b s'.
Proof.
  unfold bind. destruct (m s) as [a s1 | why]; [| discriminate]. eauto.
Qed.

Lemma ASSERT_Ok (b : bool) what s u s' : ASSERT b what s = Ok u s' → b = true ∧ s' = s.
Proof. unfold ASSERT. destruct b; [| discriminate]. intros [= _ <-]. auto. Qed.

Lemma heap_wf_frame (s s' : State) :
  g_BannerPathToImage s' = g_BannerPathToImage s →
  (next (surfaces s) ≤ next (surfaces s'))%positive →
  heap_wf s → heap_wf s'.
Proof.
  intros Hmem Hnext Hwf path p Hp. rewrite Hmem in Hp. specialize (Hwf path p Hp). lia.
Qed.

Lemma heap_wf_loaded (s : State) sBannerPath img e1 e2 :
  heap_wf s →
  heap_wf (set_g_BannerPathToImage <[sBannerPath := next (surfaces s)]>
             (set_surfaces (heap_alloc img) (add_event e1 (add_event e2 s)))).
Proof.
  intros Hwf path p. cbn. rewrite lookup_insert. case_decide.
  - intros [= <-]. lia.
  - intros Hp. specialize (Hwf path p Hp). lia.
Qed.

Lemma LoadSurface_inv (s s' : State) sPath r :
  LoadSurface sPath s = Ok r s' →
  (r = None ∧ s' = add_event (CALL_LoadSurface sPath) s) ∨
  (∃ img, r = Some (next (surfaces s)) ∧
          s' = set_surfaces (heap_alloc img) (add_event (CALL_LoadSurface sPath) s)).
Proof.
  destruct (is_saved_surface (files s) sPath) eqn:Hsaved.
  - destruct (is_saved_surface_true _ _ Hsaved) as (f & img & Hf & Hc).
    rewrite (LoadSurface_succeeds _ _ f img) by assumption.
    intros [= <- <-]. right. eauto.
  - rewrite LoadSurface_fails by exact Hsaved. intros [= <- <-]. left. auto.
Qed.

Lemma CacheBannerInternal_heap_wf (s s' : State) sBannerPath :
  heap_wf s → CacheBannerInternal sBannerPath s = Ok tt s' → heap_wf s'.
Proof.
  intros Hwf Hrun.
  destruct (is_image_file (files s) sBannerPath) eqn:Himg.
  - destruct (is_image_file_true _ _ Himg) as (f & img & Hf & Hc).
    destruct (CacheBannerInternal_decoded s sBannerPath f img Hf Hc)
      as (s1 & p & Hrun1 & _ & _ & _ & _ & _ & _ & _ & _ & Hmem & Hfresh & Hnext & _).
    rewrite Hrun1 in Hrun. injection Hrun as <-.
    intros path q. rewrite Hmem, Hnext.
    destruct (decide (_ = _)).
    + rewrite lookup_insert. case_decide.
      * intros [= <-]. lia.
      * rewrite lookup_delete_ne by assumption. intros Hq. specialize (Hwf path q Hq). lia.
    + rewrite lookup_delete. case_decide; [discriminate |].
      intros Hq. specialize (Hwf path q Hq). lia.
  - rewrite CacheBannerInternal_undecodable in Hrun by exact Himg.
    injection Hrun as <-. revert Hwf. apply heap_wf_frame; cbn; [reflexivity | lia].
Qed.

Lemma LoadBanner_loop_heap_wf (fuel : nat) (tries : Z) (s s' : State) sBannerPath CachePath :
  heap_wf s → LoadBanner_loop fuel tries sBannerPath CachePath s = Ok tt s' → heap_wf s'.
Proof.
  revert tries s. induction fuel as [| fuel IH]; intros tries s Hwf Hrun.
  - injection Hrun as <-. exact Hwf.
  - cbn [LoadBanner_loop] in Hrun.
    destruct (negb (tries <? 2)); [injection Hrun as <-; exact Hwf |].
    apply bind_Ok in Hrun as (images & s1 & [= <- <-] & Hrun).
    destruct (decide (is_Some _)); [injection Hrun as <-; exact Hwf |].
    apply bind_Ok in Hrun as (u & s2 & [= <- <-] & Hrun).
    apply bind_Ok in Hrun as (img & s3 & Hload & Hrun).
    apply LoadSurface_inv in Hload as [[-> ->] | (surf & -> & ->)].
    + destruct (tries =? 0).
      * apply bind_Ok in Hrun as (u1 & s4 & [= <- <-] & Hrun).
        apply bind_Ok in Hrun as ([] & s5 & Hcache & Hrun).
        apply (IH (tries + 1) s5); [| exact Hrun].
        eapply CacheBannerInternal_heap_wf; [| exact Hcache].
        revert Hwf. apply heap_wf_frame; cbn; [reflexivity | lia].
      * injection Hrun as <-.
        revert Hwf. apply heap_wf_frame; cbn; [reflexivity | lia].
    + apply bind_Ok in Hrun as (u1 & s4 & [= <- <-] & Hrun).
      eapply IH; [| exact Hrun].
      now apply heap_wf_loaded.
Qed.

Lemma LoadBanner_heap_wf (s s' : State) sBannerPath :
  heap_wf s → LoadBanner sBannerPath s = Ok tt s' → heap_wf s'.
Proof.
  intros Hwf Hrun. unfold LoadBanner in Hrun.
  destruct (decide (sBannerPath = "")); [injection Hrun as <-; exact Hwf |].
  apply bind_Ok in Hrun as (mode & s1 & [= <- <-] & Hrun).
  destruct (decide (_ ∧ _)); [injection Hrun as <-; exact Hwf |].
  exact (LoadBanner_loop_heap_wf _ _ _ _ _ _ Hwf Hrun).
Qed.

Lemma CacheBanner_heap_wf (s s' : State) sBannerPath :
  heap_wf s → CacheBanner sBannerPath s = Ok tt s' → heap_wf s'.
Proof.
  intros Hwf Hrun.
  destruct (decide (caching_enabled s)) as [Hmode | Hmode].
  2: { rewrite CacheBanner_disabled in Hrun by exact Hmode. injection Hrun as <-. exact Hwf. }
  assert (Hwf1 : heap_wf (add_event (banner_checkpoint sBannerPath) s)).
  { revert Hwf. apply heap_wf_frame; cbn; [reflexivity | lia]. }
  destruct (DoesFileExist sBannerPath s) eqn:Hsrc.
  2: { rewrite CacheBanner_no_source in Hrun by assumption. injection Hrun as <-. exact Hwf1. }
  rewrite (CacheBanner_checks s sBannerPath Hmode Hsrc) in Hrun.
  destruct (cache_up_to_date s sBannerPath).
  - destruct (decide (_ = _)).
    + exact (LoadBanner_heap_wf _ _ _ Hwf1 Hrun).
    + injection Hrun as <-. exact Hwf1.
  - exact (CacheBannerInternal_heap_wf _ _ _ Hwf1 Hrun).
Qed.

Lemma Demand_children_heap_wf (l : list string) (s s' : State) :
  heap_wf s → foreach l Demand_child s = Ok tt s' → heap_wf s'.
Proof.
  revert s. induction l as [| x l IH]; intros s Hwf Hrun.
  - injection Hrun as <-. exact Hwf.
  - cbn [foreach] in Hrun. apply bind_Ok in Hrun as ([] & s1 & Hchild & Hrun).
    apply (IH s1); [| exact Hrun]. clear Hrun IH.
    unfold Demand_child in Hchild.
    apply bind_Ok in Hchild as (images & s0 & [= <- <-] & Hchild).
    destruct (decide (is_Some _)); [injection Hchild as <-; exact Hwf |].
    apply bind_Ok in Hchild as (img & s2 & Hload & Hchild).
    unfold LoadSurface in Hload.
    apply bind_Ok in Hload as (u & s3 & [= <- <-] & Hload).
    apply bind_Ok in Hload as (fs & s4 & [= <- <-] & Hload).
    cbn [files add_event] in Hload.
    destruct (file_contents <$> files s !! GetBannerCachePath x) as [[surf | surf | |] |];
      try (injection Hload as <- <-; injection Hchild as <-;
           revert Hwf; apply heap_wf_frame; cbn; [reflexivity | lia]).
    apply bind_Ok in Hload as (p & s5 & Hnew & [= <- <-]).
    unfold new_surface in Hnew.
    apply bind_Ok in Hnew as (p0 & s6 & [= <- <-] & Hnew).
    apply bind_Ok in Hnew as (u1 & s7 & [= <- <-] & [= <- <-]).
    injection Hchild as <-.
    intros path q. cbn. rewrite lookup_insert. case_decide.
    + intros [= <-]. lia.
    + intros Hq. specialize (Hwf path q Hq). lia.
Qed.

Lemma Demand_heap_wf (s s' : State) : heap_wf s → Demand s = Ok tt s' → heap_wf s'.
Proof.
  intros Hwf Hrun.
  assert (Hwf1 : heap_wf (set_g_iDemandRefcount (λ n, n + 1) s)).
  { revert Hwf. apply heap_wf_frame; cbn; [reflexivity | lia]. }
  destruct (Z_le_gt_dec 1 (g_iDemandRefcount s)) as [Hpos | Hzero].
  - rewrite Demand_nested in Hrun by exact Hpos. injection Hrun as <-. exact Hwf1.
  - rewrite Demand_first in Hrun by lia.
    destruct (decide (_ ≠ _)); [injection Hrun as <-; exact Hwf1 |].
    exact (Demand_children_heap_wf _ _ _ Hwf1 Hrun).
Qed.

Lemma Undemand_heap_wf (s s' : State) : heap_wf s → Undemand s = Ok tt s' → heap_wf s'.
Proof.
  intros Hwf Hrun.
  assert (Hwf1 : heap_wf (set_g_iDemandRefcount (λ n, n - 1) s)).
  { revert Hwf. apply heap_wf_frame; cbn; [reflexivity | lia]. }
  destruct (Z.eq_dec (g_iDemandRefcount s) 1) as [Hone | Hmore].
  - rewrite Undemand_last in Hrun by exact Hone.
    destruct (decide (_ ≠ _)); [injection Hrun as <-; exact Hwf1 |].
    destruct (UnloadAllBanners_runs (set_g_iDemandRefcount (λ n, n - 1) s))
      as (s1 & Hrun1 & _ & _ & _ & _ & Hempty & _).
    rewrite Hrun1 in Hrun. injection Hrun as <-.
    intros path p. rewrite Hempty, lookup_empty. discriminate.
  - rewrite Undemand_not_last in Hrun by exact Hmore. injection Hrun as <-. exact Hwf1.
Qed.

(** *** What the cache never assigns *)

Lemma same_settings_refl (s : State) : same_settings s s.
Proof. repeat split. Qed.

Lemma same_settings_trans (s1 s2 s3 : State) :
  same_settings s1 s2 → same_settings s2 s3 → same_settings s1 s3.
Proof.
  intros (H1 & H2 & H3 & H4) (K1 & K2 & K3 & K4). repeat split; congruence.
Qed.

Lemma CacheBannerInternal_settings (s s' : State) sBannerPath :
  CacheBannerInternal sBannerPath s = Ok tt s' → same_settings s s'.
Proof.
  intros Hrun.
  destruct (is_image_file (files s) sBannerPath) eqn:Himg.
  - destruct (is_image_file_true _ _ Himg) as (f & img & Hf & Hc).
    destruct (CacheBannerInternal_decoded s sBannerPath f img Hf Hc)
      as (s1 & p & Hrun1 & H1 & H2 & H3 & H4 & _).
    rewrite Hrun1 in Hrun. injection Hrun as <-. repeat split; assumption.
  - rewrite CacheBannerInternal_undecodable in Hrun by exact Himg.
    injection Hrun as <-. repeat split.
Qed.

Lemma LoadBanner_loop_settings (fuel : nat) (tries : Z) (s s' : State) sBannerPath CachePath :
  LoadBanner_loop fuel tries sBannerPath CachePath s = Ok tt s' → same_settings s s'.
Proof.
  revert tries s. induction fuel as [| fuel IH]; intros tries s Hrun.
  - injection Hrun as <-. apply same_settings_refl.
  - cbn [LoadBanner_loop] in Hrun.
    destruct (negb (tries <? 2)); [injection Hrun as <-; apply same_settings_refl |].
    apply bind_Ok in Hrun as (images & s1 & [= <- <-] & Hrun).
    destruct (decide (is_Some _)); [injection Hrun as <-; apply same_settings_refl |].
    apply bind_Ok in Hrun as (u & s2 & [= <- <-] & Hrun).
    apply bind_Ok in Hrun as (img & s3 & Hload & Hrun).
    apply LoadSurface_inv in Hload as [[-> ->] | (surf & -> & ->)].
    + destruct (tries =? 0).
      * apply bind_Ok in Hrun as (u1 & s4 & [= <- <-] & Hrun).
        apply bind_Ok in Hrun as ([] & s5 & Hcache & Hrun).
        apply CacheBannerInternal_settings in Hcache.
        apply IH in Hrun.
        eapply same_settings_trans; [| exact Hrun].
        eapply same_settings_trans; [| exact Hcache]. repeat split.
      * injection Hrun as <-. repeat split.
    + apply bind_Ok in Hrun as (u1 & s4 & [= <- <-] & Hrun).
      apply IH in Hrun. eapply same_settings_trans; [| exact Hrun]. repeat split.
Qed.

Lemma LoadBanner_settings (s s' : State) sBannerPath :
  LoadBanner sBannerPath s = Ok tt s' → same_settings s s'.
Proof.
  intros Hrun. unfold LoadBanner in Hrun.
  destruct (decide (sBannerPath = "")); [injection Hrun as <-; apply same_settings_refl |].
  apply bind_Ok in Hrun as (mode & s1 & [= <- <-] & Hrun).
  destruct (decide (_ ∧ _)); [injection Hrun as <-; apply same_settings_refl |].
  exact (LoadBanner_loop_settings _ _ _ _ _ _ Hrun).
Qed.

Lemma CacheBanner_settings (s s' : State) sBannerPath :
  CacheBanner sBannerPath s = Ok tt s' → same_settings s s'.
Proof.
  intros Hrun.
  destruct (decide (caching_enabled s)) as [Hmode | Hmode].
  2: { rewrite CacheBanner_disabled in Hrun by exact Hmode. injection Hrun as <-.
       apply same_settings_refl. }
  destruct (DoesFileExist sBannerPath s) eqn:Hsrc.
  2: { rewrite CacheBanner_no_source in Hrun by assumption. injection Hrun as <-.
       repeat split. }
  rewrite (CacheBanner_checks s sBannerPath Hmode Hsrc) in Hrun.
  apply (same_settings_trans _ (add_event (banner_checkpoint sBannerPath) s));
    [repeat split |].
  destruct (cache_up_to_date s sBannerPath).
  - destruct (decide (_ = _)).
    + exact (LoadBanner_settings _ _ _ Hrun).
    + injection Hrun as <-. apply same_settings_refl.
  - exact (CacheBannerInternal_settings _ _ _ Hrun).
Qed.

Lemma CacheBanner_returns (s : State) sBannerPath :
  ∃ s', CacheBanner sBannerPath s = Ok tt s'.
Proof.
  destruct (decide (caching_enabled s)) as [Hmode | Hmode].
  2: { rewrite CacheBanner_disabled by exact Hmode. eauto. }
  destruct (DoesFileExist sBannerPath s) eqn:Hsrc.
  2: { rewrite CacheBanner_no_source by assumption. eauto. }
  rewrite (CacheBanner_checks s sBannerPath Hmode Hsrc).
  destruct (cache_up_to_date s sBannerPath).
  - destruct (decide (_ = _)).
    + destruct (LoadBanner_returns (add_event (banner_checkpoint sBannerPath) s) sBannerPath)
        as (s' & new & Hrun & _). eauto.
    + unfold ret. eauto.
  - destruct (CacheBannerInternal_returns (add_event (banner_checkpoint sBannerPath) s)
                sBannerPath) as (s' & new & Hrun & _). eauto.
Qed.

(** *** Ownership of the surfaces *)

Lemma heap_safe_wf (s : State) : heap_safe s → heap_wf s.
Proof. intros (D & L & I & A) path p Hp. apply A. exact (D path p Hp). Qed.

Lemma heap_safe_dom (s s' : State) :
  g_BannerPathToImage s' = g_BannerPathToImage s →
  (∀ q, is_Some (cells (surfaces s') !! q) ↔ is_Some (cells (surfaces s) !! q)) →
  (next (surfaces s) ≤ next (surfaces s'))%positive →
  heap_safe s → heap_safe s'.
Proof.
  intros Hmem Hdom Hnext (D & L & I & A). unfold heap_safe. rewrite Hmem.
  split; [| split; [| split]].
  - intros path p Hp. apply Hdom. eauto.
  - intros q Hq. apply L, Hdom, Hq.
  - exact I.
  - intros q Hq. apply Hdom in Hq. specialize (A q Hq). lia.
Qed.

Lemma heap_safe_frame (s s' : State) :
  g_BannerPathToImage s' = g_BannerPathToImage s → surfaces s' = surfaces s →
  heap_safe s → heap_safe s'.
Proof.
  intros Hmem Hheap. apply heap_safe_dom; [exact Hmem | | rewrite Hheap; lia].
  intros q. rewrite Hheap. reflexivity.
Qed.

Lemma heap_safe_insert (s s' : State) sBannerPath img :
  heap_safe s → g_BannerPathToImage s !! sBannerPath = None →
  g_BannerPathToImage s' = <[sBannerPath := next (surfaces s)]> (g_BannerPathToImage s) →
  surfaces s' = heap_alloc img (surfaces s) →
  heap_safe s'.
Proof.
  intros (D & L & I & A) Hnone Hmem Hheap. unfold heap_safe.
  rewrite Hmem, Hheap. cbn [cells next heap_alloc].
  assert (Hfresh : ∀ x, g_BannerPathToImage s !! x ≠ Some (next (surfaces s))).
  { intros x Hx. specialize (A _ (D _ _ Hx)). lia. }
  split; [| split; [| split]].
  - intros x p. rewrite lookup_insert. case_decide.
    + intros [= <-]. rewrite lookup_insert_eq. eauto.
    + intros Hp. rewrite lookup_insert_ne; [eauto |]. intros <-. exact (Hfresh _ Hp).
  - intros q. rewrite lookup_insert. case_decide.
    + subst. intros _. exists sBannerPath. apply lookup_insert_eq.
    + intros Hq. destruct (L q Hq) as [x Hx]. exists x.
      rewrite lookup_insert_ne; [exact Hx |]. intros <-. congruence.
  - intros x1 x2 p. rewrite !lookup_insert. repeat case_decide; subst.
    + reflexivity.
    + intros [= <-] Hp. destruct (Hfresh _ Hp).
    + intros Hp [= <-]. destruct (Hfresh _ Hp).
    + apply I.
  - intros q. rewrite lookup_insert. case_decide; [subst; lia |].
    intros Hq. specialize (A q Hq). lia.
Qed.

Lemma CacheBannerInternal_heap_safe (s s' : State) sBannerPath :
  heap_safe s → CacheBannerInternal sBannerPath s = Ok tt s' → heap_safe s'.
Proof.
  intros Hsafe Hrun.
  destruct (is_image_file (files s) sBannerPath) eqn:Himg.
  2: { rewrite CacheBannerInternal_undecodable in Hrun by exact Himg.
       injection Hrun as <-. revert Hsafe. apply heap_safe_frame; reflexivity. }
  destruct (is_image_file_true _ _ Himg) as (f & img & Hf & Hc).
  destruct (CacheBannerInternal_decoded s sBannerPath f img Hf Hc)
    as (s1 & p & Hrun1 & _ & _ & _ & _ & _ & _ & _ & _ & Hmem & Hfresh & Hnext
        & Hfreed & Hkept & Hgone & Hframe & Htemps).
  destruct (CacheBannerInternal_decoded_beyond s sBannerPath f img Hf Hc)
    as (s2 & Hrun2 & Hbeyond).
  rewrite Hrun1 in Hrun, Hrun2. injection Hrun as <-. injection Hrun2 as <-.
  pose proof (heap_safe_wf s Hsafe) as Hwf.
  destruct Hsafe as (D & L & I & A).
  assert (Hnew : g_BannerPathToImage s !! sBannerPath ≠ Some p).
  { intros Hp. specialize (Hwf _ _ Hp). lia. }
  assert (Hcells : ∀ q, is_Some (cells (surfaces s1) !! q) →
            (q = p ∧ m_BannerCache (PREFSMAN s) = BNCACHE_LOW_RES_PRELOAD) ∨
            ((q < next (surfaces s))%positive ∧
             g_BannerPathToImage s !! sBannerPath ≠ Some q ∧
             is_Some (cells (surfaces s) !! q))).
  { intros q Hq.
    destruct (decide (g_BannerPathToImage s !! sBannerPath = Some q)) as [Hold | Hold].
    { rewrite (Hfreed q Hold) in Hq. destruct Hq; discriminate. }
    destruct (decide (q < next (surfaces s))%positive).
    { right. rewrite Hframe in Hq by assumption. auto. }
    destruct (decide (q < p)%positive).
    { rewrite Htemps in Hq by lia. destruct Hq; discriminate. }
    destruct (decide (q = p)) as [-> | Hqp].
    { left. split; [reflexivity |].
      destruct (decide (m_BannerCache (PREFSMAN s) = BNCACHE_LOW_RES_PRELOAD));
        [assumption |].
      rewrite Hgone in Hq by assumption. destruct Hq; discriminate. }
    exfalso. rewrite Hbeyond in Hq by (rewrite Hnext; lia).
    rewrite decide_False in Hq by exact Hold. specialize (A q Hq). lia. }
  assert (Hkeep : ∀ x q, x ≠ sBannerPath → g_BannerPathToImage s !! x = Some q →
                         cells (surfaces s1) !! q = cells (surfaces s) !! q).
  { intros x q Hx Hq. apply Hframe; [exact (Hwf _ _ Hq) |].
    intros Hold. apply Hx. exact (I _ _ _ Hq Hold). }
  unfold heap_safe. rewrite Hmem, Hnext.
  split; [| split; [| split]].
  - intros x q. destruct (decide (_ = _)).
    + rewrite lookup_insert. case_decide.
      * intros [= <-]. rewrite Hkept by assumption. eauto.
      * rewrite lookup_delete_ne by assumption. intros Hq.
        rewrite (Hkeep x q) by auto. eauto.
    + rewrite lookup_delete. case_decide; [discriminate |]. intros Hq.
      rewrite (Hkeep x q) by auto. eauto.
  - intros q Hq. destruct (Hcells q Hq) as [[-> Hpre] | (Hlt & Hold & Hsome)].
    + exists sBannerPath. rewrite decide_True by assumption. apply lookup_insert_eq.
    + destruct (L q Hsome) as [x Hx]. exists x.
      assert (Hne : sBannerPath ≠ x) by congruence.
      destruct (decide (_ = _)).
      * rewrite lookup_insert_ne, lookup_delete_ne by assumption. exact Hx.
      * rewrite lookup_delete_ne by assumption. exact Hx.
  - intros x1 x2 q. destruct (decide (_ = _)).
    + rewrite !lookup_insert. repeat case_decide; subst;
        rewrite ?lookup_delete_ne by assumption.
      * reflexivity.
      * intros [= <-] Hq. specialize (Hwf _ _ Hq). lia.
      * intros Hq [= <-]. specialize (Hwf _ _ Hq). lia.
      * apply I.
    + rewrite !lookup_delete. repeat case_decide; try discriminate. apply I.
  - intros q Hq. destruct (Hcells q Hq) as [[-> _] | (Hlt & _)]; lia.
Qed.

Lemma LoadBanner_loop_heap_safe (fuel : nat) (tries : Z) (s s' : State)
    sBannerPath CachePath :
  heap_safe s → LoadBanner_loop fuel tries sBannerPath CachePath s = Ok tt s' →
  heap_safe s'.
Proof.
  revert tries s. induction fuel as [| fuel IH]; intros tries s Hsafe Hrun.
  - injection Hrun as <-. exact Hsafe.
  - cbn [LoadBanner_loop] in Hrun.
    destruct (negb (tries <? 2)); [injection Hrun as <-; exact Hsafe |].
    apply bind_Ok in Hrun as (images & s1 & [= <- <-] & Hrun).
    destruct (decide (is_Some _)) as [| Hnone]; [injection Hrun as <-; exact Hsafe |].
    apply bind_Ok in Hrun as (u & s2 & [= <- <-] & Hrun).
    apply bind_Ok in Hrun as (img & s3 & Hload & Hrun).
    apply LoadSurface_inv in Hload as [[-> ->] | (surf & -> & ->)].
    + destruct (tries =? 0).
      * apply bind_Ok in Hrun as (u1 & s4 & [= <- <-] & Hrun).
        apply bind_Ok in Hrun as ([] & s5 & Hcache & Hrun).
        apply (IH (tries + 1) s5); [| exact Hrun].
        eapply CacheBannerInternal_heap_safe; [| exact Hcache].
        revert Hsafe. apply heap_safe_frame; reflexivity.
      * injection Hrun as <-.
        revert Hsafe. apply heap_safe_frame; reflexivity.
    + apply bind_Ok in Hrun as (u1 & s4 & [= <- <-] & Hrun).
      eapply IH; [| exact Hrun].
      apply (heap_safe_insert s _ sBannerPath surf Hsafe); [| reflexivity | reflexivity].
      destruct (g_BannerPathToImage s !! sBannerPath) eqn:Hm; [| reflexivity].
      exfalso. apply Hnone. eauto.
Qed.

Lemma LoadBanner_heap_safe (s s' : State) sBannerPath :
  heap_safe s → LoadBanner sBannerPath s = Ok tt s' → heap_safe s'.
Proof.
  intros Hsafe Hrun. unfold LoadBanner in Hrun.
  destruct (decide (sBannerPath = "")); [injection Hrun as <-; exact Hsafe |].
  apply bind_Ok in Hrun as (mode & s1 & [= <- <-] & Hrun).
  destruct (decide (_ ∧ _)); [injection Hrun as <-; exact Hsafe |].
  exact (LoadBanner_loop_heap_safe _ _ _ _ _ _ Hsafe Hrun).
Qed.

Lemma CacheBanner_heap_safe (s s' : State) sBannerPath :
  heap_safe s → CacheBanner sBannerPath s = Ok tt s' → heap_safe s'.
Proof.
  intros Hsafe Hrun.
  destruct (decide (caching_enabled s)) as [Hmode | Hmode].
  2: { rewrite CacheBanner_disabled in Hrun by exact Hmode. injection Hrun as <-.
       exact Hsafe. }
  assert (Hsafe1 : heap_safe (add_event (banner_checkpoint sBannerPath) s)).
  { revert Hsafe. apply heap_safe_frame; reflexivity. }
  destruct (DoesFileExist sBannerPath s) eqn:Hsrc.
  2: { rewrite CacheBanner_no_source in Hrun by assumption. injection Hrun as <-.
       exact Hsafe1. }
  rewrite (CacheBanner_checks s sBannerPath Hmode Hsrc) in Hrun.
  destruct (cache_up_to_date s sBannerPath).
  - destruct (decide (_ = _)).
    + exact (LoadBanner_heap_safe _ _ _ Hsafe1 Hrun).
    + injection Hrun as <-. exact Hsafe1.
  - exact (CacheBannerInternal_heap_safe _ _ _ Hsafe1 Hrun).
Qed.

Lemma Demand_children_heap_safe (l : list string) (s s' : State) :
  heap_safe s → foreach l Demand_child s = Ok tt s' → heap_safe s'.
Proof.
  revert s. induction l as [| x l IH]; intros s Hsafe Hrun.
  - injection Hrun as <-. exact Hsafe.
  - cbn [foreach] in Hrun. apply bind_Ok in Hrun as ([] & s1 & Hchild & Hrun).
    apply (IH s1); [| exact Hrun]. clear Hrun IH.
    unfold Demand_child in Hchild.
    apply bind_Ok in Hchild as (images & s0 & [= <- <-] & Hchild).
    destruct (decide (is_Some _)) as [| Hnone]; [injection Hchild as <-; exact Hsafe |].
    apply bind_Ok in Hchild as (img & s2 & Hload & Hchild).
    apply LoadSurface_inv in Hload as [[-> ->] | (surf & -> & ->)].
    + injection Hchild as <-. revert Hsafe. apply heap_safe_frame; reflexivity.
    + injection Hchild as <-.
      apply (heap_safe_insert s _ x surf Hsafe); [| reflexivity | reflexivity].
      destruct (g_BannerPathToImage s !! x) eqn:Hm; [| reflexivity].
      exfalso. apply Hnone. eauto.
Qed.

Lemma Demand_heap_safe (s s' : State) : heap_safe s → Demand s = Ok tt s' → heap_safe s'.
Proof.
  intros Hsafe Hrun.
  assert (Hsafe1 : heap_safe (set_g_iDemandRefcount (λ n, n + 1) s)).
  { revert Hsafe. apply heap_safe_frame; reflexivity. }
  destruct (Z_le_gt_dec 1 (g_iDemandRefcount s)) as [Hpos | Hzero].
  - rewrite Demand_nested in Hrun by exact Hpos. injection Hrun as <-. exact Hsafe1.
  - rewrite Demand_first in Hrun by lia.
    destruct (decide (_ ≠ _)); [injection Hrun as <-; exact Hsafe1 |].
    exact (Demand_children_heap_safe _ _ _ Hsafe1 Hrun).
Qed.

(** Deleting the surfaces of a list of map entries: the cells of the list
    are freed, nothing else changes. *)
Lemma delete_surfaces_exact (l : list (string * positive)) (s : State) :
  ∃ hp,
    foreach l (λ it, delete_surface it.2) s = Ok tt (set_surfaces (λ _, hp) s) ∧
    next hp = next (surfaces s) ∧
    ∀ q, cells hp !! q = if decide (q ∈ l.*2) then None else cells (surfaces s) !! q.
Proof.
  revert s. induction l as [| x l IH]; intros s.
  - exists (surfaces s). split; [destruct s; reflexivity |]. split; [reflexivity |].
    intros q. rewrite decide_False; [reflexivity |]. cbn. apply not_elem_of_nil.
  - cbn [foreach]. unfold bind at 1. unfold delete_surface at 1, modify at 1.
    destruct (IH (set_surfaces (heap_free x.2) s)) as (hp & Hrun & Hnext & Hcells).
    exists hp. split; [rewrite Hrun; reflexivity |]. split; [exact Hnext |].
    intros q. rewrite Hcells. cbn [surfaces set_surfaces heap_free cells].
    rewrite fmap_cons, lookup_delete.
    destruct (decide (q ∈ l.*2)) as [Hin | Hin].
    + rewrite decide_True; [reflexivity |]. apply elem_of_cons. now right.
    + case_decide as Hq.
      * subst. rewrite decide_True; [reflexivity |]. apply elem_of_cons. now left.
      * rewrite decide_False; [reflexivity |].
        intros Hin'. apply elem_of_cons in Hin' as [-> | Hin']; [now apply Hq | now apply Hin].
Qed.

(** Under the ownership invariant [UnloadAllBanners] leaves no surface
    allocated; it touches nothing but the map and the heap. *)
Lemma UnloadAllBanners_frees_all (s : State) :
  heap_safe s →
  ∃ hp,
    UnloadAllBanners s =
      Ok tt (set_g_BannerPathToImage (λ _, ∅) (set_surfaces (λ _, hp) s)) ∧
    next hp = next (surfaces s) ∧ ∀ q, cells hp !! q = None.
Proof.
  intros (D & L & I & A).
  unfold UnloadAllBanners. unfold bind at 1. unfold gets at 1. unfold bind at 1.
  destruct (delete_surfaces_exact (map_to_list (g_BannerPathToImage s)) s)
    as (hp & Hrun & Hnext & Hcells).
  rewrite Hrun. exists hp. split; [reflexivity |]. split; [exact Hnext |].
  intros q. rewrite Hcells.
  destruct (decide (q ∈ _)) as [| Hout]; [reflexivity |].
  destruct (cells (surfaces s) !! q) as [surf |] eqn:Hq; [| reflexivity].
  exfalso. apply Hout.
  destruct (L q) as [x Hx]; [rewrite Hq; eauto |].
  apply list_elem_of_fmap. exists (x, q). split; [reflexivity |].
  now apply elem_of_map_to_list.
Qed.

Lemma heap_safe_empty (s : State) :
  g_BannerPathToImage s = ∅ → (∀ q, cells (surfaces s) !! q = None) → heap_safe s.
Proof.
  intros Hmem Hcells. unfold heap_safe. rewrite Hmem.
  split; [| split; [| split]].
  - intros x p. rewrite lookup_empty. discriminate.
  - intros q [surf Hq]. rewrite Hcells in Hq. discriminate.
  - intros x1 x2 p. rewrite lookup_empty. discriminate.
  - intros q [surf Hq]. rewrite Hcells in Hq. discriminate.
Qed.

Lemma Undemand_heap_safe (s s' : State) :
  heap_safe s → Undemand s = Ok tt s' → heap_safe s'.
Proof.
  intros Hsafe Hrun.
  assert (Hsafe1 : heap_safe (set_g_iDemandRefcount (λ n, n - 1) s)).
  { revert Hsafe. apply heap_safe_frame; reflexivity. }
  destruct (Z.eq_dec (g_iDemandRefcount s) 1) as [Hone | Hmore].
  - rewrite Undemand_last in Hrun by exact Hone.
    destruct (decide (_ ≠ _)); [injection Hrun as <-; exact Hsafe1 |].
    destruct (UnloadAllBanners_frees_all _ Hsafe1) as (hp & Hrun1 & _ & Hcells).
    rewrite Hrun1 in Hrun. injection Hrun as <-.
    apply heap_safe_empty; [reflexivity | exact Hcells].
  - rewrite Undemand_not_last in Hrun by exact Hmore. injection Hrun as <-. exact Hsafe1.
Qed.

Lemma heap_safe_one (s : State) sBannerPath p img :
  g_BannerPathToImage s = {[ sBannerPath := p ]} →
  cells (surfaces s) = {[ p := img ]} → (p < next (surfaces s))%positive →
  heap_safe s.
Proof.
  intros Hmem Hcells Hnext. unfold heap_safe. rewrite Hmem, Hcells.
  split; [| split; [| split]].
  - intros x q Hq. apply lookup_singleton_Some in Hq as [<- <-].
    rewrite lookup_singleton_eq. eauto.
  - intros q [surf Hq]. apply lookup_singleton_Some in Hq as [<- <-].
    exists sBannerPath. apply lookup_singleton_eq.
  - intros x1 x2 q H1 H2. apply lookup_singleton_Some in H1 as [<- _].
    apply lookup_singleton_Some in H2 as [<- _]. reflexivity.
  - intros q [surf Hq]. apply lookup_singleton_Some in Hq as [<- <-]. exact Hnext.
Qed.

(** *** Making the texture *)

Lemma alter_as_insert {A} (f : A → A) (m : gmap positive A) (p : positive) (x : A) :
  m !! p = Some x → alter f p m = <[p := f x]> m.
Proof.
  intros Hp. apply map_eq. intros q.
  rewrite lookup_alter, lookup_insert. case_decide; [| reflexivity].
  rewrite Hp. reflexivity.
Qed.

Lemma BannerTexture_Create_runs (t : BannerTexture) (s : State) p img :
  g_BannerPathToImage s !! img_slot t = Some p → cells (surfaces s) !! p = Some img →
  let d := DISPLAY s in
  let up := fitted (GetMaxTextureSize d) img in
  power_of_two_check (surface_w up) = true →
  power_of_two_check (surface_h up) = true →
  SupportsTextureFormat (texture_format d up) d = true →
  ∃ t' s',
    BannerTexture_Create t s = Ok t' s' ∧
    texture_ID t' = texture_ID t ∧ img_slot t' = img_slot t ∧
    m_iSourceWidth t' = width t ∧ m_iSourceHeight t' = height t ∧
    m_iTextureWidth t' = surface_w up ∧ m_iTextureHeight t' = surface_h up ∧
    m_iImageWidth t' = surface_w up ∧ m_iImageHeight t' = surface_h up ∧
    m_uTexHandle t' = (CreateTexture (texture_format d up) up d).1 ∧
    DISPLAY s' = (CreateTexture (texture_format d up) up d).2 ∧
    cells (surfaces s') = <[p := up]> (cells (surfaces s)) ∧
    next (surfaces s') = next (surfaces s) ∧
    g_BannerPathToImage s' = g_BannerPathToImage s ∧
    PREFSMAN s' = PREFSMAN s ∧ TEXTUREMAN s' = TEXTUREMAN s ∧
    files s' = files s ∧ read_only s' = read_only s ∧ BannerData s' = BannerData s ∧
    g_iDemandRefcount s' = g_iDemandRefcount s ∧
    log s' =
      (if (surface_w img >? GetMaxTextureSize d) || (surface_h img >? GetMaxTextureSize d)
       then [LOG_Warn "Converted %s at runtime" [ArgS (filename (texture_ID t))]]
       else []) ++ log s.
Proof.
  intros Hmem Hcell d up Hw Hh Hpf.
  cut (wp (BannerTexture_Create t) (λ t' s',
    texture_ID t' = texture_ID t ∧ img_slot t' = img_slot t ∧
    m_iSourceWidth t' = width t ∧ m_iSourceHeight t' = height t ∧
    m_iTextureWidth t' = surface_w up ∧ m_iTextureHeight t' = surface_h up ∧
    m_iImageWidth t' = surface_w up ∧ m_iImageHeight t' = surface_h up ∧
    m_uTexHandle t' = (CreateTexture (texture_format d up) up d).1 ∧
    DISPLAY s' = (CreateTexture (texture_format d up) up d).2 ∧
    cells (surfaces s') = <[p := up]> (cells (surfaces s)) ∧
    next (surfaces s') = next (surfaces s) ∧
    g_BannerPathToImage s' = g_BannerPathToImage s ∧
    PREFSMAN s' = PREFSMAN s ∧ TEXTUREMAN s' = TEXTUREMAN s ∧
    files s' = files s ∧ read_only s' = read_only s ∧ BannerData s' = BannerData s ∧
    g_iDemandRefcount s' = g_iDemandRefcount s ∧
    log s' =
      (if (surface_w img >? GetMaxTextureSize d) || (surface_h img >? GetMaxTextureSize d)
       then [LOG_Warn "Converted %s at runtime" [ArgS (filename (texture_ID t))]]
       else []) ++ log s) s).
  { intros (t' & s' & Hrun & H). exists t', s'. split; [exact Hrun | exact H]. }
  revert Hw Hh Hpf. subst up d. unfold fitted, texture_format.
  intros Hw Hh Hpf.
  unfold BannerTexture_Create.
  wp_steps. rewrite Hmem. wp_steps. rewrite Hcell. wp_steps.
  destruct (_ || _) eqn:Hbig; cbn [surface_w surface_h surface_fmt] in Hw, Hh, Hpf.
  - wp_steps. rewrite lookup_alter_eq, Hcell. cbn [fmap option_fmap option_map].
    wp_steps. rewrite Hw. wp_steps. rewrite Hh. wp_steps. rewrite Hpf. wp_steps.
    norm_final. rewrite (alter_as_insert _ _ _ _ Hcell).
    repeat match goal with |- _ ∧ _ => split end; reflexivity.
  - wp_steps. rewrite Hcell. wp_steps. rewrite Hw. wp_steps. rewrite Hh. wp_steps.
    rewrite Hpf. wp_steps.
    norm_final. rewrite (insert_id _ _ _ Hcell).
    repeat match goal with |- _ ∧ _ => split end; reflexivity.
Qed.

(** The three assertions of [BannerTexture::Create], in the order they are
    made. *)
Lemma BannerTexture_Create_asserts (t : BannerTexture) (s : State) p img :
  g_BannerPathToImage s !! img_slot t = Some p → cells (surfaces s) !! p = Some img →
  let d := DISPLAY s in
  let up := fitted (GetMaxTextureSize d) img in
  power_of_two_check (surface_w up) && power_of_two_check (surface_h up)
    && SupportsTextureFormat (texture_format d up) d = false →
  ∃ why, BannerTexture_Create t s = Abort why.
Proof.
  intros Hmem Hcell d up Hfail.
  destruct (BannerTexture_Create t s) as [t' s' | why] eqn:Hrun; [| eauto].
  exfalso. revert Hfail. subst up d. unfold fitted, texture_format.
  unfold BannerTexture_Create in Hrun.
  apply bind_Ok in Hrun as (images & s1 & [= <- <-] & H).
  rewrite Hmem in H.
  apply bind_Ok in H as (surf0 & s2 & Hd & H).
  unfold deref in Hd. apply bind_Ok in Hd as (hp & s3 & [= <- <-] & Hd).
  rewrite Hcell in Hd. injection Hd as <- <-.
  apply bind_Ok in H as (d & s3 & [= <- <-] & H).
  apply bind_Ok in H as (u & s4 & Hzoom & H).
  apply bind_Ok in H as (surf & s5 & Hd & H).
  apply bind_Ok in H as (u1 & s6 & Hw & H).
  apply bind_Ok in H as (u2 & s7 & Hh & H).
  apply bind_Ok in H as (u3 & s8 & Hpf & H).
  apply ASSERT_Ok in Hw as [Hw ->]. apply ASSERT_Ok in Hh as [Hh ->].
  apply ASSERT_Ok in Hpf as [Hpf ->].
  unfold deref in Hd. apply bind_Ok in Hd as (hp & s9 & [= <- <-] & Hd).
  destruct (_ || _) eqn:Hbig.
  - apply bind_Ok in Hzoom as (u4 & s10 & [= <- <-] & [= <- <-]).
    cbn in Hd. rewrite lookup_alter_eq, Hcell in Hd. injection Hd as <- <-.
    cbn in Hw, Hh, Hpf. cbn. rewrite Hw, Hh, Hpf. discriminate.
  - injection Hzoom as <- <-. rewrite Hcell in Hd. injection Hd as <- <-.
    cbn in Hpf. rewrite Hw, Hh, Hpf. discriminate.
Qed.

Lemma deref_live (s : State) p img :
  cells (surfaces s) !! p = Some img → deref p s = Ok img s.
Proof. intros H. unfold deref, bind, gets. rewrite H. reflexivity. Qed.

(** [LoadCachedBanner] past its guards: a resident bitmap, a usable index
    record, no texture registered yet. *)
Lemma LoadCachedBanner_past_guards (s : State) sBannerPath p img :
  sBannerPath ≠ "" →
  g_BannerPathToImage s !! sBannerPath = Some p → cells (surfaces s) !! p = Some img →
  let iSourceWidth := default 0 (GetValue sBannerPath Width s) in
  let iSourceHeight := default 0 (GetValue sBannerPath Height s) in
  let ID := banner_texture_ID sBannerPath (default false (GetValue sBannerPath Rotated s)) in
  iSourceWidth ≠ 0 → iSourceHeight ≠ 0 →
  IsTextureRegistered ID (TEXTUREMAN s) = false →
  LoadCachedBanner sBannerPath s =
    bind (new_BannerTexture ID sBannerPath iSourceWidth iSourceHeight)
      (λ pTexture,
         bind (modify (set_TEXTUREMAN (RegisterTexture (volatile ID) pTexture)))
           (λ _, bind (modify (set_TEXTUREMAN (UnloadTexture pTexture)))
                   (λ _, ret (volatile ID))))
      (add_event
         (LOG_Trace "Loading banner texture %s; src %ix%i; image %ix%i"
            [ArgS (filename ID); ArgI iSourceWidth; ArgI iSourceHeight;
             ArgI (surface_w img); ArgI (surface_h img)])
         (add_event
            (LOG_Trace "BannerCache::LoadCachedBanner(%s): %s"
               [ArgS sBannerPath; ArgS (GetBannerCachePath sBannerPath)]) s)).
Proof.
  intros Hne Hmem Hcell iSourceWidth iSourceHeight ID Hw Hh Hreg.
  unfold LoadCachedBanner.
  rewrite decide_False by exact Hne.
  unfold bind at 1. unfold emit at 1, modify at 1.
  unfold bind at 1. unfold gets at 1. cbn [g_BannerPathToImage add_event].
  rewrite Hmem.
  unfold bind at 1. unfold gets at 1.
  unfold bind at 1. unfold gets at 1.
  unfold bind at 1. unfold gets at 1.
  match goal with
  | |- context [add_event ?e s] =>
      change (GetValue sBannerPath Width (add_event e s)) with (GetValue sBannerPath Width s);
      change (GetValue sBannerPath Height (add_event e s)) with (GetValue sBannerPath Height s);
      change (GetValue sBannerPath Rotated (add_event e s))
        with (GetValue sBannerPath Rotated s)
  end.
  fold iSourceWidth iSourceHeight.
  replace ((iSourceWidth =? 0) || (iSourceHeight =? 0)) with false.
  2: { symmetry. apply orb_false_iff. rewrite !Z.eqb_neq. auto. }
  unfold bind at 1. unfold gets at 1. cbn [TEXTUREMAN add_event].
  change (if default false (GetValue sBannerPath Rotated s) then _ else _) with ID.
  rewrite Hreg. unfold bind at 1. rewrite (deref_live _ p img) by exact Hcell.
  unfold bind at 1. unfold emit at 1, modify at 1. reflexivity.
Qed.

(** What [LoadCachedBanner] does when it makes the texture. *)
Lemma LoadCachedBanner_creates (s : State) sBannerPath p img :
  sBannerPath ≠ "" →
  g_BannerPathToImage s !! sBannerPath = Some p → cells (surfaces s) !! p = Some img →
  let iSourceWidth := default 0 (GetValue sBannerPath Width s) in
  let iSourceHeight := default 0 (GetValue sBannerPath Height s) in
  let ID := banner_texture_ID sBannerPath (default false (GetValue sBannerPath Rotated s)) in
  let d := DISPLAY s in
  let up := fitted (GetMaxTextureSize d) img in
  iSourceWidth ≠ 0 → iSourceHeight ≠ 0 →
  IsTextureRegistered ID (TEXTUREMAN s) = false →
  power_of_two_check (surface_w up) = true →
  power_of_two_check (surface_h up) = true →
  SupportsTextureFormat (texture_format d up) d = true →
  ∃ pTexture s',
    LoadCachedBanner sBannerPath s = Ok (volatile ID) s' ∧
    TEXTUREMAN s' =
      UnloadTexture pTexture (RegisterTexture (volatile ID) pTexture (TEXTUREMAN s)) ∧
    texture_ID pTexture = ID ∧ img_slot pTexture = sBannerPath ∧
    m_iSourceWidth pTexture = iSourceWidth ∧ m_iSourceHeight pTexture = iSourceHeight ∧
    m_iTextureWidth pTexture = surface_w up ∧ m_iTextureHeight pTexture = surface_h up ∧
    m_iImageWidth pTexture = surface_w up ∧ m_iImageHeight pTexture = surface_h up ∧
    m_uTexHandle pTexture = (CreateTexture (texture_format d up) up d).1 ∧
    DISPLAY s' = (CreateTexture (texture_format d up) up d).2 ∧
    cells (surfaces s') = <[p := up]> (cells (surfaces s)) ∧
    next (surfaces s') = next (surfaces s) ∧
    g_BannerPathToImage s' = g_BannerPathToImage s ∧
    PREFSMAN s' = PREFSMAN s ∧ files s' = files s ∧ read_only s' = read_only s ∧
    BannerData s' = BannerData s ∧ g_iDemandRefcount s' = g_iDemandRefcount s.
Proof.
  intros Hne Hmem Hcell iSourceWidth iSourceHeight ID d up Hw Hh Hreg Hpw Hph Hpf.
  rewrite (LoadCachedBanner_past_guards s sBannerPath p img) by assumption.
  fold iSourceWidth iSourceHeight ID.
  unfold bind at 1. unfold new_BannerTexture.
  match goal with
  | |- context [BannerTexture_Create ?t ?s0] =>
      destruct (BannerTexture_Create_runs t s0 p img Hmem Hcell Hpw Hph Hpf)
        as (t' & s' & Hrun & H1 & H2 & H3 & H4 & H5 & H6 & H7 & H8 & H9 & H10 & H11
            & H12 & H13 & H14 & H15 & H16 & H17 & H18 & H19 & _)
  end.
  rewrite Hrun. exists t'. eexists. split; [reflexivity |].
  cbn. rewrite H15. auto 20.
Qed.

(** And when one of the assertions of [BannerTexture::Create] fails. *)
Lemma LoadCachedBanner_asserts (s : State) sBannerPath p img :
  sBannerPath ≠ "" →
  g_BannerPathToImage s !! sBannerPath = Some p → cells (surfaces s) !! p = Some img →
  let ID := banner_texture_ID sBannerPath (default false (GetValue sBannerPath Rotated s)) in
  let d := DISPLAY s in
  let up := fitted (GetMaxTextureSize d) img in
  default 0 (GetValue sBannerPath Width s) ≠ 0 →
  default 0 (GetValue sBannerPath Height s) ≠ 0 →
  IsTextureRegistered ID (TEXTUREMAN s) = false →
  power_of_two_check (surface_w up) && power_of_two_check (surface_h up)
    && SupportsTextureFormat (texture_format d up) d = false →
  ∃ why, LoadCachedBanner sBannerPath s = Abort why.
Proof.
  intros Hne Hmem Hcell ID d up Hw Hh Hreg Hfail.
  rewrite (LoadCachedBanner_past_guards s sBannerPath p img) by assumption.
  unfold bind at 1. unfold new_BannerTexture.
  match goal with
  | |- context [BannerTexture_Create ?t ?s0] =>
      destruct (BannerTexture_Create_asserts t s0 p img Hmem Hcell Hfail) as (why & Hrun)
  end.
  rewrite Hrun. eauto.
Qed.

Lemma BannerTexture_Create_inv (t t' : BannerTexture) (s s' : State) :
  BannerTexture_Create t s = Ok t' s' →
  ∃ p img,
    g_BannerPathToImage s !! img_slot t = Some p ∧ cells (surfaces s) !! p = Some img ∧
    power_of_two_check (surface_w (fitted (GetMaxTextureSize (DISPLAY s)) img)) = true ∧
    power_of_two_check (surface_h (fitted (GetMaxTextureSize (DISPLAY s)) img)) = true ∧
    SupportsTextureFormat
      (texture_format (DISPLAY s) (fitted (GetMaxTextureSize (DISPLAY s)) img))
      (DISPLAY s) = true.
Proof.
  intros Hrun. pose proof Hrun as H. unfold BannerTexture_Create in H.
  apply bind_Ok in H as (images & s1 & [= <- <-] & H).
  destruct (g_BannerPathToImage s !! img_slot t) as [p |] eqn:Hmem; [| discriminate].
  apply bind_Ok in H as (surf0 & s2 & Hd & _).
  unfold deref in Hd. apply bind_Ok in Hd as (hp & s3 & [= <- <-] & Hd).
  destruct (cells (surfaces s) !! p) as [img |] eqn:Hcell; [| discriminate].
  exists p, img. split; [reflexivity |]. split; [exact Hcell |].
  destruct (power_of_two_check (surface_w (fitted (GetMaxTextureSize (DISPLAY s)) img))
            && power_of_two_check (surface_h (fitted (GetMaxTextureSize (DISPLAY s)) img))
            && SupportsTextureFormat
                 (texture_format (DISPLAY s) (fitted (GetMaxTextureSize (DISPLAY s)) img))
                 (DISPLAY s)) eqn:Hchecks.
  - apply andb_true_iff in Hchecks as [Hchecks ?].
    apply andb_true_iff in Hchecks as [? ?]. auto.
  - destruct (BannerTexture_Create_asserts t s p img Hmem Hcell Hchecks) as (why & Habort).
    rewrite Habort in Hrun. discriminate.
Qed.

Lemma insert_same_domain (m : gmap positive RageSurface) p img img' q :
  m !! p = Some img → is_Some (<[p := img']> m !! q) ↔ is_Some (m !! q).
Proof.
  intros Hp. rewrite lookup_insert. case_decide; [| reflexivity].
  subst. rewrite Hp. split; eauto.
Qed.

Lemma BannerTexture_Create_heap_safe (t t' : BannerTexture) (s s' : State) :
  heap_safe s → BannerTexture_Create t s = Ok t' s' → heap_safe s'.
Proof.
  intros Hsafe Hrun.
  destruct (BannerTexture_Create_inv t t' s s' Hrun)
    as (p & img & Hmem & Hcell & Hw & Hh & Hpf).
  destruct (BannerTexture_Create_runs t s p img Hmem Hcell Hw Hh Hpf)
    as (t1 & s1 & Hrun1 & _ & _ & _ & _ & _ & _ & _ & _ & _ & _ & Hcells & Hnext
        & Hmem1 & _).
  rewrite Hrun1 in Hrun. injection Hrun as <- <-.
  revert Hsafe. apply heap_safe_dom; [exact Hmem1 | | rewrite Hnext; lia].
  intros q. rewrite Hcells. exact (insert_same_domain _ _ _ _ _ Hcell).
Qed.

Lemma LoadCachedBanner_heap_safe (s s' : State) sBannerPath ID :
  heap_safe s → LoadCachedBanner sBannerPath s = Ok ID s' → heap_safe s'.
Proof.
  intros Hsafe H. unfold LoadCachedBanner in H.
  destruct (decide (sBannerPath = "")); [injection H as <- <-; exact Hsafe |].
  apply bind_Ok in H as (u & s1 & [= <- <-] & H).
  apply bind_Ok in H as (images & s2 & [= <- <-] & H).
  cbn [g_BannerPathToImage add_event] in H.
  destruct (g_BannerPathToImage s !! sBannerPath) as [p |].
  2: { apply bind_Ok in H as (u1 & s3 & [= <- <-] & [= <- <-]).
       revert Hsafe. apply heap_safe_frame; reflexivity. }
  apply bind_Ok in H as (w & s3 & [= <- <-] & H).
  apply bind_Ok in H as (h & s4 & [= <- <-] & H).
  apply bind_Ok in H as (r & s5 & [= <- <-] & H).
  destruct (_ || _).
  { apply bind_Ok in H as (u1 & s6 & [= <- <-] & [= <- <-]).
    revert Hsafe. apply heap_safe_frame; reflexivity. }
  apply bind_Ok in H as (tm & s6 & [= <- <-] & H).
  destruct (IsTextureRegistered _ _).
  { injection H as <- <-. revert Hsafe. apply heap_safe_frame; reflexivity. }
  apply bind_Ok in H as (surf & s7 & Hd & H).
  unfold deref in Hd. apply bind_Ok in Hd as (hp & s8 & [= <- <-] & Hd).
  destruct (cells _ !! p); [| discriminate]. injection Hd as <- <-.
  apply bind_Ok in H as (u2 & s9 & [= <- <-] & H).
  apply bind_Ok in H as (t & s10 & Hcreate & H).
  apply bind_Ok in H as (u3 & s11 & [= <- <-] & H).
  apply bind_Ok in H as (u4 & s12 & [= <- <-] & [= <- <-]).
  apply BannerTexture_Create_heap_safe in Hcreate.
  - revert Hcreate. apply heap_safe_frame; reflexivity.
  - revert Hsafe. apply heap_safe_frame; reflexivity.
Qed.

(** ** The staleness check of CacheBanner *)

(** C1, as amended.  With a caching mode selected and the source file in
    place, [CacheBanner] skips its own regeneration exactly when the cache
    file exists and, in addition, the fast-load flag is set or the stored
    fingerprint equals the source's current one ([cache_up_to_date]).  In
    every other case, an absent cache file with fast-load set included, it
    calls [CacheBannerInternal], which makes one regeneration attempt.
    When it skips, loadOnDemand mode does nothing more and preloadAll mode
    hands over to [LoadBanner], which regenerates only when it gets as far
    as a cache-file load and that load fails. *)
Theorem CacheBanner_regenerates_unless_up_to_date (s : State) sBannerPath :
  caching_enabled s → DoesFileExist sBannerPath s = true →
  ∃ s' new,
    CacheBanner sBannerPath s = Ok tt s' ∧ log s' = new ++ log s ∧
    if cache_up_to_date s sBannerPath then
      CacheBanner sBannerPath s =
        (if decide (m_BannerCache (PREFSMAN s) = BNCACHE_LOW_RES_PRELOAD)
         then LoadBanner sBannerPath else ret tt)
          (add_event (banner_checkpoint sBannerPath) s) ∧
      count_events is_LoadFile new =
        (if bool_decide (m_BannerCache (PREFSMAN s) = BNCACHE_LOW_RES_PRELOAD)
            && load_fails s sBannerPath then 1 else 0)%nat
    else
      CacheBanner sBannerPath s =
        CacheBannerInternal sBannerPath (add_event (banner_checkpoint sBannerPath) s) ∧
      count_events is_LoadFile new = 1%nat.
Proof.
  intros Hmode Hsrc. rewrite (CacheBanner_checks s sBannerPath Hmode Hsrc).
  set (s1 := add_event _ s).
  destruct (cache_up_to_date s sBannerPath).
  - destruct (decide (m_BannerCache (PREFSMAN s) = BNCACHE_LOW_RES_PRELOAD)) as [Hpre | Hpre].
    + rewrite (bool_decide_eq_true_2 _ Hpre). cbn [andb].
      destruct (LoadBanner_returns s1 sBannerPath) as (s' & new & Hrun & Hlog & Hcount).
      exists s', (new ++ [banner_checkpoint sBannerPath]).
      split; [exact Hrun |]. split; [rewrite Hlog, <- app_assoc; reflexivity |].
      split; [reflexivity |].
      rewrite count_events_app, Hcount. cbn. rewrite Nat.add_0_r. reflexivity.
    + rewrite (bool_decide_eq_false_2 _ Hpre). cbn [andb].
      exists s1, [banner_checkpoint sBannerPath]. repeat split; reflexivity.
  - destruct (CacheBannerInternal_returns s1 sBannerPath)
      as (s' & new & Hrun & Hlog & Hcount & _).
    exists s', (new ++ [banner_checkpoint sBannerPath]).
    split; [exact Hrun |]. split; [rewrite Hlog, <- app_assoc; reflexivity |].
    split; [reflexivity |].
    rewrite count_events_app, Hcount. reflexivity.
Qed.

(** C10, as amended.  A source that [LoadFile] cannot decode never makes
    [CacheBanner] fail, and the cache files and the index stay as they
    were.  If the source file does not exist, [CacheBanner] returns before
    the staleness check and attempts no regeneration; an attempt that is
    started for a file that exists gives up in [CacheBannerInternal] with a
    log line. *)
Theorem CacheBanner_unreadable_source (s : State) sBannerPath :
  is_image_file (files s) sBannerPath = false →
  (∃ s' new,
     CacheBanner sBannerPath s = Ok tt s' ∧ log s' = new ++ log s ∧
     files s' = files s ∧ BannerData s' = BannerData s ∧
     (DoesFileExist sBannerPath s = false →
      count_events is_LoadFile new = 0%nat ∧
      g_BannerPathToImage s' = g_BannerPathToImage s ∧ surfaces s' = surfaces s)) ∧
  CacheBannerInternal sBannerPath s =
    Ok tt (add_event (LOG_UserLog "Cache file" sBannerPath "couldn't be loaded: %s" [])
             (add_event (CALL_LoadFile sBannerPath) s)).
Proof.
  intros Himg. split; [| now apply CacheBannerInternal_undecodable].
  destruct (decide (caching_enabled s)) as [Hmode | Hmode].
  2: { rewrite CacheBanner_disabled by exact Hmode.
       exists s, []. repeat split; reflexivity. }
  destruct (DoesFileExist sBannerPath s) eqn:Hsrc.
  2: { rewrite CacheBanner_no_source by assumption.
       eexists _, [_]. repeat split; reflexivity. }
  rewrite (CacheBanner_checks s sBannerPath Hmode Hsrc).
  set (s1 := add_event _ s).
  destruct (cache_up_to_date s sBannerPath).
  - destruct (decide (m_BannerCache (PREFSMAN s) = BNCACHE_LOW_RES_PRELOAD)).
    + destruct (LoadBanner_undecodable_source s1 sBannerPath Himg)
        as (s' & new & Hrun & Hlog & Hfiles & Hdata).
      exists s', (new ++ [banner_checkpoint sBannerPath]).
      split; [exact Hrun |]. split; [rewrite Hlog, <- app_assoc; reflexivity |].
      repeat split; try assumption; discriminate.
    + exists s1, [banner_checkpoint sBannerPath]. repeat split; try reflexivity; discriminate.
  - rewrite CacheBannerInternal_undecodable by exact Himg.
    eexists _, [_; _; _]. repeat split; try reflexivity; discriminate.
Qed.

(** ** The bounded retry of LoadBanner *)

(** C3, as amended.  A call of [LoadBanner] whose cache-file load fails
    makes exactly one regeneration attempt.  It then loads the cache file
    once more, unless the regeneration has itself left the bitmap resident
    (preloadAll mode with a source that decodes): then it returns after
    the single load.  If the second load fails too, the call still returns
    normally and the path has no entry in [g_BannerPathToImage]. *)
Theorem LoadBanner_one_regeneration_attempt (s : State) sBannerPath :
  sBannerPath ≠ "" → caching_enabled s →
  g_BannerPathToImage s !! sBannerPath = None →
  is_saved_surface (files s) (GetBannerCachePath sBannerPath) = false →
  ∃ s' new,
    LoadBanner sBannerPath s = Ok tt s' ∧
    log s' = new ++ log s ∧
    count_events is_LoadFile new = 1%nat ∧
    if bool_decide (m_BannerCache (PREFSMAN s) = BNCACHE_LOW_RES_PRELOAD)
       && is_image_file (files s) sBannerPath
    then count_events is_LoadSurface new = 1%nat ∧
         is_Some (g_BannerPathToImage s' !! sBannerPath)
    else count_events is_LoadSurface new = 2%nat ∧
         if is_saved_surface (files s') (GetBannerCachePath sBannerPath)
         then is_Some (g_BannerPathToImage s' !! sBannerPath)
         else g_BannerPathToImage s' !! sBannerPath = None.
Proof. apply LoadBanner_retry. Qed.

(** C5, as amended.  [LoadBanner] does nothing when no caching mode is
    selected.  In preloadAll mode it does nothing only for the empty path
    and for a path that is already resident; for any other path it goes to
    the cache file, and brings the bitmap into memory when the file can be
    read. *)
Theorem LoadBanner_no_op_cases (s : State) sBannerPath :
  (m_BannerCache (PREFSMAN s) = BNCACHE_OFF → LoadBanner sBannerPath s = Ok tt s) ∧
  (m_BannerCache (PREFSMAN s) = BNCACHE_LOW_RES_PRELOAD →
   (sBannerPath = "" ∨ is_Some (g_BannerPathToImage s !! sBannerPath) →
    LoadBanner sBannerPath s = Ok tt s) ∧
   (sBannerPath ≠ "" → g_BannerPathToImage s !! sBannerPath = None →
    ∃ s' new,
      LoadBanner sBannerPath s = Ok tt s' ∧ log s' = new ++ log s ∧
      (1 ≤ count_events is_LoadSurface new)%nat ∧
      (∀ f img, files s !! GetBannerCachePath sBannerPath = Some f →
                file_contents f = SavedSurface img →
                g_BannerPathToImage s' !! sBannerPath = Some (next (surfaces s)) ∧
                cells (surfaces s') !! next (surfaces s) = Some img))).
Proof.
  split.
  - intros Hoff. apply LoadBanner_disabled. unfold caching_enabled. rewrite Hoff.
    intros [H | H]; discriminate.
  - intros Hpre.
    assert (Hmode : caching_enabled s) by (left; exact Hpre).
    split.
    + intros [-> | Hres]; [reflexivity | now apply LoadBanner_resident].
    + intros Hne Hmem.
      destruct (is_saved_surface (files s) (GetBannerCachePath sBannerPath)) eqn:Hsaved.
      * destruct (is_saved_surface_true _ _ Hsaved) as (f & img & Hf & Hc).
        rewrite (LoadBanner_loads_cache_file _ _ f img) by assumption.
        eexists _, [_; _]. split; [reflexivity |]. split; [reflexivity |].
        split; [cbn; lia |].
        intros f' img' Hf' Hc'. cbn.
        rewrite !lookup_insert_eq. split; congruence.
      * destruct (LoadBanner_retry s sBannerPath Hne Hmode Hmem Hsaved)
          as (s' & new & Hrun & Hlog & _ & Hloads).
        exists s', new. split; [exact Hrun |]. split; [exact Hlog |].
        split.
        { destruct (_ && _); destruct Hloads as [-> _]; lia. }
        intros f img Hf Hc. exfalso.
        unfold is_saved_surface in Hsaved. rewrite Hf in Hsaved. cbn in Hsaved.
        rewrite Hc in Hsaved. discriminate.
Qed.

(** ** The demand refcount *)

(** C4.  With the refcount at its invariant (never negative): a nested
    [Demand] only counts, so the bulk load can only happen on the step from
    0 to 1; an [Undemand] that does not bring the count to 0 only counts,
    so the bulk release can only happen on the step to 0.  Hence after
    [Demand(); Demand(); Undemand()] every bitmap that the first [Demand]
    left resident is still resident and allocated, and so is everything
    that was resident before.  Starting from a count of 0 in loadOnDemand
    mode, the first [Demand] has loaded every indexed banner whose cache
    file can be read, and the matching last [Undemand] empties the cache
    and frees every bitmap. *)
Theorem demand_refcount_transitions (s : State) :
  0 ≤ g_iDemandRefcount s →
  (1 ≤ g_iDemandRefcount s →
   Demand s = Ok tt (set_g_iDemandRefcount (λ n, n + 1) s)) ∧
  (g_iDemandRefcount s ≠ 1 →
   Undemand s = Ok tt (set_g_iDemandRefcount (λ n, n - 1) s)) ∧
  ∃ s1 s2 s3,
    Demand s = Ok tt s1 ∧ Demand s1 = Ok tt s2 ∧ Undemand s2 = Ok tt s3 ∧
    g_iDemandRefcount s3 = g_iDemandRefcount s + 1 ∧
    g_BannerPathToImage s3 = g_BannerPathToImage s1 ∧ surfaces s3 = surfaces s1 ∧
    (∀ sBannerPath p, g_BannerPathToImage s !! sBannerPath = Some p →
                      g_BannerPathToImage s3 !! sBannerPath = Some p) ∧
    (g_iDemandRefcount s = 0 →
     m_BannerCache (PREFSMAN s) = BNCACHE_LOW_RES_LOAD_ON_DEMAND →
     (∀ sBannerPath, is_Some (BannerData s !! sBannerPath) →
        is_saved_surface (files s) (GetBannerCachePath sBannerPath) = true →
        is_Some (g_BannerPathToImage s3 !! sBannerPath)) ∧
     ∃ s4,
       Undemand s3 = Ok tt s4 ∧ g_iDemandRefcount s4 = 0 ∧
       g_BannerPathToImage s4 = ∅ ∧
       (∀ sBannerPath p, g_BannerPathToImage s3 !! sBannerPath = Some p →
                         cells (surfaces s4) !! p = None)).
Proof.
  intros Hinv.
  split; [apply Demand_nested |]. split; [apply Undemand_not_last |].
  destruct (Z_le_gt_dec 1 (g_iDemandRefcount s)) as [Hpos | Hzero].
  - (* every step only counts *)
    eexists _, _, _.
    split; [apply Demand_nested; exact Hpos |].
    split; [apply Demand_nested; cbn; lia |].
    split; [apply Undemand_not_last; cbn; lia |].
    cbn. repeat split; try lia; auto.
  - assert (H0 : g_iDemandRefcount s = 0) by lia.
    assert (Hfirst : ∃ s1,
      Demand s = Ok tt s1 ∧ g_iDemandRefcount s1 = 1 ∧
      PREFSMAN s1 = PREFSMAN s ∧
      (∀ q p, g_BannerPathToImage s !! q = Some p → g_BannerPathToImage s1 !! q = Some p) ∧
      (m_BannerCache (PREFSMAN s) = BNCACHE_LOW_RES_LOAD_ON_DEMAND →
       ∀ sBannerPath, is_Some (BannerData s !! sBannerPath) →
         is_saved_surface (files s) (GetBannerCachePath sBannerPath) = true →
         is_Some (g_BannerPathToImage s1 !! sBannerPath))).
    { rewrite Demand_first by lia.
      destruct (decide (_ ≠ _)) as [Hmode | Hmode].
      - eexists. split; [reflexivity |]. cbn. repeat split; auto; try lia.
        intros Hm. contradiction.
      - destruct (Demand_children_run (map_to_list (BannerData s)).*1
                    (set_g_iDemandRefcount (λ n, n + 1) s))
          as (s1 & Hrun & Hp & Hf & Hr & Hb & Hkeep & Hload).
        exists s1. split; [exact Hrun |]. cbn in *.
        repeat split; auto; try lia.
        intros _ sBannerPath [r Hr1] Hsaved. apply Hload; [| exact Hsaved].
        apply list_elem_of_fmap. exists (sBannerPath, r). split; [reflexivity |].
        now apply elem_of_map_to_list. }
    destruct Hfirst as (s1 & Hrun1 & Hcount1 & Hprefs1 & Hkeep1 & Hload1).
    exists s1, (set_g_iDemandRefcount (λ n, n + 1) s1),
      (set_g_iDemandRefcount (λ n, n - 1) (set_g_iDemandRefcount (λ n, n + 1) s1)).
    split; [exact Hrun1 |].
    split; [apply Demand_nested; lia |].
    split; [apply Undemand_not_last; cbn; lia |].
    split; [cbn; lia |]. split; [reflexivity |]. split; [reflexivity |].
    split; [intros sBannerPath p Hp; cbn; now apply Hkeep1 |].
    intros _ Hmode.
    split; [intros sBannerPath Hdata Hsaved; cbn; now apply Hload1 |].
    set (s3 := set_g_iDemandRefcount (λ n, n - 1) (set_g_iDemandRefcount (λ n, n + 1) s1)).
    assert (Hlast : g_iDemandRefcount s3 = 1) by (cbn; lia).
    rewrite (Undemand_last s3 Hlast).
    change (PREFSMAN s3) with (PREFSMAN s1). rewrite Hprefs1.
    destruct (decide (_ ≠ _)) as [Hmode' | _]; [congruence |].
    destruct (UnloadAllBanners_runs (set_g_iDemandRefcount (λ n, n - 1) s3))
      as (s4 & Hrun4 & _ & _ & Hr4 & _ & Hm4 & Hfreed4).
    exists s4. split; [exact Hrun4 |].
    split; [rewrite Hr4; cbn; lia |]. split; [exact Hm4 |]. exact Hfreed4.
Qed.

(** ** The guards of LoadCachedBanner *)

(** C8.  When no bitmap is resident for the path, [LoadCachedBanner]
    returns the identifier of the cache path and leaves the texture
    manager, the display, the bitmaps and the index as they were.  When a
    bitmap is resident but the index gives no width or no height, or gives
    zero, it does the same and returns the same identifier. *)
Theorem LoadCachedBanner_unloaded_or_zero_sized (s : State) sBannerPath :
  g_BannerPathToImage s !! sBannerPath = None ∨
  default 0 (GetValue sBannerPath Width s) = 0 ∨
  default 0 (GetValue sBannerPath Height s) = 0 →
  ∃ s' new,
    LoadCachedBanner sBannerPath s =
      Ok (if decide (sBannerPath = "")
          then new_RageTextureID (GetBannerCachePath sBannerPath)
          else SongBannerTexture (new_RageTextureID (GetBannerCachePath sBannerPath)))
         s' ∧
    log s' = new ++ log s ∧
    TEXTUREMAN s' = TEXTUREMAN s ∧ DISPLAY s' = DISPLAY s ∧
    surfaces s' = surfaces s ∧ g_BannerPathToImage s' = g_BannerPathToImage s ∧
    BannerData s' = BannerData s ∧ files s' = files s.
Proof.
  intros Hcase. unfold LoadCachedBanner.
  destruct (decide (sBannerPath = "")) as [Hempty | Hne].
  { exists s, []. repeat split; reflexivity. }
  unfold bind at 1. unfold emit at 1, modify at 1.
  unfold bind at 1. unfold gets at 1. cbn [g_BannerPathToImage add_event].
  destruct (g_BannerPathToImage s !! sBannerPath) as [img |] eqn:Hmem.
  2: { eexists _, [_; _]. repeat split; reflexivity. }
  destruct Hcase as [Hnone | Hzero]; [discriminate |].
  unfold bind at 1. unfold gets at 1.
  unfold bind at 1. unfold gets at 1.
  unfold bind at 1. unfold gets at 1.
  match goal with
  | |- context [add_event ?e s] =>
      change (GetValue sBannerPath Width (add_event e s)) with (GetValue sBannerPath Width s);
      change (GetValue sBannerPath Height (add_event e s)) with (GetValue sBannerPath Height s)
  end.
  replace ((default 0 (GetValue sBannerPath Width s) =? 0)
           || (default 0 (GetValue sBannerPath Height s) =? 0)) with true.
  2: { symmetry. apply orb_true_iff. rewrite !Z.eqb_eq. exact Hzero. }
  eexists _, [_; _]. repeat split; reflexivity.
Qed.

(** ** What a regeneration leaves in memory *)

Lemma transformed_dimensions (bPaletted : bool) (img : RageSurface) :
  surface_w (transformed bPaletted img) = resize_target (surface_w (oriented img)) ∧
  surface_h (transformed bPaletted img) = resize_target (surface_h (oriented img)).
Proof.
  unfold transformed, encoded.
  destruct bPaletted; [destruct (negb _) |]; split; reflexivity.
Qed.

(** C9.  When [CacheBannerInternal] runs to completion (the source
    decodes), the bitmap that was resident for the path, if any, is freed
    and is no longer the path's entry.  The new bitmap is entered for the
    path if and only if the mode is preloadAll: in that mode the entry is a
    fresh surface holding the transformed bitmap, and in loadOnDemand mode
    the path ends the call without an entry.  Other paths keep their
    entries.  The hypothesis on the resident address is what [heap_wf]
    says for this path; every operation of the cache preserves
    [heap_wf]. *)
Theorem CacheBannerInternal_memory (s : State) sBannerPath f img :
  files s !! sBannerPath = Some f → file_contents f = ImageFile img →
  (∀ old, g_BannerPathToImage s !! sBannerPath = Some old →
          (old < next (surfaces s))%positive) →
  ∃ s' p,
    CacheBannerInternal sBannerPath s = Ok tt s' ∧
    (∀ old, g_BannerPathToImage s !! sBannerPath = Some old →
            cells (surfaces s') !! old = None ∧
            g_BannerPathToImage s' !! sBannerPath ≠ Some old) ∧
    (is_Some (g_BannerPathToImage s' !! sBannerPath) ↔
     m_BannerCache (PREFSMAN s) = BNCACHE_LOW_RES_PRELOAD) ∧
    (m_BannerCache (PREFSMAN s) = BNCACHE_LOW_RES_PRELOAD →
     g_BannerPathToImage s' !! sBannerPath = Some p ∧
     (next (surfaces s) ≤ p)%positive ∧
     cells (surfaces s') !! p =
       Some (transformed (m_bPalettedBannerCache (PREFSMAN s)) img)) ∧
    (m_BannerCache (PREFSMAN s) = BNCACHE_LOW_RES_LOAD_ON_DEMAND →
     g_BannerPathToImage s' !! sBannerPath = None) ∧
    (∀ other, other ≠ sBannerPath →
              g_BannerPathToImage s' !! other = g_BannerPathToImage s !! other).
Proof.
  intros Hf Hc Hwf.
  destruct (CacheBannerInternal_decoded s sBannerPath f img Hf Hc)
    as (s' & p & Hrun & _ & _ & _ & _ & _ & _ & _ & _ & Hmem & Hfresh & _
        & Hfreed & Hkept & _).
  exists s', p. split; [exact Hrun |].
  assert (Hnew : ∀ old, g_BannerPathToImage s !! sBannerPath = Some old → old ≠ p).
  { intros old Hold. specialize (Hwf old Hold). lia. }
  destruct (decide (m_BannerCache (PREFSMAN s) = BNCACHE_LOW_RES_PRELOAD)) as [Hpre | Hpre];
    rewrite Hmem.
  - repeat split.
    + now apply Hfreed.
    + rewrite lookup_insert_eq. intros [= ->]. now apply (Hnew old).
    + intros _. exact Hpre.
    + intros _. rewrite lookup_insert_eq. eauto.
    + apply lookup_insert_eq.
    + exact Hfresh.
    + apply Hkept; [exact Hpre |]. intros Hold. now apply (Hnew p).
    + intros Hdemand. congruence.
    + intros other Hother. rewrite lookup_insert_ne, lookup_delete_ne by congruence.
      reflexivity.
  - repeat split.
    + now apply Hfreed.
    + rewrite lookup_delete_eq. discriminate.
    + rewrite lookup_delete_eq. intros [? ?]. discriminate.
    + intros Hp. contradiction.
    + contradiction.
    + contradiction.
    + contradiction.
    + intros _. apply lookup_delete_eq.
    + intros other Hother. rewrite lookup_delete_ne by congruence. reflexivity.
Qed.

(** ** Power-of-two dimensions *)

(** Whenever [BannerTexture::Create] gets as far as [CreateTexture], the
    surface it passes on has power-of-two dimensions; they become the
    texture's. *)
Lemma BannerTexture_Create_power_of_two (t t' : BannerTexture) (s s' : State) :
  BannerTexture_Create t s = Ok t' s' →
  is_power_of_two (m_iTextureWidth t') ∧ is_power_of_two (m_iTextureHeight t') ∧
  m_iImageWidth t' = m_iTextureWidth t' ∧ m_iImageHeight t' = m_iTextureHeight t'.
Proof.
  unfold BannerTexture_Create. intros H.
  apply bind_Ok in H as (images & s1 & _ & H).
  destruct (images !! img_slot t) as [img |]; [| discriminate].
  apply bind_Ok in H as (surf0 & s2 & _ & H).
  apply bind_Ok in H as (d & s3 & _ & H).
  apply bind_Ok in H as (u & s4 & _ & H).
  apply bind_Ok in H as (surf & s5 & _ & H).
  apply bind_Ok in H as (u1 & s6 & Hw & H).
  apply bind_Ok in H as (u2 & s7 & Hh & H).
  apply bind_Ok in H as (u3 & s8 & _ & H).
  apply bind_Ok in H as (u4 & s9 & _ & H).
  apply ASSERT_Ok in Hw as [Hw _]. apply ASSERT_Ok in Hh as [Hh _].
  unfold ret in H. injection H as <- _. cbn.
  rewrite <- !power_of_two_check_spec. auto.
Qed.

(** C2.  The target that the halve, round and clamp steps compute is an
    exact power of two for every source dimension.  So when
    [CacheBannerInternal] runs to completion, the width and the height of
    the bitmap it hands to [SaveSurface] are exact powers of two; that
    bitmap is what the cache file holds when the write goes through, and
    what is resident for the path in preloadAll mode.  It passes the two
    assertions of [BannerTexture::Create], and no surface gets past them to
    [CreateTexture] with another kind of dimension. *)
Theorem CacheBannerInternal_power_of_two (s : State) sBannerPath f img :
  files s !! sBannerPath = Some f → file_contents f = ImageFile img →
  (∀ iSource, is_power_of_two (resize_target iSource)) ∧
  (∀ t t' s0 s0', BannerTexture_Create t s0 = Ok t' s0' →
     is_power_of_two (m_iTextureWidth t') ∧ is_power_of_two (m_iTextureHeight t')) ∧
  ∃ s' cached,
    CacheBannerInternal sBannerPath s = Ok tt s' ∧
    is_power_of_two (surface_w cached) ∧ is_power_of_two (surface_h cached) ∧
    power_of_two_check (surface_w cached) = true ∧
    power_of_two_check (surface_h cached) = true ∧
    (GetBannerCachePath sBannerPath ∉ read_only s →
     GetBannerCachePath sBannerPath ≠ BANNER_CACHE_INDEX →
     file_contents <$> files s' !! GetBannerCachePath sBannerPath
       = Some (SavedSurface cached)) ∧
    (m_BannerCache (PREFSMAN s) = BNCACHE_LOW_RES_PRELOAD →
     (∀ old, g_BannerPathToImage s !! sBannerPath = Some old →
             (old < next (surfaces s))%positive) →
     ∃ p, g_BannerPathToImage s' !! sBannerPath = Some p ∧
          cells (surfaces s') !! p = Some cached).
Proof.
  intros Hf Hc. split; [apply resize_target_is_power_of_two |].
  split.
  { intros t t' s0 s0' Hcreate.
    destruct (BannerTexture_Create_power_of_two t t' s0 s0' Hcreate) as (Hw & Hh & _).
    auto. }
  destruct (CacheBannerInternal_decoded s sBannerPath f img Hf Hc)
    as (s' & p & Hrun & _ & _ & _ & _ & _ & _ & Hfiles & _ & Hmem & Hfresh & _
        & _ & Hkept & _).
  exists s', (transformed (m_bPalettedBannerCache (PREFSMAN s)) img).
  split; [exact Hrun |].
  destruct (transformed_dimensions (m_bPalettedBannerCache (PREFSMAN s)) img) as [-> ->].
  split; [apply resize_target_is_power_of_two |].
  split; [apply resize_target_is_power_of_two |].
  split; [apply power_of_two_check_spec, resize_target_is_power_of_two |].
  split; [apply power_of_two_check_spec, resize_target_is_power_of_two |].
  split.
  - intros Hrw Hidx. rewrite Hfiles. unfold written.
    destruct (decide (BANNER_CACHE_INDEX ∈ read_only s)).
    + rewrite decide_False by exact Hrw. rewrite lookup_insert_eq. reflexivity.
    + rewrite lookup_insert_ne by congruence.
      rewrite decide_False by exact Hrw. rewrite lookup_insert_eq. reflexivity.
  - intros Hpre Hwf. exists p. rewrite Hmem, decide_True by exact Hpre.
    split; [apply lookup_insert_eq |].
    apply Hkept; [exact Hpre |].
    intros Hold. specialize (Hwf p Hold). lia.
Qed.

(** ** The floor of the resize *)

(** C7.  For every source image that decodes, each dimension of the bitmap
    that [CacheBannerInternal] zooms to, saves to the cache file and, in
    preloadAll mode, keeps resident is the rounded half of the source
    dimension clamped from below by [min(32, power_of_two(source))]: it is
    never below that floor, and the floor never exceeds the source's own
    rounded-up power of two.  The source dimension is the one the resize
    starts from, [iSourceWidth] and [iSourceHeight] of the code: the decoded
    size, or 256x64 once a diagonal banner has been un-rotated.  For a
    source of 40x40 both dimensions of the cached bitmap are at least
    32. *)
Theorem resize_target_floor (s : State) sBannerPath f img :
  files s !! sBannerPath = Some f → file_contents f = ImageFile img →
  let bRotated := IsDiagonalBanner (surface_w img) (surface_h img) in
  let iSourceWidth := if bRotated then 256 else surface_w img in
  let iSourceHeight := if bRotated then 64 else surface_h img in
  ∃ s' cached,
    CacheBannerInternal sBannerPath s = Ok tt s' ∧
    (GetBannerCachePath sBannerPath ∉ read_only s →
     GetBannerCachePath sBannerPath ≠ BANNER_CACHE_INDEX →
     file_contents <$> files s' !! GetBannerCachePath sBannerPath
       = Some (SavedSurface cached)) ∧
    (m_BannerCache (PREFSMAN s) = BNCACHE_LOW_RES_PRELOAD → heap_wf s →
     ∃ p, g_BannerPathToImage s' !! sBannerPath = Some p ∧
          cells (surfaces s') !! p = Some cached) ∧
    surface_w cached =
      Z.max (round_to_power_of_two (iSourceWidth ÷ 2))
            (Z.min 32 (power_of_two iSourceWidth)) ∧
    surface_h cached =
      Z.max (round_to_power_of_two (iSourceHeight ÷ 2))
            (Z.min 32 (power_of_two iSourceHeight)) ∧
    Z.min 32 (power_of_two iSourceWidth) ≤ surface_w cached ∧
    Z.min 32 (power_of_two iSourceHeight) ≤ surface_h cached ∧
    Z.min 32 (power_of_two iSourceWidth) ≤ power_of_two iSourceWidth ∧
    Z.min 32 (power_of_two iSourceHeight) ≤ power_of_two iSourceHeight ∧
    (surface_w img = 40 → surface_h img = 40 →
     32 ≤ surface_w cached ∧ 32 ≤ surface_h cached).
Proof.
  intros Hf Hc bRotated iSourceWidth iSourceHeight.
  destruct (CacheBannerInternal_decoded s sBannerPath f img Hf Hc)
    as (s' & p & Hrun & _ & _ & _ & _ & _ & _ & Hfiles & _ & Hmem & Hfresh & _
        & _ & Hkept & _).
  exists s', (transformed (m_bPalettedBannerCache (PREFSMAN s)) img).
  split; [exact Hrun |].
  split.
  { intros Hrw Hidx. rewrite Hfiles. unfold written.
    destruct (decide (BANNER_CACHE_INDEX ∈ read_only s)).
    - rewrite decide_False by exact Hrw. rewrite lookup_insert_eq. reflexivity.
    - rewrite lookup_insert_ne by congruence.
      rewrite decide_False by exact Hrw. rewrite lookup_insert_eq. reflexivity. }
  split.
  { intros Hpre Hwf. exists p. rewrite Hmem, decide_True by exact Hpre.
    split; [apply lookup_insert_eq |].
    apply Hkept; [exact Hpre |].
    intros Hold. specialize (Hwf _ _ Hold). lia. }
  destruct (transformed_dimensions (m_bPalettedBannerCache (PREFSMAN s)) img) as [-> ->].
  assert (How : surface_w (oriented img) = iSourceWidth).
  { unfold oriented. subst iSourceWidth bRotated.
    destruct (IsDiagonalBanner _ _); reflexivity. }
  assert (Hoh : surface_h (oriented img) = iSourceHeight).
  { unfold oriented. subst iSourceHeight bRotated.
    destruct (IsDiagonalBanner _ _); reflexivity. }
  rewrite How, Hoh.
  destruct (resize_target_clamped iSourceWidth) as (Hw1 & Hw2 & Hw3 & _).
  destruct (resize_target_clamped iSourceHeight) as (Hh1 & Hh2 & Hh3 & _).
  split; [exact Hw1 |]. split; [exact Hh1 |].
  split; [exact Hw2 |]. split; [exact Hh2 |].
  split; [exact Hw3 |]. split; [exact Hh3 |].
  intros Hw40 Hh40.
  pose proof (power_of_two_ge iSourceWidth) as Hpw.
  pose proof (power_of_two_ge iSourceHeight) as Hph.
  assert (32 ≤ iSourceWidth ∧ 32 ≤ iSourceHeight) as [Hbw Hbh].
  { subst iSourceWidth iSourceHeight. destruct bRotated; lia. }
  lia.
Qed.

(** ** Calling CacheBanner again *)

Lemma written_lookup (sPath sOther : string) (c : FileContents) (ro : gset string)
    (fs : gmap string File) :
  sPath ≠ sOther → written sPath c ro fs !! sOther = fs !! sOther.
Proof.
  intros Hne. unfold written. destruct (decide (sPath ∈ ro)); [reflexivity |].
  now apply lookup_insert_ne.
Qed.

Lemma written_exists (sPath sOther : string) (c : FileContents) (ro : gset string)
    (fs : gmap string File) :
  is_Some (fs !! sOther) → is_Some (written sPath c ro fs !! sOther).
Proof.
  intros Hsome. unfold written. destruct (decide (sPath ∈ ro)); [exact Hsome |].
  rewrite lookup_insert. case_decide; eauto.
Qed.

Lemma written_writable (sPath : string) (c : FileContents) (ro : gset string)
    (fs : gmap string File) :
  sPath ∉ ro → is_Some (written sPath c ro fs !! sPath).
Proof.
  intros Hrw. unfold written. rewrite decide_False by exact Hrw.
  rewrite lookup_insert_eq. eauto.
Qed.

Lemma settled_frame (s s' : State) sBannerPath :
  PREFSMAN s' = PREFSMAN s → files s' = files s → BannerData s' = BannerData s →
  (∀ p, g_BannerPathToImage s !! sBannerPath = Some p →
        is_Some (g_BannerPathToImage s' !! sBannerPath)) →
  settled s sBannerPath → settled s' sBannerPath.
Proof.
  intros Hp Hf Hb Hm (Hsrc & Hup & Hres).
  unfold settled, cache_up_to_date, DoesFileExist, GetValue, GetHashForFile in *.
  rewrite Hp, Hf, Hb. split; [exact Hsrc |]. split; [exact Hup |].
  intros Hpre. destruct (Hres Hpre) as [p Hlook]. eauto.
Qed.

(** Once a banner is settled, [CacheBanner] only sets its checkpoint. *)
Lemma CacheBanner_settled (s : State) sBannerPath :
  caching_enabled s → settled s sBannerPath →
  CacheBanner sBannerPath s = Ok tt (add_event (banner_checkpoint sBannerPath) s).
Proof.
  intros Hmode (Hsrc & Hup & Hres).
  rewrite (CacheBanner_checks s sBannerPath Hmode Hsrc), Hup.
  destruct (decide (_ = _)) as [Hpre | Hpre]; [| reflexivity].
  apply LoadBanner_resident. exact (Hres Hpre).
Qed.

(** A regeneration that runs to completion settles the banner, provided the
    cache path and the index path are not the banner's own path and the
    cache file can be written or is there already. *)
Lemma CacheBannerInternal_settles (s s' : State) sBannerPath f img :
  files s !! sBannerPath = Some f → file_contents f = ImageFile img →
  GetBannerCachePath sBannerPath ≠ sBannerPath → BANNER_CACHE_INDEX ≠ sBannerPath →
  GetBannerCachePath sBannerPath ∉ read_only s ∨
    is_Some (files s !! GetBannerCachePath sBannerPath) →
  CacheBannerInternal sBannerPath s = Ok tt s' →
  settled s' sBannerPath.
Proof.
  intros Hf Hc Hcp Hidx Hcache Hrun.
  destruct (CacheBannerInternal_decoded s sBannerPath f img Hf Hc)
    as (s1 & p & Hrun1 & Hprefs & _ & _ & _ & _ & _ & Hfiles & Hdata & Hmem & _).
  rewrite Hrun1 in Hrun. injection Hrun as <-.
  assert (Hsource : files s1 !! sBannerPath = Some f).
  { rewrite Hfiles, !written_lookup by assumption. exact Hf. }
  unfold settled, cache_up_to_date, DoesFileExist, GetValue, GetHashForFile.
  rewrite Hsource. split; [apply bool_decide_eq_true_2; eauto |].
  split.
  - apply andb_true_iff. split.
    + apply bool_decide_eq_true_2. rewrite Hfiles. apply written_exists.
      destruct Hcache as [Hrw | Hthere];
        [now apply written_writable | now apply written_exists].
    + apply orb_true_iff. right. apply bool_decide_eq_true_2.
      rewrite Hdata, lookup_insert_eq. cbn.
      rewrite written_lookup by assumption. rewrite Hf. reflexivity.
  - intros Hpre. rewrite Hprefs in Hpre. rewrite Hmem, decide_True by exact Hpre.
    rewrite lookup_insert_eq. eauto.
Qed.

Lemma CacheBanner_settles (s s' : State) sBannerPath f img :
  caching_enabled s → sBannerPath ≠ "" →
  files s !! sBannerPath = Some f → file_contents f = ImageFile img →
  GetBannerCachePath sBannerPath ≠ sBannerPath → BANNER_CACHE_INDEX ≠ sBannerPath →
  GetBannerCachePath sBannerPath ∉ read_only s →
  CacheBanner sBannerPath s = Ok tt s' →
  settled s' sBannerPath.
Proof.
  intros Hmode Hne Hf Hc Hcp Hidx Hrw Hrun.
  assert (Hsrc : DoesFileExist sBannerPath s = true).
  { unfold DoesFileExist. apply bool_decide_eq_true_2. rewrite Hf. eauto. }
  rewrite (CacheBanner_checks s sBannerPath Hmode Hsrc) in Hrun.
  set (s0 := add_event (banner_checkpoint sBannerPath) s) in *.
  assert (Hmode0 : caching_enabled s0) by exact Hmode.
  destruct (cache_up_to_date s sBannerPath) eqn:Hup.
  2: { apply (CacheBannerInternal_settles s0 s' sBannerPath f img); auto. }
  assert (Hsettled0 : (m_BannerCache (PREFSMAN s) = BNCACHE_LOW_RES_PRELOAD →
                       is_Some (g_BannerPathToImage s !! sBannerPath)) →
                      settled s0 sBannerPath).
  { intros Hres. split; [exact Hsrc |]. split; [exact Hup | exact Hres]. }
  destruct (decide (m_BannerCache (PREFSMAN s) = BNCACHE_LOW_RES_PRELOAD)) as [Hpre | Hpre].
  2: { injection Hrun as <-. apply Hsettled0. intros Hp. contradiction. }
  destruct (g_BannerPathToImage s !! sBannerPath) as [p |] eqn:Hmem.
  { rewrite LoadBanner_resident in Hrun by (cbn; rewrite Hmem; eauto).
    injection Hrun as <-. apply Hsettled0. eauto. }
  destruct (is_saved_surface (files s) (GetBannerCachePath sBannerPath)) eqn:Hsaved.
  - destruct (is_saved_surface_true _ _ Hsaved) as (f' & img' & Hf' & Hc').
    rewrite (LoadBanner_loads_cache_file s0 _ f' img') in Hrun by assumption.
    injection Hrun as <-.
    split; [exact Hsrc |]. split; [exact Hup |].
    intros _. cbn. rewrite lookup_insert_eq. eauto.
  - rewrite LoadBanner_enabled, LoadBanner_loop_first_failure in Hrun by assumption.
    apply bind_Ok in Hrun as ([] & s2 & Hcache & Hrun).
    assert (Hsettled2 : settled s2 sBannerPath).
    { apply (CacheBannerInternal_settles _ s2 sBannerPath f img) in Hcache; auto. }
    rewrite LoadBanner_loop_resident in Hrun.
    + injection Hrun as <-. exact Hsettled2.
    + destruct Hsettled2 as (_ & _ & Hres). apply Hres.
      destruct (CacheBannerInternal_returns
                  (add_event (trying_to_cache sBannerPath (GetBannerCachePath sBannerPath))
                     (add_event (CALL_LoadSurface (GetBannerCachePath sBannerPath))
                        (add_event (load_checkpoint (GetBannerCachePath sBannerPath)) s0)))
                  sBannerPath) as (s3 & new & Hrun3 & _).
      destruct (CacheBannerInternal_decoded
                  (add_event (trying_to_cache sBannerPath (GetBannerCachePath sBannerPath))
                     (add_event (CALL_LoadSurface (GetBannerCachePath sBannerPath))
                        (add_event (load_checkpoint (GetBannerCachePath sBannerPath)) s0)))
                  sBannerPath f img Hf Hc) as (s4 & p & Hrun4 & Hprefs & _).
      rewrite Hrun4 in Hcache. injection Hcache as <-. rewrite Hprefs. exact Hpre.
Qed.

(** X3.  Calling [CacheBanner] twice in a row with an unchanged source does
    the work once: after the first call, whatever it had to do, the second
    call only sets its checkpoint; it reads no source, writes no file and
    leaves index, bitmaps and files as they are. *)
Theorem CacheBanner_twice (s : State) sBannerPath f img :
  caching_enabled s → sBannerPath ≠ "" →
  files s !! sBannerPath = Some f → file_contents f = ImageFile img →
  GetBannerCachePath sBannerPath ≠ sBannerPath → BANNER_CACHE_INDEX ≠ sBannerPath →
  GetBannerCachePath sBannerPath ∉ read_only s →
  ∃ s1,
    CacheBanner sBannerPath s = Ok tt s1 ∧
    CacheBanner sBannerPath s1 = Ok tt (add_event (banner_checkpoint sBannerPath) s1).
Proof.
  intros Hmode Hne Hf Hc Hcp Hidx Hrw.
  destruct (CacheBanner_returns s sBannerPath) as (s1 & Hrun).
  exists s1. split; [exact Hrun |].
  apply CacheBanner_settled.
  - destruct (CacheBanner_settings s s1 sBannerPath Hrun) as (Hprefs & _).
    unfold caching_enabled. rewrite Hprefs. exact Hmode.
  - exact (CacheBanner_settles s s1 sBannerPath f img Hmode Hne Hf Hc Hcp Hidx Hrw Hrun).
Qed.

(** ** Which bitmaps stay in memory *)

Lemma LoadBanner_preload_resident (s s' : State) sBannerPath :
  m_BannerCache (PREFSMAN s) = BNCACHE_LOW_RES_PRELOAD → sBannerPath ≠ "" →
  is_image_file (files s) sBannerPath = true →
  LoadBanner sBannerPath s = Ok tt s' →
  is_Some (g_BannerPathToImage s' !! sBannerPath).
Proof.
  intros Hpre Hne Himg Hrun.
  assert (Hmode : caching_enabled s) by (left; exact Hpre).
  destruct (g_BannerPathToImage s !! sBannerPath) as [p |] eqn:Hmem.
  { rewrite LoadBanner_resident in Hrun by (rewrite Hmem; eauto).
    injection Hrun as <-. rewrite Hmem. eauto. }
  destruct (is_saved_surface (files s) (GetBannerCachePath sBannerPath)) eqn:Hsaved.
  - destruct (is_saved_surface_true _ _ Hsaved) as (f' & img' & Hf' & Hc').
    rewrite (LoadBanner_loads_cache_file s _ f' img') in Hrun by assumption.
    injection Hrun as <-. cbn. rewrite lookup_insert_eq. eauto.
  - destruct (LoadBanner_retry s sBannerPath Hne Hmode Hmem Hsaved)
      as (s1 & new & Hrun1 & _ & _ & Hcase).
    rewrite Hrun1 in Hrun. injection Hrun as <-.
    rewrite (bool_decide_eq_true_2 _ Hpre), Himg in Hcase. cbn in Hcase. tauto.
Qed.

(** X4.  In preloadAll mode a banner whose source exists and decodes is in
    memory after [CacheBanner], whichever path the call took (regeneration,
    a load of the cache file, or nothing to do); under the ownership
    invariant its address holds a live surface.  The empty path is the one
    exception the code makes, so it is excluded. *)
Theorem CacheBanner_preload_leaves_resident (s : State) sBannerPath :
  m_BannerCache (PREFSMAN s) = BNCACHE_LOW_RES_PRELOAD → sBannerPath ≠ "" →
  is_image_file (files s) sBannerPath = true →
  ∃ s',
    CacheBanner sBannerPath s = Ok tt s' ∧
    is_Some (g_BannerPathToImage s' !! sBannerPath) ∧
    (heap_safe s →
     ∃ p img, g_BannerPathToImage s' !! sBannerPath = Some p ∧
              cells (surfaces s') !! p = Some img).
Proof.
  intros Hpre Hne Himg.
  destruct (CacheBanner_returns s sBannerPath) as (s' & Hrun).
  exists s'. split; [exact Hrun |].
  assert (Hres : is_Some (g_BannerPathToImage s' !! sBannerPath)).
  { assert (Hmode : caching_enabled s) by (left; exact Hpre).
    destruct (is_image_file_true _ _ Himg) as (f & img & Hf & Hc).
    assert (Hsrc : DoesFileExist sBannerPath s = true).
    { unfold DoesFileExist. apply bool_decide_eq_true_2. rewrite Hf. eauto. }
    pose proof Hrun as Hrun0.
    rewrite (CacheBanner_checks s sBannerPath Hmode Hsrc) in Hrun0.
    destruct (cache_up_to_date s sBannerPath).
    - rewrite decide_True in Hrun0 by exact Hpre.
      exact (LoadBanner_preload_resident
               (add_event (banner_checkpoint sBannerPath) s) _ _ Hpre Hne Himg Hrun0).
    - destruct (CacheBannerInternal_decoded
                  (add_event (banner_checkpoint sBannerPath) s) sBannerPath f img Hf Hc)
        as (s1 & p & Hrun1 & _ & _ & _ & _ & _ & _ & _ & _ & Hmem & _).
      rewrite Hrun1 in Hrun0. injection Hrun0 as <-.
      rewrite Hmem. cbn [PREFSMAN add_event]. rewrite decide_True by exact Hpre.
      rewrite lookup_insert_eq. eauto. }
  split; [exact Hres |].
  intros Hsafe. destruct Hres as [p Hp].
  destruct (CacheBanner_heap_safe s s' sBannerPath Hsafe Hrun) as (D & _).
  destruct (D _ _ Hp) as [img Himg']. eauto.
Qed.

(** X5.  Outside preloadAll mode [CacheBanner] keeps nothing in memory: no
    path becomes resident through it, the path it was called for is not
    resident after a regeneration, and under the ownership invariant every
    surface allocated afterwards was allocated before. *)
Theorem CacheBanner_on_demand_keeps_nothing (s : State) sBannerPath :
  m_BannerCache (PREFSMAN s) ≠ BNCACHE_LOW_RES_PRELOAD →
  ∃ s',
    CacheBanner sBannerPath s = Ok tt s' ∧
    (∀ q p, g_BannerPathToImage s' !! q = Some p → g_BannerPathToImage s !! q = Some p) ∧
    (caching_enabled s → cache_up_to_date s sBannerPath = false →
     is_image_file (files s) sBannerPath = true →
     g_BannerPathToImage s' !! sBannerPath = None) ∧
    (heap_safe s →
     ∀ q, is_Some (cells (surfaces s') !! q) → is_Some (cells (surfaces s) !! q)).
Proof.
  intros Hpre.
  destruct (CacheBanner_returns s sBannerPath) as (s' & Hrun).
  exists s'. split; [exact Hrun |].
  assert (Hsub : ∀ q p, g_BannerPathToImage s' !! q = Some p →
                        g_BannerPathToImage s !! q = Some p).
  { pose proof Hrun as Hrun0.
    destruct (decide (caching_enabled s)) as [Hmode | Hmode].
    2: { rewrite CacheBanner_disabled in Hrun0 by exact Hmode.
         injection Hrun0 as <-. auto. }
    destruct (DoesFileExist sBannerPath s) eqn:Hsrc.
    2: { rewrite CacheBanner_no_source in Hrun0 by assumption.
         injection Hrun0 as <-. auto. }
    rewrite (CacheBanner_checks s sBannerPath Hmode Hsrc) in Hrun0.
    destruct (cache_up_to_date s sBannerPath).
    { rewrite decide_False in Hrun0 by exact Hpre. injection Hrun0 as <-. auto. }
    destruct (is_image_file (files s) sBannerPath) eqn:Himg.
    - destruct (is_image_file_true _ _ Himg) as (f & img & Hf & Hc).
      destruct (CacheBannerInternal_decoded
                  (add_event (banner_checkpoint sBannerPath) s) sBannerPath f img Hf Hc)
        as (s1 & p1 & Hrun1 & _ & _ & _ & _ & _ & _ & _ & _ & Hmem & _).
      rewrite Hrun1 in Hrun0. injection Hrun0 as <-.
      intros q p. rewrite Hmem. cbn [PREFSMAN add_event g_BannerPathToImage].
      rewrite decide_False by exact Hpre.
      rewrite lookup_delete. destruct (decide (sBannerPath = q)); [discriminate | auto].
    - rewrite CacheBannerInternal_undecodable in Hrun0 by exact Himg.
      injection Hrun0 as <-. auto. }
  split; [exact Hsub |]. split.
  - intros Hmode Hstale Himg.
    assert (Hsrc : DoesFileExist sBannerPath s = true).
    { destruct (is_image_file_true _ _ Himg) as (f & img & Hf & Hc).
      unfold DoesFileExist. apply bool_decide_eq_true_2. rewrite Hf. eauto. }
    pose proof Hrun as Hrun0.
    rewrite (CacheBanner_checks s sBannerPath Hmode Hsrc), Hstale in Hrun0.
    destruct (is_image_file_true _ _ Himg) as (f & img & Hf & Hc).
    destruct (CacheBannerInternal_decoded
                (add_event (banner_checkpoint sBannerPath) s) sBannerPath f img Hf Hc)
      as (s1 & p1 & Hrun1 & _ & _ & _ & _ & _ & _ & _ & _ & Hmem & _).
    rewrite Hrun1 in Hrun0. injection Hrun0 as <-.
    rewrite Hmem. cbn [PREFSMAN add_event g_BannerPathToImage].
    rewrite decide_False by exact Hpre. apply lookup_delete_eq.
  - intros Hsafe q Hq.
    destruct (CacheBanner_heap_safe s s' sBannerPath Hsafe Hrun) as (_ & L & _).
    destruct (L q Hq) as [x Hx]. destruct Hsafe as (D & _).
    exact (D x q (Hsub _ _ Hx)).
Qed.

(** ** What LoadBanner and Demand leave alone *)

(** X6.  [LoadBanner] does not examine the original file when the bitmap is
    resident or the cache file loads: it reads no source, writes nothing,
    leaves the index as it is, and does exactly the same when the original
    file has been replaced by another one. *)
Theorem LoadBanner_does_not_examine_source (s : State) sBannerPath (changed : File) :
  GetBannerCachePath sBannerPath ≠ sBannerPath →
  is_Some (g_BannerPathToImage s !! sBannerPath) ∨
    is_saved_surface (files s) (GetBannerCachePath sBannerPath) = true →
  ∃ s' new,
    LoadBanner sBannerPath s = Ok tt s' ∧
    LoadBanner sBannerPath (set_files <[sBannerPath := changed]> s)
      = Ok tt (set_files <[sBannerPath := changed]> s') ∧
    files s' = files s ∧ BannerData s' = BannerData s ∧
    log s' = new ++ log s ∧
    count_events is_LoadFile new = 0%nat ∧ count_events is_write new = 0%nat.
Proof.
  intros Hcp Hcase.
  destruct (decide (sBannerPath = "")) as [-> | Hne].
  { exists s, []. repeat split; reflexivity. }
  destruct (decide (caching_enabled s)) as [Hmode | Hmode].
  2: { exists s, []. rewrite !LoadBanner_disabled by exact Hmode.
       repeat split; reflexivity. }
  destruct (g_BannerPathToImage s !! sBannerPath) as [p |] eqn:Hmem.
  { exists s, []. rewrite !LoadBanner_resident by (cbn; rewrite Hmem; eauto).
    repeat split; reflexivity. }
  destruct Hcase as [[p Hp] | Hsaved]; [discriminate |].
  destruct (is_saved_surface_true _ _ Hsaved) as (f & img & Hf & Hc).
  rewrite (LoadBanner_loads_cache_file s _ f img) by assumption.
  rewrite (LoadBanner_loads_cache_file _ _ f img); try assumption.
  - eexists _, [_; _]. repeat split; reflexivity.
  - cbn. rewrite lookup_insert_ne by congruence. exact Hf.
Qed.

Lemma Demand_children_quiet (l : list string) (s : State) :
  ∃ s' new,
    foreach l Demand_child s = Ok tt s' ∧
    log s' = new ++ log s ∧
    count_events is_LoadFile new = 0%nat ∧ count_events is_write new = 0%nat ∧
    files s' = files s ∧ BannerData s' = BannerData s ∧
    ∀ q, is_Some (g_BannerPathToImage s' !! q) →
         is_Some (g_BannerPathToImage s !! q) ∨
         (q ∈ l ∧ is_saved_surface (files s) (GetBannerCachePath q) = true).
Proof.
  revert s. induction l as [| x l IH]; intros s.
  - exists s, []. repeat split; auto.
  - cbn [foreach]. unfold bind at 1.
    assert (Hchild : ∃ s1 new1,
      Demand_child x s = Ok tt s1 ∧ log s1 = new1 ++ log s ∧
      count_events is_LoadFile new1 = 0%nat ∧ count_events is_write new1 = 0%nat ∧
      files s1 = files s ∧ BannerData s1 = BannerData s ∧
      ∀ q, is_Some (g_BannerPathToImage s1 !! q) →
           is_Some (g_BannerPathToImage s !! q) ∨
           (q = x ∧ is_saved_surface (files s) (GetBannerCachePath q) = true)).
    { unfold Demand_child. unfold bind at 1. unfold gets at 1.
      destruct (decide (is_Some (g_BannerPathToImage s !! x))) as [Hres | Hres].
      { exists s, []. repeat split; auto. }
      unfold bind at 1.
      destruct (is_saved_surface (files s) (GetBannerCachePath x)) eqn:Hsaved.
      - destruct (is_saved_surface_true _ _ Hsaved) as (f & img & Hf & Hc).
        rewrite (LoadSurface_succeeds _ _ f img) by assumption.
        eexists _, [_]. split; [reflexivity |]. cbn. repeat split; auto.
        intros q. rewrite lookup_insert. case_decide; [subst; auto | auto].
      - rewrite LoadSurface_fails by exact Hsaved.
        eexists _, [_]. split; [reflexivity |]. cbn. repeat split; auto. }
    destruct Hchild as (s1 & new1 & Hrun1 & Hlog1 & Hr1 & Hw1 & Hf1 & Hb1 & Hm1).
    rewrite Hrun1.
    destruct (IH s1) as (s' & new & Hrun & Hlog & Hr & Hw & Hf & Hb & Hm).
    exists s', (new ++ new1). split; [exact Hrun |].
    split; [rewrite Hlog, Hlog1; apply app_assoc |].
    rewrite !count_events_app, Hr, Hw, Hr1, Hw1.
    split; [reflexivity |]. split; [reflexivity |].
    split; [congruence |]. split; [congruence |].
    intros q Hq. destruct (Hm q Hq) as [Hq1 | [Hin Hsaved]].
    + destruct (Hm1 q Hq1) as [Hq0 | [-> Hsaved]]; [auto |].
      right. split; [apply elem_of_cons; auto | exact Hsaved].
    + right. split; [apply elem_of_cons; auto |]. rewrite <- Hf1. exact Hsaved.
Qed.

(** X7.  [Demand] must be fast: it never creates a cache file.  No call of
    it reads a source image or writes to the disk, and a banner is resident
    afterwards only if it was before, or if it is in the index and its
    cache file could be read. *)
Theorem Demand_creates_no_cache_file (s : State) :
  ∃ s' new,
    Demand s = Ok tt s' ∧
    log s' = new ++ log s ∧
    count_events is_LoadFile new = 0%nat ∧ count_events is_write new = 0%nat ∧
    files s' = files s ∧ BannerData s' = BannerData s ∧
    ∀ q, is_Some (g_BannerPathToImage s' !! q) →
         is_Some (g_BannerPathToImage s !! q) ∨
         (is_Some (BannerData s !! q) ∧
          is_saved_surface (files s) (GetBannerCachePath q) = true).
Proof.
  destruct (Z_le_gt_dec 1 (g_iDemandRefcount s)) as [Hpos | Hzero].
  { rewrite Demand_nested by exact Hpos. eexists _, []. repeat split; auto. }
  rewrite Demand_first by lia.
  destruct (decide (_ ≠ _)).
  { eexists _, []. repeat split; auto. }
  destruct (Demand_children_quiet (map_to_list (BannerData s)).*1
              (set_g_iDemandRefcount (λ n, n + 1) s))
    as (s' & new & Hrun & Hlog & Hr & Hw & Hf & Hb & Hm).
  exists s', new. repeat split; try assumption.
  intros q Hq. destruct (Hm q Hq) as [Hq0 | [Hin Hsaved]]; [auto |].
  right. split; [| exact Hsaved].
  apply list_elem_of_fmap in Hin as ([q' r] & -> & Hin).
  apply elem_of_map_to_list in Hin. cbn. rewrite Hin. eauto.
Qed.

(** ** Ownership of the bitmaps *)

(** X8.  The ownership invariant of the bitmap cache is kept by every
    operation: if no entry of the map points at a freed surface, every
    allocated surface belongs to exactly one entry and no two entries share
    one, then the same holds after [CacheBannerInternal], [CacheBanner],
    [LoadBanner], [Demand], [Undemand], [UnloadAllBanners] and
    [LoadCachedBanner].  So after any of these calls no allocated surface
    is without an owner and the map holds no dangling and no shared
    pointer: the state every later [delete] through the map relies on. *)
Theorem heap_safe_preserved (s : State) :
  heap_safe s →
  (∀ sBannerPath s', CacheBannerInternal sBannerPath s = Ok tt s' → heap_safe s') ∧
  (∀ sBannerPath s', CacheBanner sBannerPath s = Ok tt s' → heap_safe s') ∧
  (∀ sBannerPath s', LoadBanner sBannerPath s = Ok tt s' → heap_safe s') ∧
  (∀ s', Demand s = Ok tt s' → heap_safe s') ∧
  (∀ s', Undemand s = Ok tt s' → heap_safe s') ∧
  (∀ s', UnloadAllBanners s = Ok tt s' → heap_safe s') ∧
  (∀ sBannerPath ID s', LoadCachedBanner sBannerPath s = Ok ID s' → heap_safe s').
Proof.
  intros Hsafe.
  split; [intros path s'; now apply CacheBannerInternal_heap_safe |].
  split; [intros path s'; now apply CacheBanner_heap_safe |].
  split; [intros path s'; now apply LoadBanner_heap_safe |].
  split; [intros s'; now apply Demand_heap_safe |].
  split; [intros s'; now apply Undemand_heap_safe |].
  split; [| intros path ID s'; now apply LoadCachedBanner_heap_safe].
  intros s' Hrun.
  destruct (UnloadAllBanners_frees_all s Hsafe) as (hp & Hrun1 & _ & Hcells).
  rewrite Hrun1 in Hrun. injection Hrun as <-.
  apply heap_safe_empty; [reflexivity | exact Hcells].
Qed.

(** X9.  On a state that satisfies the ownership invariant, the three
    operations that run the transform cannot stop at an assertion or read
    through a dangling surface pointer: [CacheBannerInternal],
    [CacheBanner] and [LoadBanner] return, and the state they return
    satisfies the invariant again, so any sequence of such calls returns.
    In particular [ASSERT( img->format->palette )] is never reached: it is
    guarded by a test for an 8-bit surface, and the surface has just been
    converted to 32 bits. *)
Theorem cache_maintenance_never_asserts (s : State) (sBannerPath : string) :
  heap_safe s →
  (∃ s', CacheBannerInternal sBannerPath s = Ok tt s' ∧ heap_safe s') ∧
  (∃ s', CacheBanner sBannerPath s = Ok tt s' ∧ heap_safe s') ∧
  (∃ s', LoadBanner sBannerPath s = Ok tt s' ∧ heap_safe s').
Proof.
  intros Hsafe.
  split.
  { destruct (CacheBannerInternal_returns s sBannerPath) as (s' & new & Hrun & _).
    exists s'. split; [exact Hrun |].
    exact (CacheBannerInternal_heap_safe _ _ _ Hsafe Hrun). }
  split.
  { destruct (CacheBanner_returns s sBannerPath) as (s' & Hrun).
    exists s'. split; [exact Hrun |]. exact (CacheBanner_heap_safe _ _ _ Hsafe Hrun). }
  destruct (LoadBanner_returns s sBannerPath) as (s' & new & Hrun & _).
  exists s'. split; [exact Hrun |]. exact (LoadBanner_heap_safe _ _ _ Hsafe Hrun).
Qed.

(** X10.  Under the ownership invariant the destructor gives back every
    surface: the map is empty and no surface is left allocated; the files,
    the index and the log are not touched. *)
Theorem BannerCache_destructor_frees_everything (s : State) :
  heap_safe s →
  ∃ s',
    BannerCache_destructor s = Ok tt s' ∧
    g_BannerPathToImage s' = ∅ ∧ (∀ q, cells (surfaces s') !! q = None) ∧
    next (surfaces s') = next (surfaces s) ∧
    files s' = files s ∧ BannerData s' = BannerData s ∧ log s' = log s ∧
    g_iDemandRefcount s' = g_iDemandRefcount s.
Proof.
  intros Hsafe. unfold BannerCache_destructor.
  destruct (UnloadAllBanners_frees_all s Hsafe) as (hp & Hrun & Hnext & Hcells).
  rewrite Hrun. eexists. split; [reflexivity |]. cbn. auto 10.
Qed.

(** ** From the cache to a texture *)

Lemma fitted_within (iMax : Z) (img : RageSurface) :
  surface_w (fitted iMax img) ≤ iMax ∧ surface_h (fitted iMax img) ≤ iMax.
Proof.
  unfold fitted. destruct (_ || _) eqn:Hbig; cbn [surface_w surface_h]; [lia |].
  apply orb_false_iff in Hbig as [Hw Hh].
  rewrite Z.gtb_ltb in Hw, Hh. apply Z.ltb_ge in Hw, Hh. lia.
Qed.

Lemma fitted_dimensions (iMax : Z) (img : RageSurface) :
  surface_w (fitted iMax img) = Z.min (surface_w img) iMax ∧
  surface_h (fitted iMax img) = Z.min (surface_h img) iMax.
Proof.
  unfold fitted. destruct (_ || _) eqn:Hbig; cbn [surface_w surface_h]; [lia |].
  apply orb_false_iff in Hbig as [Hw Hh].
  rewrite Z.gtb_ltb in Hw, Hh. apply Z.ltb_ge in Hw, Hh. lia.
Qed.

Lemma fitted_small (iMax : Z) (img : RageSurface) :
  surface_w img ≤ iMax → surface_h img ≤ iMax → fitted iMax img = img.
Proof.
  intros Hw Hh. unfold fitted.
  replace (surface_w img >? iMax) with false
    by (symmetry; rewrite Z.gtb_ltb; apply Z.ltb_ge; lia).
  replace (surface_h img >? iMax) with false
    by (symmetry; rewrite Z.gtb_ltb; apply Z.ltb_ge; lia).
  reflexivity.
Qed.

Lemma texture_format_fallback (d : RageDisplay) (img : RageSurface) :
  SupportsTextureFormat PixelFormat_RGBA4 d = true →
  SupportsTextureFormat (texture_format d img) d = true.
Proof.
  intros Hfallback. unfold texture_format.
  destruct (SupportsTextureFormat (if _ =? 8 then _ else _) d) eqn:Hpf; cbn [negb]; auto.
Qed.

(** X11.  A banner cached in preloadAll mode can be turned into a texture
    straight away.  After [CacheBannerInternal] on a source that decodes,
    [LoadCachedBanner] passes every assertion of [BannerTexture::Create]
    and registers a volatile texture whose source size is the size the
    index recorded (256x64 for a diagonal banner), whose texture size is
    the cached power-of-two size, and whose name carries "(was rotated)"
    exactly when the source was a diagonal banner.  It needs the cached
    size to fit the display, the fallback format RGBA4 to be supported, and
    no texture of that name to be registered yet. *)
Theorem LoadCachedBanner_after_caching (s : State) sBannerPath f img :
  m_BannerCache (PREFSMAN s) = BNCACHE_LOW_RES_PRELOAD → sBannerPath ≠ "" →
  heap_safe s →
  files s !! sBannerPath = Some f → file_contents f = ImageFile img →
  let bRotated := IsDiagonalBanner (surface_w img) (surface_h img) in
  let iSourceWidth := if bRotated then 256 else surface_w img in
  let iSourceHeight := if bRotated then 64 else surface_h img in
  let ID := banner_texture_ID sBannerPath bRotated in
  iSourceWidth ≠ 0 → iSourceHeight ≠ 0 →
  resize_target iSourceWidth ≤ GetMaxTextureSize (DISPLAY s) →
  resize_target iSourceHeight ≤ GetMaxTextureSize (DISPLAY s) →
  SupportsTextureFormat PixelFormat_RGBA4 (DISPLAY s) = true →
  IsTextureRegistered ID (TEXTUREMAN s) = false →
  ∃ s1 pTexture s2,
    CacheBannerInternal sBannerPath s = Ok tt s1 ∧
    LoadCachedBanner sBannerPath s1 = Ok (volatile ID) s2 ∧
    TEXTUREMAN s2 =
      UnloadTexture pTexture (RegisterTexture (volatile ID) pTexture (TEXTUREMAN s)) ∧
    texture_ID pTexture = ID ∧
    m_iSourceWidth pTexture = iSourceWidth ∧ m_iSourceHeight pTexture = iSourceHeight ∧
    m_iTextureWidth pTexture = resize_target iSourceWidth ∧
    m_iTextureHeight pTexture = resize_target iSourceHeight ∧
    m_iImageWidth pTexture = resize_target iSourceWidth ∧
    m_iImageHeight pTexture = resize_target iSourceHeight ∧
    g_BannerPathToImage s2 = g_BannerPathToImage s1 ∧
    surfaces s2 = surfaces s1.
Proof.
  intros Hpre Hne Hsafe Hf Hc bRotated iSourceWidth iSourceHeight ID
    Hw Hh Hfitw Hfith Hfallback Hreg.
  destruct (CacheBannerInternal_decoded s sBannerPath f img Hf Hc)
    as (s1 & p & Hrun & _ & Hdisplay & Htm & _ & _ & _ & _ & Hdata & Hmem & Hfresh & _
        & _ & Hkept & _).
  pose proof (heap_safe_wf s Hsafe) as Hwf.
  assert (Hcell : cells (surfaces s1) !! p
                  = Some (transformed (m_bPalettedBannerCache (PREFSMAN s)) img)).
  { apply Hkept; [exact Hpre |]. intros Hold. specialize (Hwf _ _ Hold). lia. }
  assert (Hres : g_BannerPathToImage s1 !! sBannerPath = Some p).
  { rewrite Hmem, decide_True by exact Hpre. apply lookup_insert_eq. }
  assert (Hrecw : default 0 (GetValue sBannerPath Width s1) = iSourceWidth).
  { unfold GetValue. rewrite Hdata, lookup_insert_eq. cbn. unfold oriented.
    subst iSourceWidth bRotated. destruct (IsDiagonalBanner _ _); reflexivity. }
  assert (Hrech : default 0 (GetValue sBannerPath Height s1) = iSourceHeight).
  { unfold GetValue. rewrite Hdata, lookup_insert_eq. cbn. unfold oriented.
    subst iSourceHeight bRotated. destruct (IsDiagonalBanner _ _); reflexivity. }
  assert (Hrecr : default false (GetValue sBannerPath Rotated s1) = bRotated).
  { unfold GetValue. rewrite Hdata, lookup_insert_eq. reflexivity. }
  destruct (transformed_dimensions (m_bPalettedBannerCache (PREFSMAN s)) img)
    as [Hcw Hch].
  assert (How : surface_w (oriented img) = iSourceWidth).
  { unfold oriented. subst iSourceWidth bRotated.
    destruct (IsDiagonalBanner _ _); reflexivity. }
  assert (Hoh : surface_h (oriented img) = iSourceHeight).
  { unfold oriented. subst iSourceHeight bRotated.
    destruct (IsDiagonalBanner _ _); reflexivity. }
  rewrite How in Hcw. rewrite Hoh in Hch.
  assert (Hfit : fitted (GetMaxTextureSize (DISPLAY s1))
                   (transformed (m_bPalettedBannerCache (PREFSMAN s)) img)
                 = transformed (m_bPalettedBannerCache (PREFSMAN s)) img).
  { rewrite Hdisplay. apply fitted_small; [rewrite Hcw | rewrite Hch]; assumption. }
  destruct (LoadCachedBanner_creates s1 sBannerPath p _ Hne Hres Hcell)
    as (t & s2 & Hrun2 & Htm2 & Hid & _ & Hsw & Hsh & Htw & Hth & Hiw & Hih & _ & _
        & Hcells & Hnext & Hmem2 & _).
  - rewrite Hrecw. exact Hw.
  - rewrite Hrech. exact Hh.
  - rewrite Hrecr, Htm. exact Hreg.
  - rewrite Hfit, Hcw. apply power_of_two_check_spec, resize_target_is_power_of_two.
  - rewrite Hfit, Hch. apply power_of_two_check_spec, resize_target_is_power_of_two.
  - apply texture_format_fallback. rewrite Hdisplay. exact Hfallback.
  - rewrite Hrecw, Hrech, Hrecr, Hfit, ?Hcw, ?Hch in *.
    exists s1, t, s2. rewrite <- Htm.
    repeat match goal with |- _ ∧ _ => split end; try assumption.
    rewrite (insert_id _ _ _ Hcell) in Hcells.
    destruct (surfaces s2), (surfaces s1). cbn in *. congruence.
Qed.

(** X13.  Past its guards [LoadCachedBanner] trusts the resident bitmap:
    it returns if and only if the bitmap, fitted to the display, has
    power-of-two width and height and the display supports the chosen
    format or the fallback.  [Demand] and [LoadBanner] put into the map
    whatever the cache file holds, so a cache file of another size stops
    the program at the assertion. *)
Theorem LoadCachedBanner_returns_iff (s : State) sBannerPath p img :
  sBannerPath ≠ "" →
  g_BannerPathToImage s !! sBannerPath = Some p → cells (surfaces s) !! p = Some img →
  let ID := banner_texture_ID sBannerPath (default false (GetValue sBannerPath Rotated s)) in
  let up := fitted (GetMaxTextureSize (DISPLAY s)) img in
  default 0 (GetValue sBannerPath Width s) ≠ 0 →
  default 0 (GetValue sBannerPath Height s) ≠ 0 →
  IsTextureRegistered ID (TEXTUREMAN s) = false →
  (∃ ID' s', LoadCachedBanner sBannerPath s = Ok ID' s') ↔
  power_of_two_check (surface_w up) && power_of_two_check (surface_h up)
    && SupportsTextureFormat (texture_format (DISPLAY s) up) (DISPLAY s) = true.
Proof.
  intros Hne Hmem Hcell ID up Hw Hh Hreg. split.
  - intros (ID' & s' & Hrun).
    destruct (_ && _ && _) eqn:Hchecks; [reflexivity |].
    destruct (LoadCachedBanner_asserts s sBannerPath p img Hne Hmem Hcell Hw Hh Hreg
                Hchecks) as (why & Habort).
    rewrite Habort in Hrun. discriminate.
  - intros Hchecks.
    apply andb_true_iff in Hchecks as [Hchecks Hpf].
    apply andb_true_iff in Hchecks as [Hpw Hph].
    destruct (LoadCachedBanner_creates s sBannerPath p img Hne Hmem Hcell Hw Hh Hreg
                Hpw Hph Hpf) as (t & s' & Hrun & _).
    eauto.
Qed.

Lemma append_empty_r (x : string) : x +:+ "" = x.
Proof.
  induction x as [| c x IH]; [reflexivity |].
  change (String c (x +:+ "") = String c x). now rewrite IH.
Qed.

(** X18.  A banner that is already in a texture is not uploaded again.
    With the bitmap resident, a usable index record and the texture
    registered, [LoadCachedBanner] adds one line to the log and nothing
    else: no surface is read or resized, the display and the texture
    manager are not called upon.  The identifier it returns carries the
    rotation tag but not the volatile policy that the first call sets. *)
Theorem LoadCachedBanner_already_registered (s : State) sBannerPath p :
  sBannerPath ≠ "" → g_BannerPathToImage s !! sBannerPath = Some p →
  let ID := banner_texture_ID sBannerPath (default false (GetValue sBannerPath Rotated s)) in
  default 0 (GetValue sBannerPath Width s) ≠ 0 →
  default 0 (GetValue sBannerPath Height s) ≠ 0 →
  IsTextureRegistered ID (TEXTUREMAN s) = true →
  LoadCachedBanner sBannerPath s =
    Ok ID (add_event
             (LOG_Trace "BannerCache::LoadCachedBanner(%s): %s"
                [ArgS sBannerPath; ArgS (GetBannerCachePath sBannerPath)]) s) ∧
  Policy ID = Policy (SongBannerTexture (new_RageTextureID (GetBannerCachePath sBannerPath))) ∧
  filename ID =
    filename (SongBannerTexture (new_RageTextureID (GetBannerCachePath sBannerPath)))
      +:+ (if default false (GetValue sBannerPath Rotated s) then "(was rotated)" else "").
Proof.
  intros Hne Hmem ID Hw Hh Hreg.
  split.
  - unfold LoadCachedBanner.
    rewrite decide_False by exact Hne.
    unfold bind at 1. unfold emit at 1, modify at 1.
    unfold bind at 1. unfold gets at 1. cbn [g_BannerPathToImage add_event].
    rewrite Hmem.
    unfold bind at 1. unfold gets at 1.
    unfold bind at 1. unfold gets at 1.
    unfold bind at 1. unfold gets at 1.
    match goal with
    | |- context [add_event ?e s] =>
        change (GetValue sBannerPath Width (add_event e s))
          with (GetValue sBannerPath Width s);
        change (GetValue sBannerPath Height (add_event e s))
          with (GetValue sBannerPath Height s);
        change (GetValue sBannerPath Rotated (add_event e s))
          with (GetValue sBannerPath Rotated s)
    end.
    replace ((default 0 (GetValue sBannerPath Width s) =? 0)
             || (default 0 (GetValue sBannerPath Height s) =? 0)) with false.
    2: { symmetry. apply orb_false_iff. rewrite !Z.eqb_neq. auto. }
    unfold bind at 1. unfold gets at 1. cbn [TEXTUREMAN add_event].
    change (if default false (GetValue sBannerPath Rotated s) then _ else _) with ID.
    rewrite Hreg. reflexivity.
  - subst ID. unfold banner_texture_ID.
    destruct (default false (GetValue sBannerPath Rotated s)); cbn [Policy filename].
    + split; reflexivity.
    + split; [reflexivity |]. symmetry. apply append_empty_r.
Qed.

(** ** What a regeneration records *)

(** X14.  What [CacheBannerInternal] leaves for a source that decodes.  The
    index record of the path holds the cache path, the size of the image as
    it was resized from (256x64 for a diagonal banner), the rotation flag
    and the fingerprint of the source; the index file, when writable, holds
    the whole index.  The bitmap that is written to the cache file and, in
    preloadAll mode, kept resident is 128x32 for a diagonal banner; it has
    one byte per pixel when the paletted cache is on and is 16-bit with
    masks 7C00/03E0/001F/8000 when it is off. *)
Theorem CacheBannerInternal_cache_entry (s : State) sBannerPath f img :
  files s !! sBannerPath = Some f → file_contents f = ImageFile img →
  let bRotated := IsDiagonalBanner (surface_w img) (surface_h img) in
  let CachePath := GetBannerCachePath sBannerPath in
  ∃ s' cached,
    CacheBannerInternal sBannerPath s = Ok tt s' ∧
    GetValue sBannerPath Path s' = Some CachePath ∧
    GetValue sBannerPath Width s' = Some (if bRotated then 256 else surface_w img) ∧
    GetValue sBannerPath Height s' = Some (if bRotated then 64 else surface_h img) ∧
    GetValue sBannerPath Rotated s' = Some bRotated ∧
    (CachePath ≠ sBannerPath → GetValue sBannerPath FullHash s' = Some (file_hash f)) ∧
    (BANNER_CACHE_INDEX ∉ read_only s →
     file_contents <$> files s' !! BANNER_CACHE_INDEX
       = Some (IniFileContents (BannerData s'))) ∧
    (CachePath ∉ read_only s → CachePath ≠ BANNER_CACHE_INDEX →
     file_contents <$> files s' !! CachePath = Some (SavedSurface cached)) ∧
    (m_BannerCache (PREFSMAN s) = BNCACHE_LOW_RES_PRELOAD → heap_wf s →
     ∃ p, g_BannerPathToImage s' !! sBannerPath = Some p ∧
          cells (surfaces s') !! p = Some cached) ∧
    (bRotated = true → surface_w cached = 128 ∧ surface_h cached = 32) ∧
    (m_bPalettedBannerCache (PREFSMAN s) = true →
     BytesPerPixel (surface_fmt cached) = 1) ∧
    (m_bPalettedBannerCache (PREFSMAN s) = false →
     surface_fmt cached = {| BitsPerPixel := 16; Rmask := 0x7C00; Gmask := 0x03E0;
                             Bmask := 0x001F; Amask := 0x8000; palette := false |}).
Proof.
  intros Hf Hc bRotated CachePath.
  destruct (CacheBannerInternal_decoded s sBannerPath f img Hf Hc)
    as (s' & p & Hrun & _ & _ & _ & _ & _ & _ & Hfiles & Hdata & Hmem & Hfresh & _
        & _ & Hkept & _).
  exists s', (transformed (m_bPalettedBannerCache (PREFSMAN s)) img).
  split; [exact Hrun |].
  unfold GetValue. rewrite Hdata, lookup_insert_eq. cbn [mbind option_bind index_record
    Path Width Height Rotated FullHash].
  split; [reflexivity |].
  split; [unfold oriented; fold bRotated; destruct bRotated; reflexivity |].
  split; [unfold oriented; fold bRotated; destruct bRotated; reflexivity |].
  split; [reflexivity |].
  split.
  { intros Hcp. rewrite written_lookup by exact Hcp. rewrite Hf. reflexivity. }
  split.
  { intros Hrw. rewrite Hfiles. unfold written at 1. rewrite decide_False by exact Hrw.
    rewrite lookup_insert_eq. reflexivity. }
  split.
  { intros Hrw Hidx. rewrite Hfiles. rewrite written_lookup by congruence.
    unfold written. rewrite decide_False by exact Hrw.
    rewrite lookup_insert_eq. reflexivity. }
  split.
  { intros Hpre Hwf. exists p. rewrite Hmem, decide_True by exact Hpre.
    split; [apply lookup_insert_eq |].
    apply Hkept; [exact Hpre |].
    intros Hold. specialize (Hwf _ _ Hold). lia. }
  split.
  { intros Hrot. unfold transformed, oriented. fold bRotated. rewrite Hrot.
    destruct (m_bPalettedBannerCache (PREFSMAN s)); split; reflexivity. }
  split.
  - intros Hpal. rewrite Hpal. unfold transformed, encoded.
    destruct (BytesPerPixel (surface_fmt (resized (oriented img))) =? 1) eqn:Hbpp;
      cbn [negb]; [apply Z.eqb_eq in Hbpp; exact Hbpp | reflexivity].
  - intros Hpal. rewrite Hpal. reflexivity.
Qed.

(** ** One banner at a time *)

Lemma touches_only_same (sBannerPath : string) (s s' : State) :
  g_BannerPathToImage s' = g_BannerPathToImage s → surfaces s' = surfaces s →
  BannerData s' = BannerData s → files s' = files s →
  touches_only sBannerPath s s'.
Proof.
  intros Hm Hs Hb Hf. unfold touches_only. rewrite Hm, Hs, Hb, Hf.
  repeat split; auto. lia.
Qed.

Lemma touches_only_trans (sBannerPath : string) (s1 s2 s3 : State) :
  touches_only sBannerPath s1 s2 → touches_only sBannerPath s2 s3 →
  touches_only sBannerPath s1 s3.
Proof.
  intros (N1 & M1 & O1 & C1 & B1 & F1) (N2 & M2 & O2 & C2 & B2 & F2).
  unfold touches_only. split; [lia |].
  split; [intros q Hq; rewrite M2, M1 by exact Hq; reflexivity |].
  split.
  { intros p Hp. destruct (O2 p Hp) as [Hp2 | Hp2]; [| right; lia].
    destruct (O1 p Hp2); [auto | right; lia]. }
  split.
  { intros q Hq Hown. rewrite C2, C1; auto; [lia |].
    intros Hp2. destruct (O1 q Hp2); [contradiction | lia]. }
  split; [intros q Hq; rewrite B2, B1 by exact Hq; reflexivity |].
  intros x Hx1 Hx2. rewrite F2, F1 by assumption. reflexivity.
Qed.

Lemma touches_only_loaded (sBannerPath : string) (s s' : State) img :
  g_BannerPathToImage s' = <[sBannerPath := next (surfaces s)]> (g_BannerPathToImage s) →
  surfaces s' = heap_alloc img (surfaces s) →
  BannerData s' = BannerData s → files s' = files s →
  touches_only sBannerPath s s'.
Proof.
  intros Hm Hs Hb Hf. unfold touches_only. rewrite Hm, Hs, Hb, Hf.
  cbn [heap_alloc next cells].
  split; [lia |].
  split; [intros q Hq; apply lookup_insert_ne; congruence |].
  split; [intros p; rewrite lookup_insert_eq; intros [= <-]; right; lia |].
  split; [intros q Hq _; apply lookup_insert_ne; lia |].
  auto.
Qed.

Lemma CacheBannerInternal_touches_only (s s' : State) sBannerPath :
  CacheBannerInternal sBannerPath s = Ok tt s' → touches_only sBannerPath s s'.
Proof.
  intros Hrun.
  destruct (is_image_file (files s) sBannerPath) eqn:Himg.
  2: { rewrite CacheBannerInternal_undecodable in Hrun by exact Himg.
       injection Hrun as <-. apply touches_only_same; reflexivity. }
  destruct (is_image_file_true _ _ Himg) as (f & img & Hf & Hc).
  destruct (CacheBannerInternal_decoded s sBannerPath f img Hf Hc)
    as (s1 & p & Hrun1 & _ & _ & _ & _ & _ & _ & Hfiles & Hdata & Hmem & Hfresh & Hnext
        & _ & _ & _ & Hframe & _).
  rewrite Hrun1 in Hrun. injection Hrun as <-.
  unfold touches_only. rewrite Hnext, Hmem, Hdata, Hfiles.
  split; [lia |].
  split.
  { intros q Hq. destruct (decide (_ = _)).
    - rewrite lookup_insert_ne, lookup_delete_ne by congruence. reflexivity.
    - rewrite lookup_delete_ne by congruence. reflexivity. }
  split.
  { intros q. destruct (decide (_ = _)).
    - rewrite lookup_insert_eq. intros [= <-]. auto.
    - rewrite lookup_delete_eq. discriminate. }
  split; [exact Hframe |].
  split; [intros q Hq; apply lookup_insert_ne; congruence |].
  intros x Hx1 Hx2. rewrite !written_lookup by congruence. reflexivity.
Qed.

Lemma LoadBanner_loop_touches_only (fuel : nat) (tries : Z) (s s' : State) sBannerPath :
  LoadBanner_loop fuel tries sBannerPath (GetBannerCachePath sBannerPath) s = Ok tt s' →
  touches_only sBannerPath s s'.
Proof.
  revert tries s. induction fuel as [| fuel IH]; intros tries s Hrun.
  - injection Hrun as <-. apply touches_only_same; reflexivity.
  - cbn [LoadBanner_loop] in Hrun.
    destruct (negb (tries <? 2));
      [injection Hrun as <-; apply touches_only_same; reflexivity |].
    apply bind_Ok in Hrun as (images & s1 & [= <- <-] & Hrun).
    destruct (decide (is_Some _));
      [injection Hrun as <-; apply touches_only_same; reflexivity |].
    apply bind_Ok in Hrun as (u & s2 & [= <- <-] & Hrun).
    apply bind_Ok in Hrun as (img & s3 & Hload & Hrun).
    apply LoadSurface_inv in Hload as [[-> ->] | (surf & -> & ->)].
    + destruct (tries =? 0).
      * apply bind_Ok in Hrun as (u1 & s4 & [= <- <-] & Hrun).
        apply bind_Ok in Hrun as ([] & s5 & Hcache & Hrun).
        apply CacheBannerInternal_touches_only in Hcache. apply IH in Hrun.
        eapply touches_only_trans; [| exact Hrun].
        eapply touches_only_trans; [| exact Hcache].
        apply touches_only_same; reflexivity.
      * injection Hrun as <-. apply touches_only_same; reflexivity.
    + apply bind_Ok in Hrun as (u1 & s4 & [= <- <-] & Hrun).
      apply IH in Hrun. eapply touches_only_trans; [| exact Hrun].
      apply (touches_only_loaded _ _ _ surf); reflexivity.
Qed.

Lemma LoadBanner_touches_only (s s' : State) sBannerPath :
  LoadBanner sBannerPath s = Ok tt s' → touches_only sBannerPath s s'.
Proof.
  intros Hrun. unfold LoadBanner in Hrun.
  destruct (decide (sBannerPath = ""));
    [injection Hrun as <-; apply touches_only_same; reflexivity |].
  apply bind_Ok in Hrun as (mode & s1 & [= <- <-] & Hrun).
  destruct (decide (_ ∧ _));
    [injection Hrun as <-; apply touches_only_same; reflexivity |].
  exact (LoadBanner_loop_touches_only _ _ _ _ _ Hrun).
Qed.

Lemma CacheBanner_touches_only (s s' : State) sBannerPath :
  CacheBanner sBannerPath s = Ok tt s' → touches_only sBannerPath s s'.
Proof.
  intros Hrun.
  destruct (decide (caching_enabled s)) as [Hmode | Hmode].
  2: { rewrite CacheBanner_disabled in Hrun by exact Hmode. injection Hrun as <-.
       apply touches_only_same; reflexivity. }
  destruct (DoesFileExist sBannerPath s) eqn:Hsrc.
  2: { rewrite CacheBanner_no_source in Hrun by assumption. injection Hrun as <-.
       apply touches_only_same; reflexivity. }
  rewrite (CacheBanner_checks s sBannerPath Hmode Hsrc) in Hrun.
  apply (touches_only_trans _ _ (add_event (banner_checkpoint sBannerPath) s));
    [apply touches_only_same; reflexivity |].
  destruct (cache_up_to_date s sBannerPath).
  - destruct (decide (_ = _)).
    + exact (LoadBanner_touches_only _ _ _ Hrun).
    + injection Hrun as <-. apply touches_only_same; reflexivity.
  - exact (CacheBannerInternal_touches_only _ _ _ Hrun).
Qed.

(** X15.  [CacheBanner] and [LoadBanner] called for one banner leave every
    other banner alone: another path is resident afterwards exactly if it
    was before, at the same address and with the same bitmap; its index
    record is unchanged; and no file is written but the banner's cache file
    and the index file, so the source image itself is never modified. *)
Theorem one_banner_at_a_time (s : State) sBannerPath :
  heap_safe s →
  ∃ s1 s2,
    CacheBanner sBannerPath s = Ok tt s1 ∧ LoadBanner sBannerPath s = Ok tt s2 ∧
    ∀ s', s' = s1 ∨ s' = s2 →
      (∀ sOther, sOther ≠ sBannerPath →
         g_BannerPathToImage s' !! sOther = g_BannerPathToImage s !! sOther ∧
         BannerData s' !! sOther = BannerData s !! sOther ∧
         ∀ p, g_BannerPathToImage s !! sOther = Some p →
              cells (surfaces s') !! p = cells (surfaces s) !! p) ∧
      (∀ sPath, sPath ≠ GetBannerCachePath sBannerPath → sPath ≠ BANNER_CACHE_INDEX →
                files s' !! sPath = files s !! sPath).
Proof.
  intros Hsafe.
  destruct (CacheBanner_returns s sBannerPath) as (s1 & Hrun1).
  destruct (LoadBanner_returns s sBannerPath) as (s2 & new & Hrun2 & _).
  exists s1, s2. split; [exact Hrun1 |]. split; [exact Hrun2 |].
  assert (Hall : ∀ s', touches_only sBannerPath s s' →
    (∀ sOther, sOther ≠ sBannerPath →
       g_BannerPathToImage s' !! sOther = g_BannerPathToImage s !! sOther ∧
       BannerData s' !! sOther = BannerData s !! sOther ∧
       ∀ p, g_BannerPathToImage s !! sOther = Some p →
            cells (surfaces s') !! p = cells (surfaces s) !! p) ∧
    (∀ sPath, sPath ≠ GetBannerCachePath sBannerPath → sPath ≠ BANNER_CACHE_INDEX →
              files s' !! sPath = files s !! sPath)).
  { intros s' (N & Mo & O & C & B & F). split; [| exact F].
    intros sOther Hne. split; [exact (Mo _ Hne) |]. split; [exact (B _ Hne) |].
    intros p Hp. apply C.
    - exact (heap_safe_wf s Hsafe _ _ Hp).
    - intros Hown. destruct Hsafe as (_ & _ & I & _). apply Hne.
      exact (I _ _ _ Hp Hown). }
  intros s' [-> | ->]; apply Hall.
  - exact (CacheBanner_touches_only _ _ _ Hrun1).
  - exact (LoadBanner_touches_only _ _ _ Hrun2).
Qed.

(** ** Nested demands *)

Lemma nested_Demands (k : nat) (s : State) :
  1 ≤ g_iDemandRefcount s →
  ∃ s', times k Demand s = Ok tt s' ∧ same_but_refcount s s' ∧
        g_iDemandRefcount s' = g_iDemandRefcount s + Z.of_nat k.
Proof.
  revert s. induction k as [| k IH]; intros s Hpos.
  - exists s. split; [reflexivity |]. split; [repeat split | cbn; lia].
  - cbn [times]. unfold bind at 1. rewrite Demand_nested by exact Hpos.
    destruct (IH (set_g_iDemandRefcount (λ n, n + 1) s)) as (s' & Hrun & Hsame & Hcount).
    { cbn. lia. }
    exists s'. split; [exact Hrun |]. split; [exact Hsame |].
    rewrite Hcount. cbn [g_iDemandRefcount set_g_iDemandRefcount]. lia.
Qed.

Lemma inner_Undemands (k : nat) (s : State) :
  Z.of_nat k < g_iDemandRefcount s →
  ∃ s', times k Undemand s = Ok tt s' ∧ same_but_refcount s s' ∧
        g_iDemandRefcount s' = g_iDemandRefcount s - Z.of_nat k.
Proof.
  revert s. induction k as [| k IH]; intros s Hpos.
  - exists s. split; [reflexivity |]. split; [repeat split | cbn; lia].
  - cbn [times]. unfold bind at 1. rewrite Undemand_not_last by lia.
    destruct (IH (set_g_iDemandRefcount (λ n, n - 1) s)) as (s' & Hrun & Hsame & Hcount).
    { cbn. lia. }
    exists s'. split; [exact Hrun |]. split; [exact Hsame |].
    rewrite Hcount. cbn [g_iDemandRefcount set_g_iDemandRefcount]. lia.
Qed.

Lemma times_last (k : nat) (m : M unit) (s s1 : State) :
  times k m s = Ok tt s1 → times (S k) m s = m s1.
Proof.
  revert s. induction k as [| k IH]; intros s Hrun.
  - injection Hrun as <-. cbn [times]. unfold bind, ret.
    destruct (m s) as [[] s2 | why]; reflexivity.
  - cbn [times] in Hrun. apply bind_Ok in Hrun as ([] & s2 & Hfirst & Hrest).
    change (times (S (S k)) m s) with (bind m (λ _, times (S k) m) s).
    unfold bind at 1. rewrite Hfirst. exact (IH s2 Hrest).
Qed.

Lemma heap_safe_same_but_refcount (s s' : State) :
  same_but_refcount s s' → heap_safe s → heap_safe s'.
Proof.
  intros (_ & _ & _ & _ & _ & Hheap & Hmem & _). now apply heap_safe_frame.
Qed.

(** X16.  Demands nest as deep as the counter can count.  From a counter
    of zero, [n]+1 calls of [Demand] followed by [n]+1 calls of [Undemand],
    with [n]+1 no more than [INT_MAX], all return and bring the counter
    back to zero; only the first [Demand] loads and only the last
    [Undemand] releases.  In loadOnDemand mode the map is then empty
    and, under the ownership invariant, no surface is left allocated; in
    the other modes the bitmaps are as they were before the first call.
    Files and index are untouched throughout. *)
Theorem Demand_Undemand_balanced (n : nat) (s : State) :
  g_iDemandRefcount s = 0 → heap_safe s →
  Z.of_nat (S n) ≤ 2 ^ 31 - 1 →
  ∃ s0 s1 s2,
    Demand s = Ok tt s0 ∧
    times (S n) Demand s = Ok tt s1 ∧ times (S n) Undemand s1 = Ok tt s2 ∧
    g_iDemandRefcount s1 = Z.of_nat (S n) ∧ g_iDemandRefcount s2 = 0 ∧
    g_BannerPathToImage s1 = g_BannerPathToImage s0 ∧ surfaces s1 = surfaces s0 ∧
    files s2 = files s ∧ BannerData s2 = BannerData s ∧
    (m_BannerCache (PREFSMAN s) = BNCACHE_LOW_RES_LOAD_ON_DEMAND →
     g_BannerPathToImage s2 = ∅ ∧ ∀ q, cells (surfaces s2) !! q = None) ∧
    (m_BannerCache (PREFSMAN s) ≠ BNCACHE_LOW_RES_LOAD_ON_DEMAND →
     g_BannerPathToImage s2 = g_BannerPathToImage s ∧ surfaces s2 = surfaces s).
Proof.
  intros Hzero Hsafe _.
  (* the first Demand *)
  assert (Hfirst : ∃ s0, Demand s = Ok tt s0 ∧ g_iDemandRefcount s0 = 1 ∧
                         PREFSMAN s0 = PREFSMAN s ∧ files s0 = files s ∧
                         BannerData s0 = BannerData s ∧ heap_safe s0 ∧
                         (m_BannerCache (PREFSMAN s) ≠ BNCACHE_LOW_RES_LOAD_ON_DEMAND →
                          g_BannerPathToImage s0 = g_BannerPathToImage s ∧
                          surfaces s0 = surfaces s)).
  { destruct (Demand s) as [[] s0 | why] eqn:Hrun.
    2: { exfalso. revert Hrun. rewrite Demand_first by lia.
         destruct (decide (_ ≠ _)); [discriminate |].
         destruct (Demand_children_run (map_to_list (BannerData s)).*1
                     (set_g_iDemandRefcount (λ n, n + 1) s)) as (s' & Hrun & _).
         rewrite Hrun. discriminate. }
    exists s0. split; [reflexivity |].
    pose proof (Demand_heap_safe s s0 Hsafe Hrun) as Hsafe0.
    rewrite Demand_first in Hrun by lia.
    destruct (decide (_ ≠ _)) as [Hmode | Hmode].
    - injection Hrun as <-. cbn. rewrite Hzero.
      split; [reflexivity |]. split; [reflexivity |]. split; [reflexivity |].
      split; [reflexivity |]. split; [exact Hsafe0 |]. auto.
    - destruct (Demand_children_run (map_to_list (BannerData s)).*1
                  (set_g_iDemandRefcount (λ n, n + 1) s))
        as (s' & Hrun' & Hp & Hf & Hr & Hb & _).
      rewrite Hrun' in Hrun. injection Hrun as <-.
      cbn in Hp, Hf, Hr, Hb. rewrite Hr, Hzero.
      split; [reflexivity |]. split; [exact Hp |]. split; [exact Hf |].
      split; [exact Hb |]. split; [exact Hsafe0 |]. intros Hne. contradiction. }
  destruct Hfirst as (s0 & Hrun0 & Hcount0 & Hprefs0 & Hfiles0 & Hdata0 & Hsafe0 & Hkeep0).
  (* the nested ones *)
  destruct (nested_Demands n s0) as (s1 & Hrun1 & Hsame1 & Hcount1); [lia |].
  destruct (inner_Undemands n s1) as (s1' & Hrun1' & Hsame1' & Hcount1'); [lia |].
  pose proof (heap_safe_same_but_refcount _ _ Hsame1 Hsafe0) as Hsafe1.
  pose proof (heap_safe_same_but_refcount _ _ Hsame1' Hsafe1) as Hsafe1'.
  destruct Hsame1 as (Hp1 & _ & _ & Hf1 & _ & Hh1 & Hm1 & Hb1 & _).
  destruct Hsame1' as (Hp2 & _ & _ & Hf2 & _ & Hh2 & Hm2 & Hb2 & _).
  assert (Hone : g_iDemandRefcount s1' = 1) by lia.
  (* the last Undemand *)
  assert (Hlast : ∃ s2, Undemand s1' = Ok tt s2 ∧ g_iDemandRefcount s2 = 0 ∧
                        files s2 = files s1' ∧ BannerData s2 = BannerData s1' ∧
                        (m_BannerCache (PREFSMAN s1') = BNCACHE_LOW_RES_LOAD_ON_DEMAND →
                         g_BannerPathToImage s2 = ∅ ∧ ∀ q, cells (surfaces s2) !! q = None) ∧
                        (m_BannerCache (PREFSMAN s1') ≠ BNCACHE_LOW_RES_LOAD_ON_DEMAND →
                         g_BannerPathToImage s2 = g_BannerPathToImage s1' ∧
                         surfaces s2 = surfaces s1')).
  { rewrite Undemand_last by exact Hone.
    destruct (decide (_ ≠ _)) as [Hmode | Hmode].
    - eexists. split; [reflexivity |]. cbn. rewrite Hone.
      split; [reflexivity |]. split; [reflexivity |]. split; [reflexivity |].
      split; [intros Hon; contradiction | auto].
    - destruct (UnloadAllBanners_frees_all (set_g_iDemandRefcount (λ n, n - 1) s1'))
        as (hp & Hrun & _ & Hcells).
      { revert Hsafe1'. apply heap_safe_frame; reflexivity. }
      rewrite Hrun. eexists. split; [reflexivity |]. cbn. rewrite Hone.
      split; [reflexivity |]. split; [reflexivity |]. split; [reflexivity |].
      split; [auto | intros Hne; contradiction]. }
  destruct Hlast as (s2 & Hrun2 & Hcount2 & Hfiles2 & Hdata2 & Hdemand & Hother).
  exists s0, s1, s2.
  split; [exact Hrun0 |].
  split; [cbn [times]; unfold bind at 1; rewrite Hrun0; exact Hrun1 |].
  split; [rewrite (times_last n Undemand s1 s1' Hrun1'); exact Hrun2 |].
  split; [lia |]. split; [exact Hcount2 |].
  split; [exact Hm1 |]. split; [exact Hh1 |].
  split; [congruence |]. split; [congruence |].
  rewrite Hp2, Hp1, Hprefs0 in Hdemand, Hother.
  split; [exact Hdemand |].
  intros Hmode. destruct (Hother Hmode) as [Hm Hh]. destruct (Hkeep0 Hmode) as [Hm0 Hh0].
  split; congruence.
Qed.

(** ** The texture's handle *)

Context {deleter : @DisplayDelete collab}.

(** X17.  A display texture is deleted at most once.  [Destroy] hands a
    non-zero handle to [DeleteTexture] and clears it, so a second [Destroy]
    (the destructor after an explicit [Destroy], say) leaves the display
    alone; and after [Invalidate] a [Destroy] makes no display call at all,
    whatever the handle was.  [Reload] deletes the old texture before it
    creates the new one. *)
Theorem BannerTexture_handle_deleted_once (t : BannerTexture) (s : State) :
  ∃ t1 s1,
    BannerTexture_Destroy t s = Ok t1 s1 ∧
    m_uTexHandle t1 = 0 ∧
    DISPLAY s1 = (if m_uTexHandle t =? 0 then DISPLAY s
                  else DeleteTexture (m_uTexHandle t) (DISPLAY s)) ∧
    BannerTexture_Destroy t1 s1 = Ok t1 s1 ∧
    BannerTexture_Destroy (BannerTexture_Invalidate t) s
      = Ok (BannerTexture_Invalidate t) s ∧
    BannerTexture_Reload t s = BannerTexture_Create t1 s1.
Proof.
  unfold BannerTexture_Reload, BannerTexture_Destroy, BannerTexture_Invalidate.
  destruct (m_uTexHandle t =? 0) eqn:Hzero; cbn [negb].
  - exists (set_m_uTexHandle 0 t), s. repeat split; reflexivity.
  - eexists (set_m_uTexHandle 0 t), _. split; [reflexivity |].
    repeat split; reflexivity.
Qed.

(** X12.  The emergency resize of [BannerTexture::Create] ends up in the
    map, so that it is done once.  [LoadCachedBanner] hands the constructor
    a reference to the map's own pointer: after the call the bitmap that
    the map holds for the path is the one that was given to the display,
    its width and height the smaller of the original ones and the display's
    maximum texture size.  When the texture it registered is reloaded,
    [Create] finds that bitmap, resizes nothing and logs no "Converted %s
    at runtime": log, map and surfaces are as the first call left them, and
    the texture has the same size again.  The reload needs what the first
    call needed of the display: the same maximum texture size and a
    supported format. *)
Theorem LoadCachedBanner_converts_once (s : State) sBannerPath p img :
  sBannerPath ≠ "" →
  g_BannerPathToImage s !! sBannerPath = Some p → cells (surfaces s) !! p = Some img →
  let ID := banner_texture_ID sBannerPath (default false (GetValue sBannerPath Rotated s)) in
  let iMax := GetMaxTextureSize (DISPLAY s) in
  let up := fitted iMax img in
  let created := CreateTexture (texture_format (DISPLAY s) up) up (DISPLAY s) in
  let reset := if created.1 =? 0 then created.2 else DeleteTexture created.1 created.2 in
  default 0 (GetValue sBannerPath Width s) ≠ 0 →
  default 0 (GetValue sBannerPath Height s) ≠ 0 →
  IsTextureRegistered ID (TEXTUREMAN s) = false →
  power_of_two_check (surface_w up) = true →
  power_of_two_check (surface_h up) = true →
  SupportsTextureFormat (texture_format (DISPLAY s) up) (DISPLAY s) = true →
  GetMaxTextureSize reset = iMax →
  SupportsTextureFormat (texture_format reset up) reset = true →
  ∃ pTexture s',
    LoadCachedBanner sBannerPath s = Ok (volatile ID) s' ∧
    TEXTUREMAN s' =
      UnloadTexture pTexture (RegisterTexture (volatile ID) pTexture (TEXTUREMAN s)) ∧
    (∃ p', g_BannerPathToImage s' !! sBannerPath = Some p' ∧
           cells (surfaces s') !! p' = Some up) ∧
    surface_w up = Z.min (surface_w img) iMax ∧
    surface_h up = Z.min (surface_h img) iMax ∧
    ∃ pReloaded s'',
      BannerTexture_Reload pTexture s' = Ok pReloaded s'' ∧
      log s'' = log s' ∧ surfaces s'' = surfaces s' ∧
      g_BannerPathToImage s'' = g_BannerPathToImage s' ∧
      m_iTextureWidth pReloaded = m_iTextureWidth pTexture ∧
      m_iTextureHeight pReloaded = m_iTextureHeight pTexture.
Proof.
  intros Hne Hmem Hcell ID iMax up created reset Hw Hh Hreg Hpw Hph Hpf Hmax Hpf2.
  destruct (LoadCachedBanner_creates s sBannerPath p img Hne Hmem Hcell Hw Hh Hreg
              Hpw Hph Hpf)
    as (t & s' & Hrun & Htm & _ & Hslot & _ & _ & Htw & Hth & _ & _ & Hhandle & Hdisplay
        & Hcells & _ & Hmem' & _).
  exists t, s'. split; [exact Hrun |]. split; [exact Htm |].
  assert (Hmem1 : g_BannerPathToImage s' !! sBannerPath = Some p)
    by (rewrite Hmem'; exact Hmem).
  assert (Hcell1 : cells (surfaces s') !! p = Some up)
    by (rewrite Hcells; apply lookup_insert_eq).
  split; [eauto |].
  destruct (fitted_dimensions iMax img) as [Hdw Hdh].
  split; [exact Hdw |]. split; [exact Hdh |].
  destruct (fitted_within iMax img) as [Hfw Hfh].
  assert (Hfit : fitted (GetMaxTextureSize reset) up = up).
  { rewrite Hmax. apply fitted_small; assumption. }
  (* Destroy, then Create on the display it leaves *)
  assert (Hdestroy : ∃ s1,
            BannerTexture_Destroy t s' = Ok (set_m_uTexHandle 0 t) s1 ∧
            DISPLAY s1 = reset ∧ log s1 = log s' ∧ surfaces s1 = surfaces s' ∧
            g_BannerPathToImage s1 = g_BannerPathToImage s').
  { assert (Hhandle' : m_uTexHandle t = created.1) by exact Hhandle.
    assert (Hdisplay' : DISPLAY s' = created.2) by exact Hdisplay.
    unfold BannerTexture_Destroy. rewrite Hhandle'.
    subst reset. destruct (created.1 =? 0); cbn [negb].
    - exists s'. split; [reflexivity |]. auto.
    - eexists. split; [reflexivity |]. cbn. rewrite Hdisplay'. auto. }
  destruct Hdestroy as (s1 & Hdestroy & Hd1 & Hlog1 & Hheap1 & Hmap1).
  destruct (BannerTexture_Create_runs (set_m_uTexHandle 0 t) s1 p up)
    as (t2 & s2 & Hrun2 & _ & _ & _ & _ & Htw2 & Hth2 & _ & _ & _ & _ & Hcells2 & Hnext2
        & Hmem2 & _ & _ & _ & _ & _ & _ & Hlog2).
  { cbn [img_slot set_m_uTexHandle]. rewrite Hmap1, Hslot. exact Hmem1. }
  { rewrite Hheap1. exact Hcell1. }
  { rewrite Hd1, Hfit. exact Hpw. }
  { rewrite Hd1, Hfit. exact Hph. }
  { rewrite Hd1, Hfit. exact Hpf2. }
  exists t2, s2.
  split.
  { unfold BannerTexture_Reload. unfold bind at 1. rewrite Hdestroy. exact Hrun2. }
  rewrite Hd1, Hfit in Htw2, Hth2, Hcells2.
  split.
  { rewrite Hlog2, Hd1, Hmax, <- Hlog1.
    replace (surface_w up >? iMax) with false
      by (symmetry; rewrite Z.gtb_ltb; apply Z.ltb_ge; exact Hfw).
    replace (surface_h up >? iMax) with false
      by (symmetry; rewrite Z.gtb_ltb; apply Z.ltb_ge; exact Hfh).
    reflexivity. }
  split.
  { rewrite <- Hheap1. rewrite insert_id in Hcells2 by (rewrite Hheap1; exact Hcell1).
    destruct (surfaces s2), (surfaces s1). cbn in *. congruence. }
  split; [rewrite Hmem2; exact Hmap1 |].
  split; [rewrite Htw2, Htw | rewrite Hth2, Hth]; reflexivity.
Qed.

End Properties.

(** * The code on concrete worlds *)

#[local] Existing Instance demo_collaborators.

(** A tie, as C6 has it: half of 6 is 3, as far from 4 as from 2. *)
Lemma round_to_power_of_two_tie_witness :
  Z.abs (3 - power_of_two 3) = Z.abs (3 - power_of_two 3 ÷ 2) ∧
  round_to_power_of_two 3 = power_of_two 3 ∧
  power_of_two 3 ÷ 2 < power_of_two 3.
Proof.
  split; [reflexivity |]. apply (round_to_power_of_two_tie 3). reflexivity.
Defined.

Example resize_targets :
  resize_target 40 = 32 ∧ resize_target 96 = 64 ∧
  resize_target 800 = 512 ∧ resize_target 600 = 256 ∧ resize_target 1 = 1.
Proof. repeat split; reflexivity. Qed.

(** The spec's example for C7: a source of 40x40 is cached at 32x32, in
    the cache file and in memory. *)
Lemma resize_target_floor_witness :
  files preload_tiny !! "tiny.png" = Some tiny_file ∧
  file_contents tiny_file = ImageFile (demo_image 40 40) ∧
  ∃ s' cached p,
    CacheBannerInternal "tiny.png" preload_tiny = Ok tt s' ∧
    file_contents <$> files s' !! GetBannerCachePath "tiny.png"
      = Some (SavedSurface cached) ∧
    g_BannerPathToImage s' !! "tiny.png" = Some p ∧
    cells (surfaces s') !! p = Some cached ∧
    32 ≤ surface_w cached ∧ 32 ≤ surface_h cached.
Proof.
  assert (H1 : files preload_tiny !! "tiny.png" = Some tiny_file) by reflexivity.
  assert (H2 : file_contents tiny_file = ImageFile (demo_image 40 40)) by reflexivity.
  split; [exact H1 |]. split; [exact H2 |].
  destruct (resize_target_floor preload_tiny "tiny.png" tiny_file (demo_image 40 40) H1 H2)
    as (s' & cached & Hrun & Hfile & Hres & _ & _ & _ & _ & _ & _ & H40).
  destruct Hres as (p & Hp & Hcell); [reflexivity | |].
  { intros path q Hq. discriminate Hq. }
  exists s', cached, p. split; [exact Hrun |].
  split.
  { apply Hfile; [| discriminate]. intros Hin. apply elem_of_empty in Hin. exact Hin. }
  split; [exact Hp |]. split; [exact Hcell |].
  apply H40; reflexivity.
Defined.

(** ** CacheBanner *)

(** C1 as the spec states it fails here: the source exists, fast-load is
    set and there is no cache file.  The claim's condition holds, so the
    call should skip; the code regenerates. *)
Lemma CacheBanner_fast_load_without_cache_file :
  DoesFileExist "foo.png" fast_load_no_cache = true ∧
  m_bFastLoad (PREFSMAN fast_load_no_cache) = true ∧
  DoesFileExist (GetBannerCachePath "foo.png") fast_load_no_cache = false ∧
  ∃ s',
    CacheBanner "foo.png" fast_load_no_cache = Ok tt s' ∧
    count_events is_LoadFile (log s') = 1%nat ∧
    is_saved_surface (files s') (GetBannerCachePath "foo.png") = true ∧
    ¬ (count_events is_LoadFile (log s') = 0%nat ↔
       m_bFastLoad (PREFSMAN fast_load_no_cache) = true ∨
       (DoesFileExist (GetBannerCachePath "foo.png") fast_load_no_cache = true ∧
        GetValue "foo.png" FullHash fast_load_no_cache
          = Some (GetHashForFile "foo.png" fast_load_no_cache))).
Proof.
  split; [reflexivity |]. split; [reflexivity |]. split; [reflexivity |].
  eexists. split; [vm_compute; reflexivity |].
  split; [reflexivity |]. split; [reflexivity |].
  intros [_ Hskip]. specialize (Hskip (or_introl eq_refl)). discriminate Hskip.
Qed.

Lemma CacheBanner_regenerates_unless_up_to_date_witness :
  caching_enabled fast_load_no_cache ∧
  DoesFileExist "foo.png" fast_load_no_cache = true ∧
  ∃ s' new,
    CacheBanner "foo.png" fast_load_no_cache = Ok tt s' ∧
    log s' = new ++ log fast_load_no_cache ∧
    count_events is_LoadFile new = 1%nat.
Proof.
  assert (H1 : caching_enabled fast_load_no_cache) by (right; reflexivity).
  assert (H2 : DoesFileExist "foo.png" fast_load_no_cache = true) by reflexivity.
  split; [exact H1 |]. split; [exact H2 |].
  destruct (CacheBanner_regenerates_unless_up_to_date fast_load_no_cache "foo.png" H1 H2)
    as (s' & new & Hrun & Hlog & Hrest).
  exists s', new. split; [exact Hrun |]. split; [exact Hlog |].
  change (cache_up_to_date fast_load_no_cache "foo.png") with false in Hrest.
  exact (proj2 Hrest).
Defined.

(** C10 as the spec states it fails here: the source file is missing, so it
    cannot be read, and [CacheBanner] returns without a regeneration
    attempt. *)
Lemma CacheBanner_missing_source_is_not_regenerated :
  is_image_file (files on_demand_no_source) "foo.png" = false ∧
  ∃ s',
    CacheBanner "foo.png" on_demand_no_source = Ok tt s' ∧
    count_events is_LoadFile (log s') = 0%nat ∧
    files s' = files on_demand_no_source ∧
    BannerData s' = BannerData on_demand_no_source.
Proof.
  split; [reflexivity |].
  eexists. split; [vm_compute; reflexivity |]. repeat split; reflexivity.
Qed.

Lemma CacheBanner_unreadable_source_witness :
  is_image_file (files on_demand_no_source) "foo.png" = false ∧
  ∃ s' new,
    CacheBanner "foo.png" on_demand_no_source = Ok tt s' ∧
    log s' = new ++ log on_demand_no_source ∧
    files s' = files on_demand_no_source.
Proof.
  assert (H : is_image_file (files on_demand_no_source) "foo.png" = false) by reflexivity.
  split; [exact H |].
  destruct (CacheBanner_unreadable_source on_demand_no_source "foo.png" H)
    as [(s' & new & Hrun & Hlog & Hfiles & _) _].
  exists s', new. split; [exact Hrun |]. split; [exact Hlog | exact Hfiles].
Defined.

(** ** LoadBanner *)

(** C3 as the spec states it fails here: in preloadAll mode the cache file
    is missing and the source decodes.  The first load fails and one
    regeneration follows, but the regeneration leaves the bitmap resident
    and the call returns without loading a second time. *)
Lemma LoadBanner_preload_returns_after_one_load :
  g_BannerPathToImage preload_no_cache !! "foo.png" = None ∧
  is_saved_surface (files preload_no_cache) (GetBannerCachePath "foo.png") = false ∧
  ∃ s',
    LoadBanner "foo.png" preload_no_cache = Ok tt s' ∧
    count_events is_LoadFile (log s') = 1%nat ∧
    count_events is_LoadSurface (log s') = 1%nat ∧
    count_events is_LoadSurface (log s') ≠ 2%nat ∧
    g_BannerPathToImage s' !! "foo.png" = Some 2%positive.
Proof.
  split; [reflexivity |]. split; [reflexivity |].
  eexists. split; [vm_compute; reflexivity |].
  repeat split; try reflexivity. discriminate.
Qed.

Lemma LoadBanner_one_regeneration_attempt_witness :
  "foo.png" ≠ "" ∧ caching_enabled on_demand_no_cache ∧
  g_BannerPathToImage on_demand_no_cache !! "foo.png" = None ∧
  is_saved_surface (files on_demand_no_cache) (GetBannerCachePath "foo.png") = false ∧
  ∃ s' new,
    LoadBanner "foo.png" on_demand_no_cache = Ok tt s' ∧
    log s' = new ++ log on_demand_no_cache ∧
    count_events is_LoadFile new = 1%nat ∧
    count_events is_LoadSurface new = 2%nat.
Proof.
  assert (H1 : "foo.png" ≠ "") by discriminate.
  assert (H2 : caching_enabled on_demand_no_cache) by (right; reflexivity).
  assert (H3 : g_BannerPathToImage on_demand_no_cache !! "foo.png" = None) by reflexivity.
  assert (H4 : is_saved_surface (files on_demand_no_cache) (GetBannerCachePath "foo.png")
               = false) by reflexivity.
  repeat (split; [assumption |]).
  destruct (LoadBanner_one_regeneration_attempt on_demand_no_cache "foo.png" H1 H2 H3 H4)
    as (s' & new & Hrun & Hlog & Hregen & Hloads).
  exists s', new. repeat (split; [assumption |]).
  change (bool_decide (m_BannerCache (PREFSMAN on_demand_no_cache) = BNCACHE_LOW_RES_PRELOAD)
          && is_image_file (files on_demand_no_cache) "foo.png") with false in Hloads.
  exact (proj1 Hloads).
Defined.

(** C5 as the spec states it fails here: in preloadAll mode, with the cache
    file in place and nothing resident, [LoadBanner] loads the bitmap. *)
Lemma LoadBanner_preload_loads_the_cache_file :
  m_BannerCache (PREFSMAN preload_cached) = BNCACHE_LOW_RES_PRELOAD ∧
  g_BannerPathToImage preload_cached !! "foo.png" = None ∧
  ∃ s',
    LoadBanner "foo.png" preload_cached = Ok tt s' ∧
    g_BannerPathToImage s' !! "foo.png" = Some 1%positive ∧
    cells (surfaces s') !! 1%positive = Some foo_cached_surface ∧
    s' ≠ preload_cached.
Proof.
  split; [reflexivity |]. split; [reflexivity |].
  eexists. split; [vm_compute; reflexivity |].
  split; [reflexivity |]. split; [reflexivity |].
  intros Heq. apply (f_equal (λ s, g_BannerPathToImage s !! "foo.png")) in Heq.
  discriminate Heq.
Qed.

Lemma LoadBanner_no_op_cases_witness :
  m_BannerCache (PREFSMAN preload_resident) = BNCACHE_LOW_RES_PRELOAD ∧
  is_Some (g_BannerPathToImage preload_resident !! "foo.png") ∧
  LoadBanner "foo.png" preload_resident = Ok tt preload_resident.
Proof.
  assert (H1 : m_BannerCache (PREFSMAN preload_resident) = BNCACHE_LOW_RES_PRELOAD)
    by reflexivity.
  assert (H2 : is_Some (g_BannerPathToImage preload_resident !! "foo.png"))
    by (exists 1%positive; reflexivity).
  split; [exact H1 |]. split; [exact H2 |].
  exact (proj1 (proj2 (LoadBanner_no_op_cases preload_resident "foo.png") H1)
           (or_intror H2)).
Defined.

(** ** Demand and Undemand *)

Lemma demand_refcount_transitions_witness :
  0 ≤ g_iDemandRefcount on_demand_cached ∧
  ∃ s1 s2 s3 s4,
    Demand on_demand_cached = Ok tt s1 ∧ Demand s1 = Ok tt s2 ∧
    Undemand s2 = Ok tt s3 ∧ Undemand s3 = Ok tt s4 ∧
    is_Some (g_BannerPathToImage s3 !! "foo.png") ∧
    g_BannerPathToImage s4 = ∅.
Proof.
  assert (H : 0 ≤ g_iDemandRefcount on_demand_cached) by (cbn; lia).
  split; [exact H |].
  destruct (demand_refcount_transitions on_demand_cached H)
    as (_ & _ & s1 & s2 & s3 & Hd1 & Hd2 & Hu1 & _ & _ & _ & _ & Hlast).
  destruct (Hlast eq_refl eq_refl) as (Hloaded & s4 & Hu2 & _ & Hempty & _).
  exists s1, s2, s3, s4. repeat (split; [assumption |]).
  split; [| exact Hempty].
  apply Hloaded; [exists (foo_record 800 600) |]; reflexivity.
Defined.

(** ** LoadCachedBanner *)

Lemma LoadCachedBanner_unloaded_or_zero_sized_witness :
  g_BannerPathToImage on_demand_cached !! "foo.png" = None ∧
  ∃ s',
    LoadCachedBanner "foo.png" on_demand_cached =
      Ok (SongBannerTexture (new_RageTextureID (GetBannerCachePath "foo.png"))) s' ∧
    TEXTUREMAN s' = TEXTUREMAN on_demand_cached.
Proof.
  assert (H : g_BannerPathToImage on_demand_cached !! "foo.png" = None) by reflexivity.
  split; [exact H |].
  destruct (LoadCachedBanner_unloaded_or_zero_sized on_demand_cached "foo.png" (or_introl H))
    as (s' & new & Hrun & _ & Htm & _).
  exists s'. split; [exact Hrun | exact Htm].
Defined.

(** ** CacheBannerInternal *)

Lemma preload_resident_allocated :
  ∀ old, g_BannerPathToImage preload_resident !! "foo.png" = Some old →
         (old < next (surfaces preload_resident))%positive.
Proof. intros old [= <-]. reflexivity. Defined.

Lemma CacheBannerInternal_memory_witness :
  files preload_resident !! "foo.png" = Some foo_file ∧
  file_contents foo_file = ImageFile (demo_image 800 600) ∧
  ∃ s' p,
    CacheBannerInternal "foo.png" preload_resident = Ok tt s' ∧
    cells (surfaces s') !! 1%positive = None ∧
    g_BannerPathToImage s' !! "foo.png" = Some p ∧
    cells (surfaces s') !! p = Some (transformed false (demo_image 800 600)).
Proof.
  assert (H1 : files preload_resident !! "foo.png" = Some foo_file) by reflexivity.
  assert (H2 : file_contents foo_file = ImageFile (demo_image 800 600)) by reflexivity.
  split; [exact H1 |]. split; [exact H2 |].
  destruct (CacheBannerInternal_memory preload_resident "foo.png" foo_file
              (demo_image 800 600) H1 H2 preload_resident_allocated)
    as (s' & p & Hrun & Hold & _ & Hnew & _).
  exists s', p. split; [exact Hrun |].
  split; [exact (proj1 (Hold 1%positive eq_refl)) |].
  destruct (Hnew eq_refl) as (Hentry & _ & Hcell).
  split; [exact Hentry | exact Hcell].
Defined.

Lemma CacheBannerInternal_power_of_two_witness :
  files preload_resident !! "foo.png" = Some foo_file ∧
  file_contents foo_file = ImageFile (demo_image 800 600) ∧
  ∃ s' cached,
    CacheBannerInternal "foo.png" preload_resident = Ok tt s' ∧
    is_power_of_two (surface_w cached) ∧ is_power_of_two (surface_h cached) ∧
    file_contents <$> files s' !! GetBannerCachePath "foo.png" = Some (SavedSurface cached).
Proof.
  assert (H1 : files preload_resident !! "foo.png" = Some foo_file) by reflexivity.
  assert (H2 : file_contents foo_file = ImageFile (demo_image 800 600)) by reflexivity.
  split; [exact H1 |]. split; [exact H2 |].
  destruct (CacheBannerInternal_power_of_two preload_resident "foo.png" foo_file
              (demo_image 800 600) H1 H2)
    as (_ & _ & s' & cached & Hrun & Hw & Hh & _ & _ & Hfile & _).
  exists s', cached. repeat (split; [assumption |]).
  apply Hfile; [| discriminate].
  intros Hin. apply elem_of_empty in Hin. exact Hin.
Defined.

(** The spec's scenario: "foo.png" of 800x600 in preloadAll mode without
    palette.  The index records 800x600, not rotated; the cache file is a
    16-bit surface of 512x256; the bitmap is resident. *)
Example CacheBanner_foo_png :
  ∃ s',
    CacheBanner "foo.png" preload_no_cache = Ok tt s' ∧
    (Width <$> BannerData s' !! "foo.png") = Some (Some 800) ∧
    (Height <$> BannerData s' !! "foo.png") = Some (Some 600) ∧
    (Rotated <$> BannerData s' !! "foo.png") = Some (Some false) ∧
    (file_contents <$> files s' !! "Cache/Banners/foo.png")
      = Some (SavedSurface foo_cached_surface) ∧
    g_BannerPathToImage s' !! "foo.png" = Some 2%positive ∧
    cells (surfaces s') !! 2%positive = Some foo_cached_surface.
Proof.
  eexists. split; [vm_compute; reflexivity |]. repeat split; reflexivity.
Qed.

(** A diagonal banner is un-rotated onto the 256x64 canvas, which the index
    records as its size, and then cached at 128x32. *)
Example CacheBanner_diagonal_banner :
  ∃ s' cached,
    CacheBanner "diag.png" preload_diagonal = Ok tt s' ∧
    (Rotated <$> BannerData s' !! "diag.png") = Some (Some true) ∧
    (Width <$> BannerData s' !! "diag.png") = Some (Some 256) ∧
    (Height <$> BannerData s' !! "diag.png") = Some (Some 64) ∧
    (file_contents <$> files s' !! "Cache/Banners/diag.png") = Some (SavedSurface cached) ∧
    surface_w cached = 128 ∧ surface_h cached = 32.
Proof.
  eexists _, _. split; [vm_compute; reflexivity |]. repeat split; reflexivity.
Qed.

(** With the bitmap resident and its size in the index, [LoadCachedBanner]
    gets past both assertions of [BannerTexture::Create] and registers one
    texture of 512x256 for the original 800x600. *)
Example LoadCachedBanner_resident_banner :
  ∃ ID s' t,
    LoadCachedBanner "foo.png" preload_resident = Ok ID s' ∧
    filename ID = "Cache/Banners/foo.png" ∧ Policy ID = TEX_VOLATILE ∧
    TEXTUREMAN s' = [(ID, t)] ∧
    m_iTextureWidth t = 512 ∧ m_iTextureHeight t = 256 ∧
    m_iSourceWidth t = 800 ∧ m_iSourceHeight t = 600.
Proof.
  eexists _, _, _. split; [vm_compute; reflexivity |]. repeat split; reflexivity.
Qed.

(** ** The further properties on concrete worlds *)

Lemma round_to_power_of_two_nearest_witness :
  1 ≤ 5 ∧ 0 ≤ 3 ∧ Z.abs (5 - round_to_power_of_two 5) ≤ Z.abs (5 - 2 ^ 3).
Proof.
  split; [lia |]. split; [lia |]. apply (round_to_power_of_two_nearest 5 3); lia.
Defined.

Lemma resize_target_small_and_large_witness :
  resize_target 20 = power_of_two 20 ∧ 32 ≤ resize_target 800 < 800.
Proof.
  split.
  - apply (proj1 (resize_target_small_and_large 20)). lia.
  - apply (proj2 (resize_target_small_and_large 800)). lia.
Defined.

Lemma on_demand_no_cache_safe : heap_safe on_demand_no_cache.
Proof. apply heap_safe_empty; [reflexivity | intros q; reflexivity]. Defined.

Lemma preload_diagonal_safe : heap_safe preload_diagonal.
Proof. apply heap_safe_empty; [reflexivity | intros q; reflexivity]. Defined.

Lemma on_demand_cached_safe : heap_safe on_demand_cached.
Proof. apply heap_safe_empty; [reflexivity | intros q; reflexivity]. Defined.

Lemma preload_resident_safe : heap_safe preload_resident.
Proof.
  apply (heap_safe_one _ "foo.png" 1%positive foo_cached_surface); reflexivity.
Defined.

Lemma CacheBanner_twice_witness :
  caching_enabled on_demand_no_cache ∧
  files on_demand_no_cache !! "foo.png" = Some foo_file ∧
  (GetBannerCachePath "foo.png" ∉ read_only on_demand_no_cache) ∧
  ∃ s1,
    CacheBanner "foo.png" on_demand_no_cache = Ok tt s1 ∧
    CacheBanner "foo.png" s1 = Ok tt (add_event (banner_checkpoint "foo.png") s1).
Proof.
  assert (H1 : caching_enabled on_demand_no_cache) by (right; reflexivity).
  assert (H2 : files on_demand_no_cache !! "foo.png" = Some foo_file) by reflexivity.
  assert (H3 : GetBannerCachePath "foo.png" ∉ read_only on_demand_no_cache)
    by apply not_elem_of_empty.
  split; [exact H1 |]. split; [exact H2 |]. split; [exact H3 |].
  apply (CacheBanner_twice on_demand_no_cache "foo.png" foo_file (demo_image 800 600) H1);
    [discriminate | exact H2 | reflexivity | discriminate | discriminate | exact H3].
Defined.

Lemma CacheBanner_preload_leaves_resident_witness :
  m_BannerCache (PREFSMAN preload_cached) = BNCACHE_LOW_RES_PRELOAD ∧
  is_image_file (files preload_cached) "foo.png" = true ∧
  ∃ s',
    CacheBanner "foo.png" preload_cached = Ok tt s' ∧
    is_Some (g_BannerPathToImage s' !! "foo.png").
Proof.
  assert (H1 : m_BannerCache (PREFSMAN preload_cached) = BNCACHE_LOW_RES_PRELOAD)
    by reflexivity.
  assert (H2 : is_image_file (files preload_cached) "foo.png" = true) by reflexivity.
  split; [exact H1 |]. split; [exact H2 |].
  destruct (CacheBanner_preload_leaves_resident preload_cached "foo.png" H1) as
    (s' & Hrun & Hres & _); [discriminate | exact H2 |].
  exists s'. split; [exact Hrun | exact Hres].
Defined.

Lemma CacheBanner_on_demand_keeps_nothing_witness :
  m_BannerCache (PREFSMAN on_demand_no_cache) ≠ BNCACHE_LOW_RES_PRELOAD ∧
  ∃ s',
    CacheBanner "foo.png" on_demand_no_cache = Ok tt s' ∧
    g_BannerPathToImage s' !! "foo.png" = None ∧
    ∀ q, is_Some (cells (surfaces s') !! q) →
         is_Some (cells (surfaces on_demand_no_cache) !! q).
Proof.
  assert (H1 : m_BannerCache (PREFSMAN on_demand_no_cache) ≠ BNCACHE_LOW_RES_PRELOAD)
    by discriminate.
  split; [exact H1 |].
  destruct (CacheBanner_on_demand_keeps_nothing on_demand_no_cache "foo.png" H1)
    as (s' & Hrun & _ & Hgone & Hcells).
  exists s'. split; [exact Hrun |].
  split; [apply Hgone; [right |..]; reflexivity |].
  exact (Hcells on_demand_no_cache_safe).
Defined.

Lemma LoadBanner_does_not_examine_source_witness :
  GetBannerCachePath "foo.png" ≠ "foo.png" ∧
  is_saved_surface (files preload_cached) (GetBannerCachePath "foo.png") = true ∧
  ∃ s',
    LoadBanner "foo.png" preload_cached = Ok tt s' ∧
    LoadBanner "foo.png" (set_files <["foo.png" := foo_file_edited]> preload_cached)
      = Ok tt (set_files <["foo.png" := foo_file_edited]> s') ∧
    files s' = files preload_cached.
Proof.
  assert (H1 : GetBannerCachePath "foo.png" ≠ "foo.png") by discriminate.
  assert (H2 : is_saved_surface (files preload_cached) (GetBannerCachePath "foo.png")
               = true) by reflexivity.
  split; [exact H1 |]. split; [exact H2 |].
  destruct (LoadBanner_does_not_examine_source preload_cached "foo.png" foo_file_edited
              H1 (or_intror H2))
    as (s' & new & Hrun & Hrun' & Hfiles & _).
  exists s'. split; [exact Hrun |]. split; [exact Hrun' | exact Hfiles].
Defined.

Lemma heap_safe_preserved_witness :
  heap_safe preload_resident ∧
  (∀ s', CacheBanner "foo.png" preload_resident = Ok tt s' → heap_safe s') ∧
  (∀ s', UnloadAllBanners preload_resident = Ok tt s' → heap_safe s').
Proof.
  split; [exact preload_resident_safe |].
  destruct (heap_safe_preserved preload_resident preload_resident_safe)
    as (_ & Hcache & _ & _ & _ & Hunload & _).
  split; [exact (Hcache "foo.png") | exact Hunload].
Defined.

Lemma BannerCache_destructor_frees_everything_witness :
  heap_safe preload_resident ∧
  ∃ s',
    BannerCache_destructor preload_resident = Ok tt s' ∧
    g_BannerPathToImage s' = ∅ ∧ cells (surfaces s') !! 1%positive = None.
Proof.
  split; [exact preload_resident_safe |].
  destruct (BannerCache_destructor_frees_everything preload_resident preload_resident_safe)
    as (s' & Hrun & Hmem & Hcells & _).
  exists s'. split; [exact Hrun |]. split; [exact Hmem | exact (Hcells 1%positive)].
Defined.

Lemma LoadCachedBanner_after_caching_witness :
  m_BannerCache (PREFSMAN preload_diagonal) = BNCACHE_LOW_RES_PRELOAD ∧
  heap_safe preload_diagonal ∧
  IsDiagonalBanner 200 200 = true ∧
  ∃ s1 pTexture s2,
    CacheBannerInternal "diag.png" preload_diagonal = Ok tt s1 ∧
    LoadCachedBanner "diag.png" s1
      = Ok (volatile (banner_texture_ID "diag.png" true)) s2 ∧
    m_iSourceWidth pTexture = 256 ∧ m_iSourceHeight pTexture = 64 ∧
    m_iTextureWidth pTexture = 128 ∧ m_iTextureHeight pTexture = 32.
Proof.
  assert (H1 : m_BannerCache (PREFSMAN preload_diagonal) = BNCACHE_LOW_RES_PRELOAD)
    by reflexivity.
  split; [exact H1 |]. split; [exact preload_diagonal_safe |]. split; [reflexivity |].
  destruct (LoadCachedBanner_after_caching preload_diagonal "diag.png"
              {| file_hash := 9; file_contents := ImageFile (demo_image 200 200) |}
              (demo_image 200 200) H1)
    as (s1 & t & s2 & Hrun1 & Hrun2 & _ & _ & Hsw & Hsh & Htw & Hth & _);
    [discriminate | exact preload_diagonal_safe | reflexivity | reflexivity
     | discriminate | discriminate | discriminate | discriminate
     | reflexivity | reflexivity |].
  exists s1, t, s2. split; [exact Hrun1 |]. split; [exact Hrun2 |].
  split; [exact Hsw |]. split; [exact Hsh |]. split; [exact Htw | exact Hth].
Defined.

Lemma preload_wide_guards :
  g_BannerPathToImage preload_wide !! "foo.png" = Some 1%positive ∧
  cells (surfaces preload_wide) !! 1%positive = Some wide_cached_surface.
Proof. split; reflexivity. Defined.

Lemma LoadCachedBanner_converts_once_witness :
  g_BannerPathToImage preload_wide !! "foo.png" = Some 1%positive ∧
  cells (surfaces preload_wide) !! 1%positive = Some wide_cached_surface ∧
  surface_w wide_cached_surface = 4096 ∧ GetMaxTextureSize (DISPLAY preload_wide) = 2048 ∧
  ∃ pTexture s' p' up,
    LoadCachedBanner "foo.png" preload_wide
      = Ok (volatile (banner_texture_ID "foo.png" false)) s' ∧
    g_BannerPathToImage s' !! "foo.png" = Some p' ∧
    cells (surfaces s') !! p' = Some up ∧
    surface_w up = 2048 ∧ surface_h up = 256 ∧
    ∃ pReloaded s'',
      BannerTexture_Reload (deleter := demo_deleter) pTexture s' = Ok pReloaded s'' ∧
      log s'' = log s' ∧ surfaces s'' = surfaces s'.
Proof.
  destruct preload_wide_guards as [H1 H2].
  split; [exact H1 |]. split; [exact H2 |]. split; [reflexivity |]. split; [reflexivity |].
  destruct (LoadCachedBanner_converts_once (deleter := demo_deleter) preload_wide "foo.png"
              1%positive wide_cached_surface)
    as (t & s' & Hrun & _ & (p' & Hp' & Hcell) & Hw & Hh & t2 & s2 & Hreload & Hlog & Hheap & _);
    [discriminate | exact H1 | exact H2 | discriminate | discriminate
     | reflexivity | reflexivity | reflexivity | reflexivity | reflexivity | reflexivity |].
  exists t, s', p', (fitted 2048 wide_cached_surface).
  split; [exact Hrun |]. split; [exact Hp' |]. split; [exact Hcell |].
  split; [exact Hw |]. split; [exact Hh |].
  exists t2, s2. split; [exact Hreload |]. split; [exact Hlog | exact Hheap].
Defined.

(** A cache file of 300x200 that has been loaded stops [LoadCachedBanner]
    at the assertion on the width. *)
Lemma LoadCachedBanner_returns_iff_witness :
  g_BannerPathToImage preload_odd !! "foo.png" = Some 1%positive ∧
  cells (surfaces preload_odd) !! 1%positive = Some odd_cached_surface ∧
  power_of_two_check 300 = false ∧
  ¬ ∃ ID s', LoadCachedBanner "foo.png" preload_odd = Ok ID s'.
Proof.
  assert (H1 : g_BannerPathToImage preload_odd !! "foo.png" = Some 1%positive)
    by reflexivity.
  assert (H2 : cells (surfaces preload_odd) !! 1%positive = Some odd_cached_surface)
    by reflexivity.
  split; [exact H1 |]. split; [exact H2 |]. split; [reflexivity |].
  intros Hret.
  apply (LoadCachedBanner_returns_iff preload_odd "foo.png" 1%positive odd_cached_surface)
    in Hret; [discriminate Hret | discriminate | exact H1 | exact H2
              | discriminate | discriminate | reflexivity].
Defined.

Lemma CacheBannerInternal_cache_entry_witness :
  files on_demand_no_cache !! "foo.png" = Some foo_file ∧
  file_contents foo_file = ImageFile (demo_image 800 600) ∧
  ∃ s' cached,
    CacheBannerInternal "foo.png" on_demand_no_cache = Ok tt s' ∧
    GetValue "foo.png" Width s' = Some 800 ∧ GetValue "foo.png" Height s' = Some 600 ∧
    GetValue "foo.png" Rotated s' = Some false ∧
    GetValue "foo.png" FullHash s' = Some 7 ∧
    file_contents <$> files s' !! GetBannerCachePath "foo.png"
      = Some (SavedSurface cached) ∧
    BitsPerPixel (surface_fmt cached) = 16.
Proof.
  assert (H1 : files on_demand_no_cache !! "foo.png" = Some foo_file) by reflexivity.
  assert (H2 : file_contents foo_file = ImageFile (demo_image 800 600)) by reflexivity.
  split; [exact H1 |]. split; [exact H2 |].
  destruct (CacheBannerInternal_cache_entry on_demand_no_cache "foo.png" foo_file
              (demo_image 800 600) H1 H2)
    as (s' & cached & Hrun & _ & Hw & Hh & Hr & Hhash & _ & Hfile & _ & _ & _ & Hfmt).
  exists s', cached. split; [exact Hrun |]. split; [exact Hw |]. split; [exact Hh |].
  split; [exact Hr |]. split; [apply Hhash; discriminate |].
  split; [| exact (f_equal BitsPerPixel (Hfmt eq_refl))].
  apply Hfile; [| discriminate]. intros Hin. apply elem_of_empty in Hin. exact Hin.
Defined.

Lemma one_banner_at_a_time_witness :
  heap_safe preload_resident ∧
  ∃ s1,
    CacheBanner "bar.png" preload_resident = Ok tt s1 ∧
    g_BannerPathToImage s1 !! "foo.png" = Some 1%positive ∧
    cells (surfaces s1) !! 1%positive = Some foo_cached_surface ∧
    files s1 !! "foo.png" = Some foo_file.
Proof.
  split; [exact preload_resident_safe |].
  destruct (one_banner_at_a_time preload_resident "bar.png" preload_resident_safe)
    as (s1 & s2 & Hrun1 & _ & Hsame).
  destruct (Hsame s1 (or_introl eq_refl)) as [Hothers Hfiles].
  destruct (Hothers "foo.png") as (Hmem & _ & Hcell); [discriminate |].
  exists s1. split; [exact Hrun1 |].
  split; [rewrite Hmem; reflexivity |].
  split; [rewrite (Hcell 1%positive eq_refl); reflexivity |].
  rewrite Hfiles; [reflexivity | discriminate | discriminate].
Defined.

Lemma Demand_Undemand_balanced_witness :
  g_iDemandRefcount on_demand_cached = 0 ∧ heap_safe on_demand_cached ∧
  Z.of_nat 3 ≤ 2 ^ 31 - 1 ∧
  ∃ s1 s2,
    times 3 Demand on_demand_cached = Ok tt s1 ∧ times 3 Undemand s1 = Ok tt s2 ∧
    g_iDemandRefcount s1 = 3 ∧ g_iDemandRefcount s2 = 0 ∧
    g_BannerPathToImage s2 = ∅.
Proof.
  split; [reflexivity |]. split; [exact on_demand_cached_safe |].
  split; [vm_compute; discriminate |].
  destruct (Demand_Undemand_balanced 2 on_demand_cached eq_refl on_demand_cached_safe
              ltac:(vm_compute; discriminate))
    as (s0 & s1 & s2 & _ & Hrun1 & Hrun2 & Hc1 & Hc2 & _ & _ & _ & _ & Hdemand & _).
  exists s1, s2. split; [exact Hrun1 |]. split; [exact Hrun2 |].
  split; [exact Hc1 |]. split; [exact Hc2 |].
  exact (proj1 (Hdemand eq_refl)).
Defined.

Lemma LoadCachedBanner_already_registered_witness :
  ∃ s1 ID,
    LoadCachedBanner "foo.png" preload_resident = Ok (volatile ID) s1 ∧
    IsTextureRegistered ID (TEXTUREMAN s1) = true ∧
    ∃ s2, LoadCachedBanner "foo.png" s1 = Ok ID s2 ∧
          TEXTUREMAN s2 = TEXTUREMAN s1 ∧ DISPLAY s2 = DISPLAY s1 ∧
          surfaces s2 = surfaces s1.
Proof.
  eexists _, (banner_texture_ID "foo.png" false).
  split; [vm_compute; reflexivity |].
  split; [reflexivity |].
  eexists. split.
  - match goal with
    | |- LoadCachedBanner _ ?s1 = _ =>
        apply (LoadCachedBanner_already_registered s1 "foo.png" 1%positive);
          [discriminate | reflexivity | discriminate | discriminate | reflexivity]
    end.
  - split; [reflexivity |]. split; reflexivity.
Defined.

Lemma cache_maintenance_never_asserts_witness :
  heap_safe preload_resident ∧
  ∃ s1 s2,
    CacheBannerInternal "foo.png" preload_resident = Ok tt s1 ∧ heap_safe s1 ∧
    LoadBanner "foo.png" s1 = Ok tt s2 ∧ heap_safe s2.
Proof.
  split; [exact preload_resident_safe |].
  destruct (cache_maintenance_never_asserts preload_resident "foo.png"
              preload_resident_safe) as ((s1 & Hrun1 & Hsafe1) & _).
  destruct (cache_maintenance_never_asserts s1 "foo.png" Hsafe1)
    as (_ & _ & (s2 & Hrun2 & Hsafe2)).
  exists s1, s2. split; [exact Hrun1 |]. split; [exact Hsafe1 |].
  split; [exact Hrun2 | exact Hsafe2].
Defined.
